(** * Sequence I/O of atropos ([atropos/io/seqio.py]): readers, pairing, format detection

    A shallow embedding of the reader classes, the formatters and the two
    factories of [seqio.py], followed by the properties of their iteration
    protocols and of the format detection.

    - Python [str] values are [string]s; a character stands for the code
      point with the same number, so the model covers text whose code
      points are below 256.
    - Exceptions are values of [exn]; a call that may raise returns a
      [result].
    - A generator is described by the [run] it produces when iterated to
      its end: the items it yields, in order, and the way it ends.  An
      iterator that a reader pulls from is an [iterator]: records followed
      by exhaustion or by an exception.
    - An open file is the list of lines it has not delivered yet; reading
      from it returns the file that is left.
    - What lives outside [seqio.py] is a parameter ([truncate_string],
      [STDOUT], [sys.stdin], the decoded alignment records) or, for
      [Sequence] and [splitext_compressed], a definition modelled from the
      specification and marked so. *)

From Stdlib Require Import String Ascii List Bool Arith ZArith Lia.
From Stdlib Require Import DecimalString.
Import ListNotations.
Open Scope string_scope.
Open Scope list_scope.

(* ================================================================== *)
(** * Python string operations *)

Module PyStr.

(** [str.isspace] on one character: U+0009..U+000D, U+001C..U+0020,
    U+0085 and U+00A0 are the white space code points below 256. *)
Definition isspace (c : ascii) : bool :=
  let n := nat_of_ascii c in
  (((9 <=? n) && (n <=? 13)) || ((28 <=? n) && (n <=? 32))
   || (n =? 133) || (n =? 160))%nat.

Fixpoint lstrip (s : string) : string :=
  match s with
  | String c s' => if isspace c then lstrip s' else s
  | EmptyString => EmptyString
  end.

Fixpoint rstrip (s : string) : string :=
  match s with
  | EmptyString => EmptyString
  | String c s' =>
      match rstrip s' with
      | EmptyString => if isspace c then EmptyString else String c EmptyString
      | r => String c r
      end
  end.

(** [s.strip()] *)
Definition strip (s : string) : string := rstrip (lstrip s).

(** The run of non-blank characters at the front of [s], and the rest. *)
Fixpoint span_word (s : string) : string * string :=
  match s with
  | String c s' =>
      if isspace c then (EmptyString, s)
      else let (w, r) := span_word s' in (String c w, r)
  | EmptyString => (EmptyString, EmptyString)
  end.

(** [s.split(None, 1)]: leading white space is skipped, the first word is
    cut off, and what follows (without its leading white space) is kept as
    a second item when it is not empty. *)
Definition split_none_1 (s : string) : list string :=
  match lstrip s with
  | EmptyString => []
  | s1 =>
      let (w, r) := span_word s1 in
      match lstrip r with
      | EmptyString => [w]
      | r' => [w; r']
      end
  end.

(** Index normalisation of a slice bound. *)
Definition clamp_index (len i : Z) : Z :=
  if (i <? 0)%Z then Z.max (i + len) 0 else Z.min i len.

(** [s[start:stop]]; [None] is an omitted bound. *)
Definition slice (s : string) (start stop : option Z) : string :=
  let len := Z.of_nat (String.length s) in
  let lo := match start with Some i => clamp_index len i | None => 0%Z end in
  let hi := match stop with Some j => clamp_index len j | None => len end in
  substring (Z.to_nat lo) (Z.to_nat (hi - lo)) s.

(** [sub in s] for two strings. *)
Fixpoint contains (sub s : string) : bool :=
  prefix sub s
  || match s with
     | String _ s' => contains sub s'
     | EmptyString => false
     end.

Definition startswith (s p : string) : bool := prefix p s.

(** [s.endswith(suf)]: one of the tails of [s] is [suf]. *)
Fixpoint endswith (s suf : string) : bool :=
  (s =? suf)%string
  || match s with
     | String _ s' => endswith s' suf
     | EmptyString => false
     end.

Definition lower_char (c : ascii) : ascii :=
  let n := nat_of_ascii c in
  if (((65 <=? n) && (n <=? 90))
      || ((192 <=? n) && (n <=? 222) && negb (n =? 215)))%nat
  then ascii_of_nat (n + 32) else c.

(** [s.lower()] *)
Fixpoint lower (s : string) : string :=
  match s with
  | EmptyString => EmptyString
  | String c s' => String (lower_char c) (lower s')
  end.

(** [sep.join(items)] *)
Definition join (sep : string) (items : list string) : string :=
  String.concat sep items.

(** Membership of a string in a list or tuple of strings. *)
Definition in_strs (s : string) (l : list string) : bool :=
  existsb (String.eqb s) l.

Definition newline : ascii := "010"%char.
Definition nl : string := String newline EmptyString.

End PyStr.
Import PyStr.

(* ================================================================== *)
(** * Exceptions, results, generators *)

(** The messages of [FormatError], with the values formatted into them:
    - [ColorspaceLengthMismatch]: "In read named ...: length of colorspace
      quality sequence (...) and length of read (...) do not match (primer
      is: ...)";
    - [PrimerNotACGT]: "Primer base is ... in read ..., but it should be one
      of A, C, G, T.";
    - [QualityLengthMismatch]: the length check of [Sequence];
    - [ExpectedHeader]: "At line ...: Expected '>' at beginning of FASTA
      record, but got ...";
    - [MoreReadsInFile2]: "Reads are improperly paired. There are more reads
      in file 2 than in file 1.";
    - [MoreReadsInFile1]: "Reads are improperly paired. There are more reads
      in file 1 than in file 2.";
    - [PairedNameMismatch]: "Reads are improperly paired. Read name '...' in
      file 1 does not match '...' in file 2.";
    - [InterleavedIncomplete]: "Interleaved input file incomplete: Last
      record has no partner.";
    - [InterleavedNameMismatch]: "Reads are improperly paired. Name ...
      (first) does not match ... (second)." *)
Inductive format_msg : Type :=
| ColorspaceLengthMismatch (rname : string) (nqual nseq : nat) (primer : string)
| PrimerNotACGT (primer rname : string)
| QualityLengthMismatch (rname : string) (nqual nseq : nat)
| ExpectedHeader (lineno : nat) (line : string)
| MoreReadsInFile2
| MoreReadsInFile1
| PairedNameMismatch (name1 name2 : string)
| InterleavedIncomplete
| InterleavedNameMismatch (name1 name2 : string).

(** The messages of [UnknownFileType]: the format that [open_reader] could
    not place, the extension that [guess_format_from_name] did not
    recognize, "Could not determine file type." and the format that
    [get_format] could not place. *)
Inductive unknown_msg : Type :=
| UnknownReaderFormat (fileformat : option string)
| ExtensionNotRecognized (ext : string)
| CouldNotDetermine
| UnknownWriterFormat (fileformat : string).

(** The messages of the [ValueError]s of the two factories. *)
Inductive value_msg : Type :=
| InterleavedWithSecondInput
| BothFile2AndQualfile
| SamBamColorspace
| FastqWithoutQualities.

(** The exceptions that leave the modelled code.  [AtroposError] carries
    the two record names given to it; [IndexError], [UnboundLocalError],
    [AssertionError] and [TypeError] are raised by the interpreter. *)
Inductive exn : Type :=
| FormatError (m : format_msg)
| UnknownFileType (m : unknown_msg)
| AtroposError (name1 name2 : string)
| ValueError (m : value_msg)
| IndexError
| UnboundLocalError (var : string)
| AssertionError
| TypeError.

Inductive result (A : Type) : Type :=
| Ok (a : A)
| Raise (e : exn).
Arguments Ok {A} a.
Arguments Raise {A} e.

Definition bind {A B} (r : result A) (k : A -> result B) : result B :=
  match r with
  | Ok a => k a
  | Raise e => Raise e
  end.

Notation "x <- r ;; k" := (bind r (fun x => k))
  (at level 61, r at next level, right associativity).

(** What iterating a generator to its end shows: the items yielded and then
    either normal exhaustion ([None]) or the exception that left it. *)
Record run (A : Type) : Type := mkRun {
  yielded : list A;
  ending : option exn
}.
Arguments mkRun {A} yielded ending.
Arguments yielded {A} r.
Arguments ending {A} r.

Definition done {A} : run A := mkRun [] None.
Definition raise {A} (e : exn) : run A := mkRun [] (Some e).
Definition yield {A} (a : A) (k : run A) : run A :=
  mkRun (a :: yielded k) (ending k).

(** An iterator handed to a reader: the records it still delivers, ended by
    [StopIteration] ([Exhausted]) or by an exception of its own. *)
Inductive iterator (A : Type) : Type :=
| Exhausted
| Fails (e : exn)
| Item (a : A) (rest : iterator A).
Arguments Exhausted {A}.
Arguments Fails {A} e.
Arguments Item {A} a rest.

Fixpoint iter_of_list {A} (l : list A) : iterator A :=
  match l with
  | [] => Exhausted
  | a :: l' => Item a (iter_of_list l')
  end.

(** Objects with a [name] attribute. *)
Class Named (R : Type) : Type := read_name : R -> string.

(* ================================================================== *)
(** * Name comparison and the pairing readers *)

Definition getitem0 (l : list string) : result string :=
  match l with
  | x :: _ => Ok x
  | [] => Raise IndexError
  end.

(** [sequence_names_match(read1, read2)] *)
Definition sequence_names_match {R1 R2} `{Named R1} `{Named R2}
    (read1 : R1) (read2 : R2) : result bool :=
  name1 <- getitem0 (split_none_1 (read_name read1)) ;;
  name2 <- getitem0 (split_none_1 (read_name read2)) ;;
  let '(name1, name2) :=
    if contains (slice name1 (Some (-1)%Z) None) "12"
       && contains (slice name2 (Some (-1)%Z) None) "12"
    then (slice name1 None (Some (-1)%Z), slice name2 None (Some (-1)%Z))
    else (name1, name2) in
  Ok (name1 =? name2)%string.

Section Pairing.
Context {R : Type} `{Named R}.

(** [PairedSequenceReader.__iter__], over the iterators of its two
    readers. *)
Fixpoint PairedSequenceReader_iter (it1 it2 : iterator R) : run (R * R) :=
  match it1 with
  | Exhausted =>
      match it2 with
      | Item _ _ => raise (FormatError MoreReadsInFile2)
      | Exhausted => done
      | Fails e => raise e
      end
  | Fails e => raise e
  | Item read1 it1' =>
      match it2 with
      | Exhausted => raise (FormatError MoreReadsInFile1)
      | Fails e => raise e
      | Item read2 it2' =>
          match sequence_names_match read1 read2 with
          | Raise e => raise e
          | Ok false =>
              raise (FormatError
                       (PairedNameMismatch (read_name read1) (read_name read2)))
          | Ok true =>
              yield (read1, read2) (PairedSequenceReader_iter it1' it2')
          end
      end
  end.

(** [InterleavedSequenceReader.__iter__], over the iterator of its
    reader. *)
Fixpoint InterleavedSequenceReader_iter (itr : iterator R) : run (R * R) :=
  match itr with
  | Exhausted => done
  | Fails e => raise e
  | Item read1 itr1 =>
      match itr1 with
      | Exhausted => raise (FormatError InterleavedIncomplete)
      | Fails e => raise e
      | Item read2 itr2 =>
          match sequence_names_match read1 read2 with
          | Raise e => raise e
          | Ok false =>
              raise (FormatError
                       (InterleavedNameMismatch (read_name read1)
                                                (read_name read2)))
          | Ok true =>
              yield (read1, read2) (InterleavedSequenceReader_iter itr2)
          end
      end
  end.

(** [paired_to_read1] and [paired_to_read2] *)
Definition paired_to_read1 (reader : run (R * R)) : run R :=
  mkRun (map fst (yielded reader)) (ending reader).
Definition paired_to_read2 (reader : run (R * R)) : run R :=
  mkRun (map snd (yielded reader)) (ending reader).

End Pairing.

(* ================================================================== *)
(** * Sequence records *)

Record Sequence : Type := mkSequence {
  name : string;
  sequence : string;
  qualities : option string;
  name2 : string
}.

#[global] Instance Sequence_Named : Named Sequence := name.

Section Records.
(** [atropos.util.truncate_string], used only inside error messages. *)
Variable truncate_string : string -> string.

(** Modelled from the spec: the constructor of [Sequence], a class of the
    compiled module [_seqio].  A record holds [name], [sequence], optional
    [qualities] and [name2]; when qualities are present their length must
    equal that of the sequence.  The auxiliary trimming fields are handed
    on unchanged by every caller here and are left out. *)
Definition Sequence_init (name sequence : string) (qualities : option string)
    (name2 : string) : result Sequence :=
  match qualities with
  | Some q =>
      if (String.length q =? String.length sequence)%nat
      then Ok (mkSequence name sequence qualities name2)
      else Raise (FormatError
                    (QualityLengthMismatch (truncate_string name)
                       (String.length q) (String.length sequence)))
  | None => Ok (mkSequence name sequence qualities name2)
  end.

Record ColorspaceSequence : Type := mkColorspaceSequence {
  cs_read : Sequence;
  primer : string
}.

(** [ColorspaceSequence.__init__] *)
Definition ColorspaceSequence_init (name sequence : string)
    (qualities : option string) (primer : option string) (name2 : string)
    : result ColorspaceSequence :=
  let '(self_primer, sequence) :=
    match primer with
    | None => (slice sequence (Some 0%Z) (Some 1%Z), slice sequence (Some 1%Z) None)
    | Some p => (p, sequence)
    end in
  let mismatch :=
    match qualities with
    | Some q =>
        if negb (String.length sequence =? String.length q)%nat
        then Some (String.length q) else None
    | None => None
    end in
  match mismatch with
  | Some nqual =>
      Raise (FormatError
               (ColorspaceLengthMismatch (truncate_string name) nqual
                  (String.length sequence) self_primer))
  | None =>
      base <- Sequence_init name sequence qualities name2 ;;
      if negb (in_strs self_primer ["A"; "C"; "G"; "T"])
      then Raise (FormatError (PrimerNotACGT self_primer (truncate_string name)))
      else Ok (mkColorspaceSequence base self_primer)
  end.

(** [sra_colorspace_sequence] *)
Definition sra_colorspace_sequence (name sequence : string)
    (qualities : option string) (name2 : string) : result ColorspaceSequence :=
  match qualities with
  | None => Raise TypeError
  | Some q =>
      ColorspaceSequence_init name sequence (Some (slice q (Some 1%Z) None))
        None name2
  end.

End Records.

#[global] Instance ColorspaceSequence_Named : Named ColorspaceSequence :=
  fun r => name (cs_read r).

(* ================================================================== *)
(** * File objects and the prepended line *)

(** What a reader is opened on: a path, an open file object (its [name]
    attribute when it has one, and the lines it has not delivered yet), or
    an open file with one line put back in front. *)
Inductive pyfile : Type :=
| PathStr (path : string)
| FileObj (fname : option string) (lines : list string)
| Prepended (first_line : string) (file : pyfile).

(** [FileWithPrependedLine.__init__] *)
Definition FileWithPrependedLine (file : pyfile) (line : string) : pyfile :=
  Prepended (if endswith line nl then line else line ++ nl)%string file.

(** The items of [for line in f]: the characters of a [str], the pending
    lines of a file object, [FileWithPrependedLine.__iter__] for the
    wrapper. *)
Fixpoint iter_file (f : pyfile) : list string :=
  match f with
  | PathStr p => map (fun c => String c EmptyString) (list_ascii_of_string p)
  | FileObj _ lines => lines
  | Prepended first_line file => first_line :: iter_file file
  end.

(* ================================================================== *)
(** * FASTA reader and formatters *)

Definition first_is (c : ascii) (line : string) : bool :=
  match line with
  | String a _ => Ascii.eqb a c
  | EmptyString => false
  end.

Definition emit {A} (r : result A) (k : run A) : run A :=
  match r with
  | Ok a => yield a k
  | Raise e => raise e
  end.

Section Fasta.
Variable truncate_string : string -> string.
Context {S : Type}.
(** The [sequence_class] the reader was built with. *)
Variable sequence_class : string -> string -> option string -> result S.
(** [self._delimiter] *)
Variable delimiter : string.

(** The loop of [FastaReader.__iter__] from line index [i] on, with the
    current [name] and [seq]. *)
Fixpoint FastaReader_loop (i : nat) (name : option string) (seq : list string)
    (lines : list string) : run S :=
  match lines with
  | [] =>
      match name with
      | Some n => emit (sequence_class n (join delimiter seq) None) done
      | None => done
      end
  | line :: rest =>
      let line := strip line in
      if (line =? "")%string then FastaReader_loop (i + 1) name seq rest
      else if first_is ">" line then
        let continue :=
          FastaReader_loop (i + 1) (Some (slice line (Some 1%Z) None)) [] rest in
        match name with
        | Some n => emit (sequence_class n (join delimiter seq) None) continue
        | None => continue
        end
      else if first_is "#" line then FastaReader_loop (i + 1) name seq rest
      else
        match name with
        | Some _ => FastaReader_loop (i + 1) name (seq ++ [line]) rest
        | None =>
            raise (FormatError (ExpectedHeader (i + 1) (truncate_string line)))
        end
  end.

(** [FastaReader.__iter__] over the lines of [self._file]. *)
Definition FastaReader_iter (lines : list string) : run S :=
  FastaReader_loop 0 None [] lines.

End Fasta.

(** The formatter objects returned by [get_format]; [text_wrapper] is the
    width of the [TextWrapper], if one was made. *)
Inductive SequenceFileFormat : Type :=
| FastaFormat (text_wrapper : option nat)
| ColorspaceFastaFormat (text_wrapper : option nat)
| FastqFormat
| ColorspaceFastqFormat.

(** [FastaFormat.__init__]: a wrapper is made only for a truthy
    [line_length]. *)
Definition FastaFormat_init (line_length : option nat) : option nat :=
  match line_length with
  | Some 0 => None
  | Some n => Some n
  | None => None
  end.

Section Formatting.
(** [textwrap.TextWrapper(width).fill] of the Python library. *)
Variable textwrap_fill : nat -> string -> string.

(** [FastaFormat.format_entry] *)
Definition FastaFormat_format_entry (text_wrapper : option nat)
    (name sequence : string) : string :=
  let sequence :=
    match text_wrapper with
    | Some w => textwrap_fill w sequence
    | None => sequence
    end in
  join "" [">"; name; nl; sequence; nl].

(** [FastaFormat.format] *)
Definition FastaFormat_format (text_wrapper : option nat) (read : Sequence)
    : string :=
  FastaFormat_format_entry text_wrapper (name read) (sequence read).

(** [ColorspaceFastaFormat.format] *)
Definition ColorspaceFastaFormat_format (text_wrapper : option nat)
    (read : ColorspaceSequence) : string :=
  FastaFormat_format_entry text_wrapper (name (cs_read read))
    (primer read ++ sequence (cs_read read))%string.

(** [FastqFormat.format_entry]; joining a missing quality string is a
    [TypeError]. *)
Definition FastqFormat_format_entry (name sequence : string)
    (qualities : option string) (name2 : string) : result string :=
  match qualities with
  | Some q =>
      Ok (join "" ["@"; name; nl; sequence; (nl ++ "+")%string; name2; nl; q; nl])
  | None => Raise TypeError
  end.

Definition FastqFormat_format (read : Sequence) : result string :=
  FastqFormat_format_entry (name read) (sequence read) (qualities read)
    (name2 read).

Definition ColorspaceFastqFormat_format (read : ColorspaceSequence)
    : result string :=
  FastqFormat_format_entry (name (cs_read read))
    (primer read ++ sequence (cs_read read))%string
    (qualities (cs_read read)) "".

End Formatting.

(* ================================================================== *)
(** * Alignment-record readers *)

(** The attributes of a decoded alignment record that the readers use. *)
Record AlignedSegment : Type := mkAlignedSegment {
  query_name : string;
  query_sequence : string;
  query_qualities : option (list nat);
  is_read1 : bool;
  is_read2 : bool
}.

Section SAM.
Context {S : Type}.
(** The [sequence_class] of the reader; it receives the name, the
    sequence and the code points [33 + q] of the quality string. *)
Variable sequence_class : string -> string -> list nat -> result S.

(** [SAMReader._as_sequence] *)
Definition _as_sequence (read : AlignedSegment) : result S :=
  match query_qualities read with
  | None => Raise TypeError
  | Some qs =>
      sequence_class (query_name read) (query_sequence read)
        (map (fun q => 33 + q) qs)
  end.

(** [SingleEndSAMReader._iter] *)
Fixpoint SingleEndSAMReader_iter (sam : iterator AlignedSegment) : run S :=
  match sam with
  | Exhausted => done
  | Fails e => raise e
  | Item read rest => emit (_as_sequence read) (SingleEndSAMReader_iter rest)
  end.

(** [Read1SingleEndSAMReader._iter] *)
Fixpoint Read1SingleEndSAMReader_iter (sam : iterator AlignedSegment) : run S :=
  match sam with
  | Exhausted => done
  | Fails e => raise e
  | Item read rest =>
      if is_read1 read
      then emit (_as_sequence read) (Read1SingleEndSAMReader_iter rest)
      else Read1SingleEndSAMReader_iter rest
  end.

(** [Read2SingleEndSAMReader._iter] *)
Fixpoint Read2SingleEndSAMReader_iter (sam : iterator AlignedSegment) : run S :=
  match sam with
  | Exhausted => done
  | Fails e => raise e
  | Item read rest =>
      if is_read2 read
      then emit (_as_sequence read) (Read2SingleEndSAMReader_iter rest)
      else Read2SingleEndSAMReader_iter rest
  end.

(** The body of the loop of [PairedEndSAMReader._iter] for one item of
    [zip(sam, sam)]. *)
Definition PairedEndSAMReader_body (reads : AlignedSegment * AlignedSegment)
    : result (S * S) :=
  if negb (query_name (fst reads) =? query_name (snd reads))%string
  then Raise (AtroposError (query_name (fst reads)) (query_name (snd reads)))
  else
    reads <- (if is_read1 (fst reads)
              then if is_read2 (snd reads) then Ok reads
                   else Raise AssertionError
              else if is_read1 (snd reads) then Ok (snd reads, fst reads)
                   else Raise AssertionError) ;;
    s1 <- _as_sequence (fst reads) ;;
    s2 <- _as_sequence (snd reads) ;;
    Ok (s1, s2).

(** [PairedEndSAMReader._iter]: [zip(sam, sam)] pulls two records from the
    one iterator per step and stops as soon as either pull finds it
    exhausted. *)
Fixpoint PairedEndSAMReader_iter (sam : iterator AlignedSegment)
    : run (S * S) :=
  match sam with
  | Exhausted => done
  | Fails e => raise e
  | Item r0 sam1 =>
      match sam1 with
      | Exhausted => done
      | Fails e => raise e
      | Item r1 sam2 =>
          emit (PairedEndSAMReader_body (r0, r1)) (PairedEndSAMReader_iter sam2)
      end
  end.

End SAM.

(* ================================================================== *)
(** * Format detection from the file name *)

(** [str.rfind] of one character: the index of its last occurrence. *)
Fixpoint rfind (c : ascii) (s : string) : option nat :=
  match s with
  | EmptyString => None
  | String a s' =>
      match rfind c s' with
      | Some i => Some (1 + i)
      | None => if Ascii.eqb a c then Some 0 else None
      end
  end.

Fixpoint all_dots (s : string) : bool :=
  match s with
  | EmptyString => true
  | String a s' => Ascii.eqb a "." && all_dots s'
  end.

(** [os.path.splitext]: the extension starts at the last dot of the last
    path component, unless only dots precede it there. *)
Definition splitext (p : string) : string * string :=
  match rfind "." p with
  | None => (p, "")
  | Some dot =>
      let start := match rfind "/" p with Some i => 1 + i | None => 0 end in
      if (start <=? dot)%nat && negb (all_dots (substring start (dot - start) p))
      then (substring 0 dot p, substring dot (String.length p - dot) p)
      else (p, "")
  end.

Definition compression_suffixes : list string := [".gz"; ".bz2"; ".xz"].

Fixpoint strip_compression (suffixes : list string) (name : string)
    : string * option string :=
  match suffixes with
  | [] => (name, None)
  | ext :: more =>
      if endswith name ext
      then (slice name None (Some (- Z.of_nat (String.length ext))%Z), Some ext)
      else strip_compression more name
  end.

(** Modelled from the spec: [atropos.io.compression.splitext_compressed],
    which is not part of the sources at hand.  A recognized compression
    suffix ([.gz], [.bz2], [.xz]) is stripped from the name, and what remains
    is split into stem and extension; the result is the stem, the extension
    and the compression suffix that was found. *)
Definition splitext_compressed (name : string) : string * string * option string :=
  let '(name, compressed_ext) := strip_compression compression_suffixes name in
  let '(name, ext) := splitext name in
  (name, ext, compressed_ext).

(** The [name] that [guess_format_from_name] looks at: the path itself for
    a [str], the [name] attribute of an object that has one. *)
Definition path_name (path : pyfile) : option string :=
  match path with
  | PathStr p => Some p
  | FileObj fname _ => fname
  | Prepended _ _ => None
  end.

(** The [if name:] block of [guess_format_from_name]: the format found, and
    the value bound to [ext]. *)
Definition guess_from_extension (name : string) : option string * string :=
  let '(name, ext1, _) := splitext_compressed name in
  let ext := lower ext1 in
  if in_strs ext [".fasta"; ".fa"; ".fna"; ".csfasta"; ".csfa"]
  then (Some "fasta", ext)
  else if in_strs ext [".fastq"; ".fq"]
          || ((ext =? ".txt")%string && endswith name "_sequence")
  then (Some "fastq", ext)
  else if in_strs ext [".sam"; ".bam"]
  then (Some (slice ext (Some 1%Z) None), ext)
  else (None, ext).

(** [guess_format_from_name(path, raise_on_failure)]; [Ok None] is a return
    without a value.  When the name is missing or empty, [ext] is never
    bound and the statement that raises reads it. *)
Definition guess_format_from_name (path : pyfile) (raise_on_failure : bool)
    : result (option string) :=
  let '(found, ext) :=
    match path_name path with
    | Some (String _ _ as name) =>
        let '(fmt, ext) := guess_from_extension name in (fmt, Some ext)
    | _ => (None, None)
    end in
  match found with
  | Some fmt => Ok (Some fmt)
  | None =>
      if raise_on_failure
      then match ext with
           | Some e => Raise (UnknownFileType (ExtensionNotRecognized e))
           | None => Raise (UnboundLocalError "ext")
           end
      else Ok None
  end.

(* ================================================================== *)
(** * The output factory *)

Definition is_none {A} (o : option A) : bool :=
  match o with None => true | Some _ => false end.

(** [get_format(path, fileformat, colorspace, qualities, line_length)];
    [qualities] is [None], [True] or [False]. *)
Definition get_format (path : pyfile) (fileformat : option string)
    (colorspace : bool) (qualities : option bool) (line_length : option nat)
    : result SequenceFileFormat :=
  fileformat <-
    match fileformat with
    | None => guess_format_from_name path (is_none qualities)
    | Some f => Ok (Some f)
    end ;;
  let fileformat :=
    match fileformat with
    | None =>
        match qualities with
        | Some true => Some "fastq"
        | Some false => Some "fasta"
        | None => None
        end
    | Some f => Some f
    end in
  match fileformat with
  | None => Raise (UnknownFileType CouldNotDetermine)
  | Some fileformat =>
      if (fileformat =? "fastq")%string
         && match qualities with Some false => true | _ => false end
      then Raise (ValueError FastqWithoutQualities)
      else
        let fileformat := lower fileformat in
        if (fileformat =? "fasta")%string then
          Ok (if colorspace
              then ColorspaceFastaFormat (FastaFormat_init line_length)
              else FastaFormat (FastaFormat_init line_length))
        else if (fileformat =? "fastq")%string then
          Ok (if colorspace then ColorspaceFastqFormat else FastqFormat)
        else Raise (UnknownFileType (UnknownWriterFormat fileformat))
  end.

(* ================================================================== *)
(** * The input factory *)

(** The reader objects [open_reader] returns, each with what it was
    constructed on.  A constructor that is given a file object keeps it.
    Given a [str] path it opens the path with [xopen], which is where it
    can raise; the file system is not modelled, so a reader on a [PathStr]
    stands for the call of the constructor on that path. *)
Inductive Reader : Type :=
| PairedSequenceReader (reader1 reader2 : Reader)
| FastaQualReader (fastafile qualfile : pyfile)
| ColorspaceFastaQualReader (fastafile qualfile : pyfile)
| PairedEndSAMReader (path : pyfile)
| Read1SingleEndSAMReader (path : pyfile)
| Read2SingleEndSAMReader (path : pyfile)
| SingleEndSAMReader (path : pyfile)
| InterleavedSequenceReader (reader : Reader)
| PairedToRead1 (reader : Reader)
| PairedToRead2 (reader : Reader)
| FastaReader (file : pyfile)
| ColorspaceFastaReader (file : pyfile)
| FastqReader (file : pyfile)
| ColorspaceFastqReader (file : pyfile)
| SRAColorspaceFastqReader (file : pyfile).

(** The first item of [lines] that does not start with ['#'], with the
    items after it. *)
Fixpoint skip_comments (lines : list string) : option (string * list string) :=
  match lines with
  | [] => None
  | line :: rest =>
      if startswith line "#" then skip_comments rest else Some (line, rest)
  end.

(** The loop [for line in file1] of [open_reader] up to its [break]: the
    line it stopped at and the file as the loop left it.  A file object has
    lost the lines read; a [str] is iterated character by character and
    stays as it is; a wrapper delivers its own first line before it reads
    from the file it wraps. *)
Fixpoint first_data_line (file1 : pyfile) : option (string * pyfile) :=
  match file1 with
  | PathStr p =>
      match skip_comments (iter_file (PathStr p)) with
      | Some (line, _) => Some (line, PathStr p)
      | None => None
      end
  | FileObj fname lines =>
      match skip_comments lines with
      | Some (line, rest) => Some (line, FileObj fname rest)
      | None => None
      end
  | Prepended first_line file =>
      if startswith first_line "#"
      then match first_data_line file with
           | Some (line, file') => Some (line, Prepended first_line file')
           | None => None
           end
      else Some (first_line, Prepended first_line file)
  end.

Section OpenReader.
(** [atropos.io.STDOUT], the path that stands for the standard streams. *)
Variable STDOUT : string.
(** [sys.stdin] *)
Variable sys_stdin : pyfile.

Definition is_STDOUT (file1 : pyfile) : bool :=
  match file1 with
  | PathStr p => (p =? STDOUT)%string
  | _ => false
  end.

(** The block [if fileformat is None: ...] that looks into the content:
    the format and the file to read from afterwards. *)
Definition detect_from_content (file1 : pyfile) : option string * pyfile :=
  let file1 := if is_STDOUT file1 then sys_stdin else file1 in
  match first_data_line file1 with
  | Some (line, file1') =>
      let fileformat :=
        if startswith line ">" then Some "fasta"
        else if startswith line "@" then Some "fastq"
        else None in
      (fileformat, FileWithPrependedLine file1' line)
  | None => (None, file1)
  end.

(** The body of [open_reader]; [self] stands for the calls that the
    constructors of [PairedSequenceReader] and [InterleavedSequenceReader]
    make to [open_reader] with a file, [colorspace] and [fileformat].  Files
    are values here: the two files of a pair are two objects, each with a
    position of its own. *)
Definition open_reader_body
    (self : pyfile -> bool -> option string -> result Reader)
    (file1 : pyfile) (file2 qualfile : option pyfile) (colorspace : bool)
    (fileformat : option string) (interleaved : bool)
    (single_input_read : option nat) : result Reader :=
  if interleaved && (negb (is_none file2) || negb (is_none qualfile))
  then Raise (ValueError InterleavedWithSecondInput)
  else if negb (is_none file2) && negb (is_none qualfile)
  then Raise (ValueError BothFile2AndQualfile)
  else
    match file2, qualfile with
    | Some file2, _ =>
        reader1 <- self file1 colorspace fileformat ;;
        reader2 <- self file2 colorspace fileformat ;;
        Ok (PairedSequenceReader reader1 reader2)
    | None, Some qualfile =>
        Ok (if colorspace then ColorspaceFastaQualReader file1 qualfile
            else FastaQualReader file1 qualfile)
    | None, None =>
        fileformat <-
          (if is_none fileformat && negb (is_STDOUT file1)
           then guess_format_from_name file1 false
           else Ok fileformat) ;;
        let '(fileformat, file1) :=
          match fileformat with
          | None => detect_from_content file1
          | Some f => (Some f, file1)
          end in
        match fileformat with
        | None => Raise (UnknownFileType (UnknownReaderFormat None))
        | Some fileformat =>
            let fileformat := lower fileformat in
            if in_strs fileformat ["sam"; "bam"] then
              if colorspace then Raise (ValueError SamBamColorspace)
              else if interleaved then Ok (PairedEndSAMReader file1)
              else match single_input_read with
                   | Some 1 => Ok (Read1SingleEndSAMReader file1)
                   | Some 2 => Ok (Read2SingleEndSAMReader file1)
                   | _ => Ok (SingleEndSAMReader file1)
                   end
            else if interleaved then
              inner <- self file1 colorspace (Some fileformat) ;;
              let reader := InterleavedSequenceReader inner in
              match single_input_read with
              | Some 1 => Ok (PairedToRead1 reader)
              | Some 2 => Ok (PairedToRead2 reader)
              | _ => Ok reader
              end
            else if (fileformat =? "fasta")%string then
              Ok (if colorspace then ColorspaceFastaReader file1
                  else FastaReader file1)
            else if (fileformat =? "fastq")%string then
              Ok (if colorspace then ColorspaceFastqReader file1
                  else FastqReader file1)
            else if (fileformat =? "sra-fastq")%string && colorspace then
              Ok (SRAColorspaceFastqReader file1)
            else Raise (UnknownFileType (UnknownReaderFormat (Some fileformat)))
        end
    end.

(** A call with one file and neither [interleaved] nor a second input
    makes no further call. *)
Definition open_single (file1 : pyfile) (colorspace : bool)
    (fileformat : option string) : result Reader :=
  open_reader_body (fun _ _ _ => Raise TypeError)
    file1 None None colorspace fileformat false None.

(** [open_reader(file1, file2, qualfile, colorspace, fileformat,
    interleaved, single_input_read)] *)
Definition open_reader := open_reader_body open_single.

End OpenReader.

(* ================================================================== *)
(** * More Python operations *)

(** [s.split()]: the white-space-delimited words of [s]; [cur] is the word
    being read. *)
Fixpoint words_from (cur : string) (s : string) : list string :=
  match s with
  | EmptyString =>
      match cur with
      | EmptyString => []
      | _ => [cur]
      end
  | String c s' =>
      if isspace c
      then match cur with
           | EmptyString => words_from "" s'
           | _ => cur :: words_from "" s'
           end
      else words_from (cur ++ String c "") s'
  end.

Definition split_none (s : string) : list string := words_from "" s.

(** [str(i)] for an integer. *)
Definition str_of_int (i : Z) : string := NilZero.string_of_int (Z.to_int i).

(** [chr(n)] for a code point below 256. *)
Definition chr (n : Z) : ascii := ascii_of_nat (Z.to_nat n).

(** A [dict] with string keys: the items, the latest assignment first. *)
Fixpoint dict_lookup {V} (k : string) (d : list (string * V)) : option V :=
  match d with
  | [] => None
  | (k', v) :: d' => if (k =? k')%string then Some v else dict_lookup k d'
  end.

(** [s[key]] for an index or a slice without step. *)
Inductive subscript : Type :=
| Index (i : Z)
| Slice (start stop : option Z).

Definition str_getitem (s : string) (key : subscript) : result string :=
  match key with
  | Slice start stop => Ok (slice s start stop)
  | Index i =>
      let n := Z.of_nat (String.length s) in
      let j := if (i <? 0)%Z then (i + n)%Z else i in
      if ((0 <=? j) && (j <? n))%Z
      then Ok (substring (Z.to_nat j) 1 s)
      else Raise IndexError
  end.

(* ================================================================== *)
(** * Slicing a colorspace record *)

(** [ColorspaceSequence.__getitem__]: the class is called again with the
    subscripted sequence and qualities and the primer of the record. *)
Definition ColorspaceSequence_getitem (truncate_string : string -> string)
    (self : ColorspaceSequence) (key : subscript) : result ColorspaceSequence :=
  sequence' <- str_getitem (sequence (cs_read self)) key ;;
  qualities' <-
    match qualities (cs_read self) with
    | Some q => q' <- str_getitem q key ;; Ok (Some q')
    | None => Ok None
    end ;;
  ColorspaceSequence_init truncate_string (name (cs_read self)) sequence'
    qualities' (Some (primer self)) (name2 (cs_read self)).

(* ================================================================== *)
(** * The life cycle of a reader *)

(** The two attributes of a [SequenceReader]: [_file] and
    [_close_on_exit]. *)
Record SequenceReader : Type := mkSequenceReader {
  _file : option pyfile;
  _close_on_exit : bool
}.

(** [ValueError("I/O operation on closed SequenceReader")] *)
Inductive reader_error : Type :=
| ClosedSequenceReader.

Section ReaderLifeCycle.
(** [atropos.io.xopen]: the open file for a path. *)
Variable xopen : string -> pyfile.

(** [SequenceReader.__init__] *)
Definition SequenceReader_init (path : pyfile) : SequenceReader :=
  match path with
  | PathStr p => mkSequenceReader (Some (xopen p)) true
  | _ => mkSequenceReader (Some path) false
  end.

(** [SequenceReader.close]: the reader afterwards, and the file whose
    [close] was called, if any. *)
Definition SequenceReader_close (self : SequenceReader)
    : SequenceReader * option pyfile :=
  match _close_on_exit self, _file self with
  | true, Some f => (mkSequenceReader None (_close_on_exit self), Some f)
  | _, _ => (self, None)
  end.

(** [SequenceReader.__enter__] *)
Definition SequenceReader_enter (self : SequenceReader)
    : SequenceReader + reader_error :=
  match _file self with
  | None => inr ClosedSequenceReader
  | Some _ => inl self
  end.

(** [SequenceReader.__exit__] *)
Definition SequenceReader_exit (self : SequenceReader)
    : SequenceReader * option pyfile :=
  SequenceReader_close self.

End ReaderLifeCycle.

(* ================================================================== *)
(** * The reader of FASTA and QUAL files *)

(** [range(-5, 256 - 33)] *)
Definition quality_values : list Z :=
  map (fun k => (Z.of_nat k - 5)%Z) (seq 0 228).

(** The dictionary [conv] of [FastaQualReader.__iter__]. *)
Definition conv : list (string * ascii) :=
  fold_left (fun d i => (str_of_int i, chr (i + 33)) :: d) quality_values [].

(** [''.join([conv[value] for value in values])]: the quality string, or
    the key of the [KeyError]. *)
Fixpoint decode_values (values : list string) : string + string :=
  match values with
  | [] => inl EmptyString
  | value :: more =>
      match dict_lookup value conv with
      | None => inr value
      | Some c =>
          match decode_values more with
          | inl q => inl (String c q)
          | inr key => inr key
          end
      end
  end.

(** What ends an iteration of [FastaQualReader]: its two [FormatError]s
    (the names differ; a quality value is not in [conv]) or an exception of
    a FASTA reader or of the sequence class. *)
Inductive fastaqual_error : Type :=
| NamesDoNotMatch (fasta_name qual_name : string)
| InvalidQualityValue (read_name token : string)
| ReaderRaised (e : exn).

(** Iterating a generator whose run is [r]. *)
Definition iterator_of_run {A} (r : run A) : iterator A :=
  fold_right Item
    (match ending r with Some e => Fails e | None => Exhausted end)
    (yielded r).

Section FastaQual.
Variable truncate_string : string -> string.
Context {S : Type}.
Variable sequence_class : string -> string -> option string -> result S.

(** The loop of [FastaQualReader.__iter__] over [zip] of the two readers. *)
Fixpoint FastaQualReader_loop (fasta qual : iterator Sequence)
    : list S * option fastaqual_error :=
  match fasta with
  | Exhausted => ([], None)
  | Fails e => ([], Some (ReaderRaised e))
  | Item fastaread fasta' =>
      match qual with
      | Exhausted => ([], None)
      | Fails e => ([], Some (ReaderRaised e))
      | Item qualread qual' =>
          if negb (name fastaread =? name qualread)%string
          then ([], Some (NamesDoNotMatch (name fastaread) (name qualread)))
          else
            match decode_values (split_none (sequence qualread)) with
            | inr token =>
                ([], Some (InvalidQualityValue (name fastaread) token))
            | inl qualities =>
                match sequence_class (name fastaread) (sequence fastaread)
                        (Some qualities) with
                | Raise e => ([], Some (ReaderRaised e))
                | Ok read =>
                    let (reads, e) := FastaQualReader_loop fasta' qual' in
                    (read :: reads, e)
                end
            end
      end
  end.

(** [FastaQualReader.__iter__] on the lines of the two files: the FASTA
    file is read without line breaks, the QUAL file with them. *)
Definition FastaQualReader_iter (fasta_lines qual_lines : list string)
    : list S * option fastaqual_error :=
  FastaQualReader_loop
    (iterator_of_run
       (FastaReader_iter truncate_string (fun n q x => Sequence_init truncate_string n q x "") ""
          fasta_lines))
    (iterator_of_run
       (FastaReader_iter truncate_string (fun n q x => Sequence_init truncate_string n q x "") nl
          qual_lines)).

End FastaQual.

(* ================================================================== *)
(** * The formatters by arity *)

(** [KeyError] of the [result] dictionary, or an exception of
    [seq_format.format]. *)
Inductive formatter_error : Type :=
| KeyError (key : string)
| FormatRaised (e : exn).

(** The counters of a formatter. *)
Record counters : Type := mkCounters {
  written : nat;
  read1_bp : nat;
  read2_bp : nat
}.

(** [written_bp] *)
Definition written_bp (c : counters) : nat * nat := (read1_bp c, read2_bp c).

(** [result[key].extend(items)] on a key that is present. *)
Fixpoint dict_extend (result : list (string * list string)) (key : string)
    (items : list string) : list (string * list string) :=
  match result with
  | [] => []
  | (k, l) :: more =>
      if (key =? k)%string then (k, l ++ items) :: more
      else (k, l) :: dict_extend more key items
  end.

Section Formatters.
Context {R : Type}.
(** [seq_format.format] and [len] on a read. *)
Variable format : R -> result string.
Variable len : R -> nat.

(** [SingleEndFormatter.format(result, read1, read2)] *)
Definition SingleEndFormatter_format (file1 : string) (self : counters)
    (result : list (string * list string)) (read1 : R) (read2 : option R)
    : list (string * list string) * counters * option formatter_error :=
  match dict_lookup file1 result with
  | None => (result, self, Some (KeyError file1))
  | Some _ =>
      match format read1 with
      | Raise e => (result, self, Some (FormatRaised e))
      | Ok s1 =>
          (dict_extend result file1 [s1],
           mkCounters (written self + 1) (read1_bp self + len read1)
             (read2_bp self),
           None)
      end
  end.

(** [InterleavedFormatter.format(result, read1, read2)] *)
Definition InterleavedFormatter_format (file1 : string) (self : counters)
    (result : list (string * list string)) (read1 read2 : R)
    : list (string * list string) * counters * option formatter_error :=
  match dict_lookup file1 result with
  | None => (result, self, Some (KeyError file1))
  | Some _ =>
      match format read1 with
      | Raise e => (result, self, Some (FormatRaised e))
      | Ok s1 =>
          match format read2 with
          | Raise e => (result, self, Some (FormatRaised e))
          | Ok s2 =>
              (dict_extend result file1 [s1; s2],
               mkCounters (written self + 1) (read1_bp self + len read1)
                 (read2_bp self + len read2),
               None)
          end
      end
  end.

(** [PairedEndFormatter.format(result, read1, read2)] *)
Definition PairedEndFormatter_format (file1 file2 : string) (self : counters)
    (result : list (string * list string)) (read1 read2 : R)
    : list (string * list string) * counters * option formatter_error :=
  match dict_lookup file1 result with
  | None => (result, self, Some (KeyError file1))
  | Some _ =>
      match format read1 with
      | Raise e => (result, self, Some (FormatRaised e))
      | Ok s1 =>
          let result := dict_extend result file1 [s1] in
          match dict_lookup file2 result with
          | None => (result, self, Some (KeyError file2))
          | Some _ =>
              match format read2 with
              | Raise e => (result, self, Some (FormatRaised e))
              | Ok s2 =>
                  (dict_extend result file2 [s2],
                   mkCounters (written self + 1) (read1_bp self + len read1)
                     (read2_bp self + len read2),
                   None)
              end
          end
      end
  end.

(** Formatting the pairs of a list one after the other with [step], up to
    the first call that raises. *)
Fixpoint format_all
    (step : counters -> list (string * list string) -> R -> R ->
            list (string * list string) * counters * option formatter_error)
    (self : counters) (result : list (string * list string))
    (pairs : list (R * R))
    : list (string * list string) * counters * option formatter_error :=
  match pairs with
  | [] => (result, self, None)
  | (read1, read2) :: more =>
      match step self result read1 read2 with
      | (result', self', None) => format_all step self' result' more
      | failed => failed
      end
  end.

End Formatters.

(** The formatter objects of [create_seq_formatter], new: their format and
    destinations; the counters start at zero. *)
Inductive SeqFormatter : Type :=
| SingleEndFormatter (seq_format : SequenceFileFormat) (file1 : pyfile)
| InterleavedFormatter (seq_format : SequenceFileFormat) (file1 : pyfile)
| PairedEndFormatter (seq_format : SequenceFileFormat) (file1 file2 : pyfile).

(** [SingleEndFormatter.__init__] sets the counters. *)
Definition new_counters : counters := mkCounters 0 0 0.

(** [create_seq_formatter(file1, file2, interleaved, **kwargs)]; the keyword
    arguments are those of [get_format]. *)
Definition create_seq_formatter (file1 : pyfile) (file2 : option pyfile)
    (interleaved : bool) (fileformat : option string) (colorspace : bool)
    (qualities : option bool) (line_length : option nat) : result SeqFormatter :=
  seq_format <- get_format file1 fileformat colorspace qualities line_length ;;
  match file2 with
  | Some file2 => Ok (PairedEndFormatter seq_format file1 file2)
  | None =>
      if interleaved then Ok (InterleavedFormatter seq_format file1)
      else Ok (SingleEndFormatter seq_format file1)
  end.

(* ================================================================== *)
(** * Vocabulary of the statements *)

Fixpoint last_char (s : string) : option ascii :=
  match s with
  | EmptyString => None
  | String c EmptyString => Some c
  | String _ s' => last_char s'
  end.

Fixpoint but_last (s : string) : string :=
  match s with
  | EmptyString => EmptyString
  | String _ EmptyString => EmptyString
  | String c s' => String c (but_last s')
  end.

(** The name ends in one of the characters ['1'] and ['2']. *)
Definition ends_in_1_or_2 (s : string) : bool :=
  match last_char s with
  | Some c => Ascii.eqb c "1" || Ascii.eqb c "2"
  | None => false
  end.

(** No character of [s] is white space. *)
Fixpoint no_space (s : string) : bool :=
  match s with
  | EmptyString => true
  | String c s' => negb (isspace c) && no_space s'
  end.

(** A word: not empty and free of white space. *)
Definition is_word (s : string) : bool :=
  negb (s =? "")%string && no_space s.

(** The first white-space-delimited word of a name, if it has one. *)
Definition first_word (s : string) : option string :=
  hd_error (split_none_1 s).

(** The comparison that the mate-suffix rule prescribes for two words. *)
Definition same_up_to_mate_suffix (t1 t2 : string) : bool :=
  if ends_in_1_or_2 t1 && ends_in_1_or_2 t2
  then (but_last t1 =? but_last t2)%string
  else (t1 =? t2)%string.

(** [r] is empty or starts with white space. *)
Definition space_or_end (r : string) : bool :=
  match r with
  | EmptyString => true
  | String c _ => isspace c
  end.

(** The records of a stream taken two by two; a last one on its own is
    left out. *)
Fixpoint consecutive_pairs {A} (l : list A) : list (A * A) :=
  match l with
  | a :: b :: rest => (a, b) :: consecutive_pairs rest
  | _ => []
  end.

(** Every pair passes the name comparison of the readers. *)
Definition all_names_match {R} `{Named R} (ps : list (R * R)) : Prop :=
  Forall (fun p => sequence_names_match (fst p) (snd p) = Ok true) ps.

(** The two records of a pulled pair in the order in which
    [PairedEndSAMReader] returns them: first of pair first. *)
Definition mate_order (p : AlignedSegment * AlignedSegment)
    : AlignedSegment * AlignedSegment :=
  if is_read1 (fst p) then p else (snd p, fst p).

(** A pulled pair passes the checks of [PairedEndSAMReader]: the names are
    identical and the mate flags are those the assertions ask for. *)
Definition name_matched (p : AlignedSegment * AlignedSegment) : Prop :=
  query_name (fst p) = query_name (snd p).

Definition mate_flagged (p : AlignedSegment * AlignedSegment) : Prop :=
  if is_read1 (fst p) then is_read2 (snd p) = true
  else is_read1 (snd p) = true.

(** A pulled pair converts: [_as_sequence] succeeds on both records. *)
Definition convertible {S} (sequence_class : string -> string -> list nat -> result S)
    (p : AlignedSegment * AlignedSegment) : Prop :=
  (exists s, _as_sequence sequence_class (fst p) = Ok s)
  /\ (exists s, _as_sequence sequence_class (snd p) = Ok s).

(** The default [sequence_class] of the alignment readers, [Sequence], on
    the quality string made of the given code points. *)
Definition sam_Sequence (name sequence : string) (codes : list nat)
    : result Sequence :=
  Sequence_init (fun s => s) name sequence
    (Some (string_of_list_ascii (map ascii_of_nat codes))) "".

Definition sam_record (n : string) (first second : bool) : AlignedSegment :=
  mkAlignedSegment n "ACGT" (Some [30; 30; 30; 30]) first second.

(** Sample records: [fasta_read n] has name [n] and no qualities. *)
Definition fasta_read (n : string) : Sequence := mkSequence n "ACGT" None "".

Definition file_A : list Sequence :=
  [fasta_read "read1/1"; fasta_read "read2/1"; fasta_read "read3/1"].
Definition file_B : list Sequence :=
  [fasta_read "read1/2"; fasta_read "read2/2"].
Definition interleaved_3 : list Sequence :=
  [fasta_read "read1/1"; fasta_read "read1/2"; fasta_read "read2/1"].

(** The first character of a string, as a string, and what follows it. *)
Definition str_head (s : string) : string :=
  match s with
  | String c _ => String c EmptyString
  | EmptyString => EmptyString
  end.

Definition str_tail (s : string) : string :=
  match s with
  | String _ t => t
  | EmptyString => EmptyString
  end.

(** One of the four primer bases. *)
Definition is_ACGT (p : string) : bool := in_strs p ["A"; "C"; "G"; "T"].

(** The last component of a path, and whether it has a character other
    than a dot: only then does a following extension count as one. *)
Definition basename (s : string) : string :=
  match rfind "/" s with
  | Some i => substring (1 + i) (String.length s - (1 + i)) s
  | None => s
  end.

Definition has_base (s : string) : bool := negb (all_dots (basename s)).

(** A path without an extension: [os.path.splitext] finds none. *)
Definition no_extension (s : string) : bool := (snd (splitext s) =? "")%string.

(** The extensions of the table, in lower case. *)
Definition fasta_extensions : list string :=
  [".fasta"; ".fa"; ".fna"; ".csfasta"; ".csfa"].
Definition fastq_extensions : list string := [".fastq"; ".fq"].
Definition table_extensions : list string :=
  fasta_extensions ++ fastq_extensions ++ [".txt"; ".sam"; ".bam"].

(** ** FASTA documents

    The lines of a FASTA file by their role.  A line is read through
    [strip], so its role and its content are those of the stripped line. *)

(** A line the grammar ignores: blank, or a comment starting with ['#']. *)
Definition ignored_line (raw : string) : bool :=
  (strip raw =? "")%string || first_is "#" (strip raw).

(** A header line: ['>'] and the header. *)
Definition header_line (raw : string) : bool := first_is ">" (strip raw).

(** A sequence line: not blank, neither a header nor a comment. *)
Definition sequence_line (raw : string) : bool :=
  negb (strip raw =? "")%string
  && negb (first_is ">" (strip raw)) && negb (first_is "#" (strip raw)).

(** A line of the body of a record. *)
Inductive body_line : Type :=
| Residues (raw : string)
| Ignored (raw : string).

Definition body_raw (b : body_line) : string :=
  match b with Residues raw | Ignored raw => raw end.

Definition body_ok (b : body_line) : bool :=
  match b with
  | Residues raw => sequence_line raw
  | Ignored raw => ignored_line raw
  end.

(** A record of the file: its header line and the lines up to the next
    header or the end of the input. *)
Record fasta_entry : Type := mkEntry {
  entry_header : string;
  entry_body : list body_line
}.

Definition entry_ok (e : fasta_entry) : bool :=
  header_line (entry_header e) && forallb body_ok (entry_body e).

Definition entry_lines (e : fasta_entry) : list string :=
  entry_header e :: map body_raw (entry_body e).

(** The header of a record: its header line without the ['>']. *)
Definition header_of (e : fasta_entry) : string :=
  str_tail (strip (entry_header e)).

(** The sequence lines of a record, in order. *)
Fixpoint residues_of (body : list body_line) : list string :=
  match body with
  | [] => []
  | Residues raw :: rest => strip raw :: residues_of rest
  | Ignored _ :: rest => residues_of rest
  end.

Definition concat_all (l : list string) : string :=
  fold_right String.append "" l.

(** The record that the reader makes of an entry. *)
Definition read_entry (e : fasta_entry) : Sequence :=
  mkSequence (header_of e) (concat_all (residues_of (entry_body e))) None "".

(** The lines of a file: ignored lines, then the records. *)
Definition fasta_lines (preamble : list string) (entries : list fasta_entry)
    : list string :=
  preamble ++ flat_map entry_lines entries.

(** The class [Sequence] as the [sequence_class] of a FASTA reader. *)
Definition Sequence_class (truncate_string : string -> string)
    (name sequence : string) (qualities : option string) : result Sequence :=
  Sequence_init truncate_string name sequence qualities "".

(** A sample file: a comment, two records, the first wrapped over two
    lines with a blank line between them. *)
Definition sample_entries : list fasta_entry :=
  [mkEntry (">seq1 first" ++ nl)
     [Residues ("ACGT" ++ nl); Ignored nl; Residues ("TTGA" ++ nl)];
   mkEntry (">seq2" ++ nl) [Residues ("GGCC" ++ nl)]]%string.

Definition sample_preamble : list string := [("# made by hand" ++ nl)%string].

(** The single-end reader inside the wrappers that [interleaved] and
    [single_input_read] put around it. *)
Fixpoint innermost (r : Reader) : Reader :=
  match r with
  | InterleavedSequenceReader r' | PairedToRead1 r' | PairedToRead2 r' =>
      innermost r'
  | _ => r
  end.

(** The kind of formatter. *)
Definition formats_fastq (f : SequenceFileFormat) : bool :=
  match f with
  | FastqFormat | ColorspaceFastqFormat => true
  | _ => false
  end.

Definition formats_fasta (f : SequenceFileFormat) : bool :=
  match f with
  | FastaFormat _ | ColorspaceFastaFormat _ => true
  | _ => false
  end.

(** ** Vocabulary of the further properties *)

(** Two lists of mates written alternately, as [InterleavedFormatter] writes
    them. *)
Fixpoint interleave {A} (l1 l2 : list A) : list A :=
  match l1, l2 with
  | a :: l1', b :: l2' => a :: b :: interleave l1' l2'
  | _, _ => []
  end.

(** The error of the interleaved reader that stands for an error of the
    two-file reader: the name mismatch has a message of its own, any other
    exception is the same. *)
Definition as_interleaved (e : exn) : exn :=
  match e with
  | FormatError (PairedNameMismatch n1 n2) =>
      FormatError (InterleavedNameMismatch n1 n2)
  | _ => e
  end.

(** A pair of alignment records with exactly one mate flag each, one first
    and one second of pair. *)
Definition strictly_flagged (p : AlignedSegment * AlignedSegment) : bool :=
  (is_read1 (fst p) && negb (is_read2 (fst p))
   && is_read2 (snd p) && negb (is_read1 (snd p)))
  || (is_read2 (fst p) && negb (is_read1 (fst p))
      && is_read1 (snd p) && negb (is_read2 (snd p))).

(** An iterator that delivers the records of [l] and then raises [e]. *)
Definition iter_then_fail {A} (l : list A) (e : exn) : iterator A :=
  fold_right Item (Fails e) l.

(** The run of a generator that yields the results of a list of calls in
    order and is left by the first call that raises. *)
Definition emit_each {A} (calls : list (result A)) : run A :=
  fold_right emit done calls.

(** The class [ColorspaceSequence] as the [sequence_class] of a reader. *)
Definition ColorspaceSequence_class (truncate_string : string -> string)
    (name sequence : string) (qualities : option string)
    : result ColorspaceSequence :=
  ColorspaceSequence_init truncate_string name sequence qualities None "".

(** The sequence of an entry as [FastaReader] without line breaks builds
    it. *)
Definition entry_sequence (e : fasta_entry) : string :=
  concat_all (residues_of (entry_body e)).

(** The colorspace record of an entry: the first character of its sequence
    is the primer. *)
Definition colorspace_entry (e : fasta_entry) : ColorspaceSequence :=
  mkColorspaceSequence
    (mkSequence (header_of e) (str_tail (entry_sequence e)) None "")
    (str_head (entry_sequence e)).

(** The call of the sequence class that makes the record of an entry: the
    header, and the sequence lines joined by the delimiter. *)
Definition entry_call {S}
    (sequence_class : string -> string -> option string -> result S)
    (delimiter : string) (e : fasta_entry) : result S :=
  sequence_class (header_of e) (join delimiter (residues_of (entry_body e)))
    None.

(** Sample colorspace entries. *)
Definition colorspace_r1 : fasta_entry :=
  mkEntry (">r1" ++ nl) [Residues ("T0120" ++ nl); Residues ("31" ++ nl)].

Definition colorspace_r2 : fasta_entry := mkEntry (">r2" ++ nl) [].

(** A colorspace record as the constructor leaves it: the primer is a
    base, and qualities, when present, are as long as the sequence. *)
Definition valid_colorspace (cs : ColorspaceSequence) : bool :=
  is_ACGT (primer cs)
  && match qualities (cs_read cs) with
     | Some q => (String.length (sequence (cs_read cs)) =? String.length q)%nat
     | None => true
     end.

(** Only white space. *)
Fixpoint all_space (s : string) : bool :=
  match s with
  | EmptyString => true
  | String c s' => isspace c && all_space s'
  end.

(** The text of quality values in decimal, each followed by its separator. *)
Fixpoint qual_text (items : list (Z * string)) : string :=
  match items with
  | [] => ""
  | (v, sep) :: more => str_of_int v ++ sep ++ qual_text more
  end.

(** The separators are white space, and only the last may be empty. *)
Fixpoint separated (items : list (Z * string)) : bool :=
  match items with
  | [] => true
  | (_, sep) :: more =>
      all_space sep
      && (negb (sep =? "")%string || match more with [] => true | _ => false end)
      && separated more
  end.

(** [-5 <= v < 256 - 33] *)
Definition quality_value (v : Z) : bool := ((-5 <=? v) && (v <? 223))%Z.

(** The quality string of a list of values. *)
Fixpoint phred33 (values : list Z) : string :=
  match values with
  | [] => ""
  | v :: more => String (chr (v + 33)) (phred33 more)
  end.

(** The files that a reader was constructed on. *)
Fixpoint reader_files (r : Reader) : list pyfile :=
  match r with
  | PairedSequenceReader reader1 reader2 =>
      reader_files reader1 ++ reader_files reader2
  | FastaQualReader fastafile qualfile
  | ColorspaceFastaQualReader fastafile qualfile => [fastafile; qualfile]
  | InterleavedSequenceReader reader | PairedToRead1 reader
  | PairedToRead2 reader => reader_files reader
  | PairedEndSAMReader path | Read1SingleEndSAMReader path
  | Read2SingleEndSAMReader path | SingleEndSAMReader path => [path]
  | FastaReader file | ColorspaceFastaReader file | FastqReader file
  | ColorspaceFastqReader file | SRAColorspaceFastqReader file => [file]
  end.

(** A path given as [str], which a reader opens itself, as opposed to a
    file object. *)
Definition is_path (f : pyfile) : bool :=
  match f with
  | PathStr _ => true
  | _ => false
  end.

(** An optional file that, when given, is a file object. *)
Definition no_path (o : option pyfile) : bool :=
  match o with
  | Some f => negb (is_path f)
  | None => true
  end.

(** The errors that [open_reader] raises itself. *)
Definition open_reader_error (e : exn) : bool :=
  match e with
  | ValueError InterleavedWithSecondInput
  | ValueError BothFile2AndQualfile
  | ValueError SamBamColorspace
  | UnknownFileType (UnknownReaderFormat _) => true
  | _ => false
  end.

(** The body lines that lie before the first sequence line are ignored
    lines. *)
Fixpoint only_ignored (body : list body_line) : bool :=
  match body with
  | [] => true
  | Ignored _ :: more => only_ignored more
  | Residues _ :: _ => false
  end.

(* ================================================================== *)
(** * The operations on concrete values *)

Example split_none_1_words :
  split_none_1 "  read/1  some text " = ["read/1"; "some text "]
  /\ split_none_1 "a  " = ["a"]
  /\ split_none_1 "   " = [].
Proof. repeat split. Qed.

Example strip_dos_line :
  strip (String "009" (">id1 " ++ String "013" nl)) = ">id1".
Proof. reflexivity. Qed.

Example slice_bounds :
  slice "abcdef" (Some (-1)%Z) None = "f"
  /\ slice "" (Some (-1)%Z) None = ""
  /\ slice "abc" None (Some (-1)%Z) = "ab"
  /\ slice "A0123" (Some 0%Z) (Some 1%Z) = "A"
  /\ slice "A0123" (Some 1%Z) None = "0123"
  /\ slice "" (Some 0%Z) (Some 1%Z) = "".
Proof. repeat split. Qed.

Example empty_string_is_in_12 : contains "" "12" = true.
Proof. reflexivity. Qed.

Example splitext_cases :
  splitext "archive.tar" = ("archive", ".tar")
  /\ splitext ".bashrc" = (".bashrc", "")
  /\ splitext "dir.d/file" = ("dir.d/file", "")
  /\ splitext "a/..b.c" = ("a/..b", ".c")
  /\ splitext "a/...c" = ("a/...c", "")
  /\ splitext "x." = ("x", ".").
Proof. repeat split. Qed.

Example splitext_compressed_cases :
  splitext_compressed "reads.FQ.bz2" = ("reads", ".FQ", Some ".bz2")
  /\ splitext_compressed "reads.fasta" = ("reads", ".fasta", None)
  /\ splitext_compressed "reads.gz" = ("reads", "", Some ".gz").
Proof. repeat split. Qed.

Example guess_format_from_name_cases :
  guess_format_from_name (PathStr "reads.FA") false = Ok (Some "fasta")
  /\ guess_format_from_name (PathStr "reads.fq.gz") false = Ok (Some "fastq")
  /\ guess_format_from_name (PathStr "aln.BAM") false = Ok (Some "bam")
  /\ guess_format_from_name (PathStr "out.xyz") false = Ok None
  /\ guess_format_from_name (PathStr "out.xyz") true =
     Raise (UnknownFileType (ExtensionNotRecognized ".xyz"))
  /\ guess_format_from_name (FileObj (Some "reads.fna") []) false =
     Ok (Some "fasta").
Proof. repeat split. Qed.

Example FastaReader_sequence_before_header :
  FastaReader_iter (fun s => s) (Sequence_class (fun s => s)) ""
    [nl; ("ACGT" ++ nl)%string; (">late" ++ nl)%string] =
  raise (FormatError (ExpectedHeader 2 "ACGT")).
Proof. reflexivity. Qed.

Example names_without_a_word_raise :
  sequence_names_match (fasta_read "") (fasta_read "") = Raise IndexError
  /\ sequence_names_match (fasta_read "a") (fasta_read "  ") = Raise IndexError.
Proof. repeat split. Qed.

Example open_reader_option_conflicts :
  open_reader "-" (FileObj None []) (PathStr "a.fq") (Some (PathStr "b.fq"))
    None false None true None = Raise (ValueError InterleavedWithSecondInput)
  /\ open_reader "-" (FileObj None []) (PathStr "a.fa") (Some (PathStr "b.fa"))
       (Some (PathStr "a.qual")) false None false None =
     Raise (ValueError BothFile2AndQualfile)
  /\ open_reader "-" (FileObj None []) (PathStr "a.bam") None None true None
       false None = Raise (ValueError SamBamColorspace)
  /\ open_reader "-" (FileObj None []) (FileObj (Some "a.fq") [])
       (Some (FileObj (Some "b.fq") [])) None false None false None =
     Ok (PairedSequenceReader (FastqReader (FileObj (Some "a.fq") []))
           (FastqReader (FileObj (Some "b.fq") []))).
Proof. repeat split. Qed.

(* ================================================================== *)
(** * Properties of the string operations *)

Lemma append_nil_r (s : string) : (s ++ "")%string = s.
Proof. induction s as [|c s IH]; simpl; [reflexivity | now rewrite IH]. Qed.

Lemma append_assoc (a b c : string) :
  ((a ++ b) ++ c)%string = (a ++ (b ++ c))%string.
Proof. induction a as [|x a IH]; simpl; [reflexivity | now rewrite IH]. Qed.

Lemma length_append (a b : string) :
  String.length (a ++ b) = String.length a + String.length b.
Proof. induction a as [|x a IH]; simpl; [reflexivity | now rewrite IH]. Qed.

Lemma substring_0_all (s : string) : substring 0 (String.length s) s = s.
Proof. induction s as [|c s IH]; simpl; [reflexivity | now rewrite IH]. Qed.

Lemma substring_0_append (a b : string) :
  substring 0 (String.length a) (a ++ b) = a.
Proof.
  induction a as [|x a IH]; simpl.
  - destruct b; reflexivity.
  - now rewrite IH.
Qed.

Lemma substring_skip_append (a b : string) (n : nat) :
  substring (String.length a) n (a ++ b) = substring 0 n b.
Proof. induction a as [|x a IH]; simpl; [reflexivity | exact IH]. Qed.

Lemma but_last_last (s : string) :
  match last_char s with
  | Some c => s = (but_last s ++ String c "")%string
  | None => s = ""
  end.
Proof.
  induction s as [|a s IH]; simpl; [reflexivity|].
  destruct s as [|b s]; [reflexivity|].
  destruct (last_char (String b s)) as [c|] eqn:E.
  - simpl in *. now rewrite <- IH.
  - discriminate IH.
Qed.

Lemma length_but_last (s : string) :
  String.length (but_last s) = String.length s - 1.
Proof.
  induction s as [|a s IH]; simpl; [reflexivity|].
  destruct s as [|b s]; [reflexivity|].
  change (String.length (String a (but_last (String b s)))) with
    (1 + String.length (but_last (String b s))).
  rewrite IH. simpl. lia.
Qed.

Lemma clamp_minus_1 (len : Z) :
  clamp_index len (-1) = Z.max (-1 + len) 0.
Proof. reflexivity. Qed.

(** [s[-1:]] is the last character, as a string. *)
Lemma slice_last (s : string) :
  slice s (Some (-1)%Z) None =
  match last_char s with Some c => String c "" | None => "" end.
Proof.
  pose proof (but_last_last s) as E.
  unfold slice. rewrite clamp_minus_1.
  destruct (last_char s) as [c|]; [|subst s; reflexivity].
  set (b := but_last s) in *. clearbody b. subst s.
  rewrite length_append. simpl String.length.
  replace (Z.to_nat (Z.max _ 0)) with (String.length b) by lia.
  replace (Z.to_nat _) with 1 by lia.
  rewrite substring_skip_append. reflexivity.
Qed.

(** [s[:-1]] is everything but the last character. *)
Lemma slice_but_last (s : string) :
  slice s None (Some (-1)%Z) = but_last s.
Proof.
  pose proof (but_last_last s) as E.
  unfold slice. rewrite clamp_minus_1.
  destruct (last_char s) as [c|]; [|subst s; reflexivity].
  set (b := but_last s) in *. clearbody b. rewrite E.
  rewrite length_append. simpl String.length.
  replace (Z.to_nat (_ - 0)) with (String.length b) by lia.
  apply substring_0_append.
Qed.

Lemma contains_one_12 (c : ascii) :
  contains (String c "") "12" = Ascii.eqb c "1" || Ascii.eqb c "2".
Proof.
  simpl.
  destruct (Ascii.eqb_spec c "1") as [->|n1]; [reflexivity|].
  destruct (Ascii.eqb_spec c "2") as [->|n2]; [reflexivity|].
  destruct (ascii_dec c "1"); [contradiction|].
  destruct (ascii_dec c "2"); [contradiction|].
  reflexivity.
Qed.

(** The test [name[-1:] in '12'] on a name that is not empty. *)
Lemma last_in_12 (s : string) :
  s <> "" ->
  contains (slice s (Some (-1)%Z) None) "12" = ends_in_1_or_2 s.
Proof.
  intros Hs. rewrite slice_last. unfold ends_in_1_or_2.
  pose proof (but_last_last s) as E.
  destruct (last_char s) as [c|]; [apply contains_one_12 | contradiction].
Qed.

Lemma span_word_append (w r : string) :
  no_space w = true -> space_or_end r = true ->
  span_word (w ++ r) = (w, r).
Proof.
  induction w as [|c w IH]; simpl; intros Hw Hr.
  - destruct r as [|a r]; [reflexivity|]. simpl in *. now rewrite Hr.
  - apply andb_prop in Hw as [Hc Hw]. apply negb_true_iff in Hc.
    rewrite Hc, IH by assumption. reflexivity.
Qed.

Lemma span_word_spec (s : string) :
  s = (fst (span_word s) ++ snd (span_word s))%string
  /\ no_space (fst (span_word s)) = true
  /\ space_or_end (snd (span_word s)) = true.
Proof.
  induction s as [|c s (E & Hw & Hr)]; simpl; [auto|].
  destruct (isspace c) eqn:Hc; simpl.
  - rewrite Hc. auto.
  - destruct (span_word s) as [w r]. simpl in *. rewrite Hc.
    repeat split; [now rewrite <- E | assumption | assumption].
Qed.

Lemma lstrip_head (s : string) :
  match lstrip s with
  | String c _ => isspace c = false
  | EmptyString => True
  end.
Proof.
  induction s as [|c s IH]; simpl; [exact I|].
  destruct (isspace c) eqn:Hc; [exact IH | exact Hc].
Qed.

Lemma lstrip_word (w r : string) :
  is_word w = true -> lstrip (w ++ r) = (w ++ r)%string.
Proof.
  destruct w as [|c w]; [discriminate|]. unfold is_word. simpl.
  intros Hw. apply andb_prop in Hw as [Hc _]. apply negb_true_iff in Hc.
  now rewrite Hc.
Qed.

Lemma first_word_lstrip (s : string) : first_word (lstrip s) = first_word s.
Proof.
  unfold first_word, split_none_1.
  assert (E : lstrip (lstrip s) = lstrip s).
  { pose proof (lstrip_head s) as Hh. destruct (lstrip s) as [|c t]; [reflexivity|].
    simpl. now rewrite Hh. }
  now rewrite E.
Qed.

(** Leading white space does not change the first word. *)
Lemma first_word_skip (c : ascii) (s : string) :
  isspace c = true -> first_word (String c s) = first_word s.
Proof.
  intros Hc. rewrite <- (first_word_lstrip (String c s)). simpl. rewrite Hc.
  apply first_word_lstrip.
Qed.

(** A word followed by white space or by nothing is the first word. *)
Lemma first_word_append (w r : string) :
  is_word w = true -> space_or_end r = true ->
  first_word (w ++ r) = Some w.
Proof.
  intros Hw Hr. unfold first_word, split_none_1.
  rewrite (lstrip_word _ _ Hw).
  pose proof (span_word_append w r) as Sp.
  unfold is_word in Hw. apply andb_prop in Hw as [Hne Hw].
  destruct (w ++ r)%string as [|c u] eqn:E.
  - destruct w; discriminate.
  - rewrite Sp by assumption. destruct (lstrip r); reflexivity.
Qed.

(** A name that is a word is its own first word. *)
Lemma first_word_of_word (w : string) :
  is_word w = true -> first_word w = Some w.
Proof.
  intros Hw. rewrite <- (append_nil_r w) at 1.
  now apply first_word_append.
Qed.

(** In a name that does not begin with white space the first word is the
    part before the first white-space character. *)
Lemma first_word_before_space (c : ascii) (s : string) :
  isspace c = false ->
  first_word (String c s) = Some (fst (span_word (String c s))).
Proof.
  intros Hc. unfold first_word, split_none_1. simpl. rewrite Hc.
  destruct (span_word s) as [w r]. rewrite Hc.
  destruct (lstrip r); reflexivity.
Qed.

(** The first word, when there is one, is a word. *)
Lemma first_word_is_word (s t : string) :
  first_word s = Some t -> is_word t = true.
Proof.
  unfold first_word, split_none_1. pose proof (lstrip_head s) as Hh.
  destruct (lstrip s) as [|c u] eqn:E; [discriminate|].
  pose proof (span_word_spec (String c u)) as (_ & Hw & _).
  simpl in Hw |- *. rewrite Hh in Hw |- *.
  destruct (span_word u) as [w r]. simpl in Hw.
  intros Ht. assert (t = String c w) as ->.
  { destruct (lstrip r); simpl in Ht; congruence. }
  unfold is_word. simpl. rewrite Hh in *. exact Hw.
Qed.

(** A name without a word makes the subscript [[0]] fail. *)
Lemma getitem0_first_word (s : string) :
  getitem0 (split_none_1 s) =
  match first_word s with Some t => Ok t | None => Raise IndexError end.
Proof. unfold first_word. destruct (split_none_1 s); reflexivity. Qed.

Lemma is_word_nonempty (t : string) : is_word t = true -> t <> "".
Proof. intros H ->. discriminate H. Qed.

Section NamesMatch.
Context {R1 R2 : Type} `{Named R1} `{Named R2}.

(** [sequence_names_match] compares the first words of the two names by
    the mate-suffix rule. *)
Lemma sequence_names_match_words (read1 : R1) (read2 : R2) (t1 t2 : string) :
  first_word (read_name read1) = Some t1 ->
  first_word (read_name read2) = Some t2 ->
  sequence_names_match read1 read2 = Ok (same_up_to_mate_suffix t1 t2).
Proof.
  intros E1 E2. unfold sequence_names_match.
  rewrite !getitem0_first_word, E1, E2. cbn [bind].
  rewrite !last_in_12
    by (apply is_word_nonempty; eapply first_word_is_word; eassumption).
  unfold same_up_to_mate_suffix.
  destruct (ends_in_1_or_2 t1 && ends_in_1_or_2 t2);
    [rewrite !slice_but_last|]; reflexivity.
Qed.

Lemma sequence_names_match_no_word1 (read1 : R1) (read2 : R2) :
  first_word (read_name read1) = None ->
  sequence_names_match read1 read2 = Raise IndexError.
Proof.
  intros E1. unfold sequence_names_match.
  rewrite getitem0_first_word, E1. reflexivity.
Qed.

Lemma sequence_names_match_no_word2 (read1 : R1) (read2 : R2) :
  first_word (read_name read2) = None ->
  sequence_names_match read1 read2 = Raise IndexError.
Proof.
  intros E2. unfold sequence_names_match.
  rewrite !getitem0_first_word, E2.
  destruct (first_word (read_name read1)); reflexivity.
Qed.

End NamesMatch.

(* ================================================================== *)
(** * Pairing readers *)

Lemma list_pair_ind {A} (P : list A -> Prop) :
  P [] -> (forall a, P [a]) -> (forall a b l, P l -> P (a :: b :: l)) ->
  forall l, P l.
Proof.
  intros H0 H1 H2 l.
  enough (P l /\ forall a, P (a :: l)) by tauto.
  induction l as [|b l [IH1 IH2]]; split; auto.
Qed.

Lemma length_consecutive_pairs {A} (l : list A) :
  length (consecutive_pairs l) = Nat.div2 (length l).
Proof.
  induction l as [| a | a b l IH] using list_pair_ind; simpl; auto.
Qed.

Section PairingFacts.
Context {R : Type} `{Named R}.

Lemma paired_step_accept (read1 read2 : R) (it1 it2 : iterator R) :
  sequence_names_match read1 read2 = Ok true ->
  PairedSequenceReader_iter (Item read1 it1) (Item read2 it2) =
  yield (read1, read2) (PairedSequenceReader_iter it1 it2).
Proof. intros E. simpl. now rewrite E. Qed.

Lemma paired_step_reject (read1 read2 : R) (it1 it2 : iterator R) :
  sequence_names_match read1 read2 = Ok false ->
  PairedSequenceReader_iter (Item read1 it1) (Item read2 it2) =
  raise (FormatError (PairedNameMismatch (read_name read1) (read_name read2))).
Proof. intros E. simpl. now rewrite E. Qed.

Lemma interleaved_step_accept (read1 read2 : R) (itr : iterator R) :
  sequence_names_match read1 read2 = Ok true ->
  InterleavedSequenceReader_iter (Item read1 (Item read2 itr)) =
  yield (read1, read2) (InterleavedSequenceReader_iter itr).
Proof. intros E. simpl. now rewrite E. Qed.

Lemma interleaved_step_reject (read1 read2 : R) (itr : iterator R) :
  sequence_names_match read1 read2 = Ok false ->
  InterleavedSequenceReader_iter (Item read1 (Item read2 itr)) =
  raise (FormatError
           (InterleavedNameMismatch (read_name read1) (read_name read2))).
Proof. intros E. simpl. now rewrite E. Qed.

(** The whole run of the two-file reader on streams whose records match
    pairwise. *)
Lemma paired_run (l1 l2 : list R) :
  all_names_match (combine l1 l2) ->
  PairedSequenceReader_iter (iter_of_list l1) (iter_of_list l2) =
  mkRun (combine l1 l2)
    (match Nat.compare (length l1) (length l2) with
     | Eq => None
     | Lt => Some (FormatError MoreReadsInFile2)
     | Gt => Some (FormatError MoreReadsInFile1)
     end).
Proof.
  revert l2. induction l1 as [|r1 l1 IH]; intros [|r2 l2] Hm;
    try reflexivity.
  inversion Hm as [|p ps Hp Hps]; subst.
  change (iter_of_list (r1 :: l1)) with (Item r1 (iter_of_list l1)).
  change (iter_of_list (r2 :: l2)) with (Item r2 (iter_of_list l2)).
  rewrite paired_step_accept by exact Hp.
  rewrite (IH l2 Hps). reflexivity.
Qed.

(** The whole run of the interleaved reader on a stream whose consecutive
    records match. *)
Lemma interleaved_run (l : list R) :
  all_names_match (consecutive_pairs l) ->
  InterleavedSequenceReader_iter (iter_of_list l) =
  mkRun (consecutive_pairs l)
    (if Nat.odd (length l) then Some (FormatError InterleavedIncomplete)
     else None).
Proof.
  induction l as [| a | a b l IH] using list_pair_ind; intros Hm;
    try reflexivity.
  inversion Hm as [|p ps Hp Hps]; subst.
  change (iter_of_list (a :: b :: l))
    with (Item a (Item b (iter_of_list l))).
  rewrite interleaved_step_accept by exact Hp.
  rewrite (IH Hps). reflexivity.
Qed.

(** Streams of different lengths never end normally, whatever the names
    are. *)
Lemma paired_unequal_never_normal (l1 l2 : list R) :
  length l1 <> length l2 ->
  ending (PairedSequenceReader_iter (iter_of_list l1) (iter_of_list l2))
  <> None.
Proof.
  revert l2. induction l1 as [|r1 l1 IH]; intros [|r2 l2] Hl;
    try (simpl; discriminate); [now contradiction Hl|].
  simpl. destruct (sequence_names_match r1 r2) as [[|]|e];
    try (simpl; discriminate).
  simpl. apply IH. simpl in Hl. lia.
Qed.

(** No more pairs are yielded than the shorter stream has records. *)
Lemma paired_yields_at_most (l1 l2 : list R) :
  length (yielded (PairedSequenceReader_iter (iter_of_list l1)
                     (iter_of_list l2)))
  <= Nat.min (length l1) (length l2).
Proof.
  revert l2. induction l1 as [|r1 l1 IH]; intros [|r2 l2];
    try (simpl; lia).
  simpl. destruct (sequence_names_match r1 r2) as [[|]|e];
    try (simpl; lia).
  simpl. specialize (IH l2). lia.
Qed.

End PairingFacts.


(** C1, as amended.  For two input streams whose records, taken in step,
    pass the name comparison, [PairedSequenceReader] yields one pair per
    step for as long as both readers deliver a record.  If file 1 ends while file 2 still has
    a record, the iteration raises the pairing error for more reads in
    file 2; if file 2 ends while file 1 still has records, it raises the
    pairing error for more reads in file 1; if both end together, the
    iteration ends normally. *)
Theorem paired_reader_termination_policy {R} `{Named R} (l1 l2 : list R) :
  all_names_match (combine l1 l2) ->
  let r := PairedSequenceReader_iter (iter_of_list l1) (iter_of_list l2) in
  yielded r = combine l1 l2
  /\ length (yielded r) = Nat.min (length l1) (length l2)
  /\ (length l1 < length l2 -> ending r = Some (FormatError MoreReadsInFile2))
  /\ (length l2 < length l1 -> ending r = Some (FormatError MoreReadsInFile1))
  /\ (length l1 = length l2 -> ending r = None).
Proof.
  intros Hm r. subst r. rewrite (paired_run l1 l2 Hm). simpl.
  split; [reflexivity|]. split; [apply length_combine|].
  repeat split; intros Hl.
  - apply Nat.compare_lt_iff in Hl. now rewrite Hl.
  - apply Nat.compare_gt_iff in Hl. now rewrite Hl.
  - apply Nat.compare_eq_iff in Hl. now rewrite Hl.
Qed.

(** Three records in file 1 and two in file 2: exactly two pairs, then the
    error for file 1. *)
Lemma paired_reader_three_and_two :
  all_names_match (combine file_A file_B)
  /\ yielded (PairedSequenceReader_iter (iter_of_list file_A)
                (iter_of_list file_B)) =
     [(fasta_read "read1/1", fasta_read "read1/2");
      (fasta_read "read2/1", fasta_read "read2/2")]
  /\ ending (PairedSequenceReader_iter (iter_of_list file_A)
               (iter_of_list file_B)) =
     Some (FormatError MoreReadsInFile1).
Proof.
  assert (Hm : all_names_match (combine file_A file_B))
    by (repeat constructor).
  destruct (paired_reader_termination_policy file_A file_B Hm)
    as (Hy & _ & _ & Hgt & _).
  split; [exact Hm|]. split; [exact Hy|]. apply Hgt. simpl. lia.
Defined.

(** C1 as stated, for every pair of input streams, fails: with one record
    in file 1 and two in file 2 whose first names do not match, both
    readers deliver a record and no pair is yielded, and file 1 is the
    shorter one and the error is not the one for more reads in file 2 but
    the one for the names. *)
Lemma paired_reader_mismatch_before_length :
  (length [fasta_read "a"] <? length [fasta_read "b"; fasta_read "c"])%nat
  = true
  /\ sequence_names_match (fasta_read "a") (fasta_read "b") = Ok false
  /\ yielded (PairedSequenceReader_iter (iter_of_list [fasta_read "a"])
                (iter_of_list [fasta_read "b"; fasta_read "c"])) = []
  /\ ending (PairedSequenceReader_iter (iter_of_list [fasta_read "a"])
               (iter_of_list [fasta_read "b"; fasta_read "c"])) =
     Some (FormatError (PairedNameMismatch "a" "b"))
  /\ ending (PairedSequenceReader_iter (iter_of_list [fasta_read "a"])
               (iter_of_list [fasta_read "b"; fasta_read "c"])) <>
     Some (FormatError MoreReadsInFile2).
Proof. repeat split. discriminate. Qed.

(** C2.  For an input stream of [n] records whose consecutive records pass
    the name comparison, [InterleavedSequenceReader] yields the
    [floor(n/2)] pairs of consecutive records; for odd [n] it then raises
    the pairing error for a last record without partner and does not end
    normally; for even [n] it ends without error. *)
Theorem interleaved_reader_odd_and_even {R} `{Named R} (l : list R) :
  all_names_match (consecutive_pairs l) ->
  let r := InterleavedSequenceReader_iter (iter_of_list l) in
  yielded r = consecutive_pairs l
  /\ length (yielded r) = Nat.div2 (length l)
  /\ (Nat.odd (length l) = true ->
      ending r = Some (FormatError InterleavedIncomplete) /\ ending r <> None)
  /\ (Nat.even (length l) = true -> ending r = None).
Proof.
  intros Hm r. subst r. rewrite (interleaved_run l Hm). simpl.
  split; [reflexivity|]. split; [apply length_consecutive_pairs|].
  split; intros Hl.
  - rewrite Hl. split; [reflexivity | discriminate].
  - rewrite <- Nat.negb_even, Hl. reflexivity.
Qed.

Lemma interleaved_reader_three_records :
  all_names_match (consecutive_pairs interleaved_3)
  /\ yielded (InterleavedSequenceReader_iter (iter_of_list interleaved_3)) =
     [(fasta_read "read1/1", fasta_read "read1/2")]
  /\ ending (InterleavedSequenceReader_iter (iter_of_list interleaved_3)) =
     Some (FormatError InterleavedIncomplete).
Proof.
  assert (Hm : all_names_match (consecutive_pairs interleaved_3))
    by (repeat constructor).
  destruct (interleaved_reader_odd_and_even interleaved_3 Hm)
    as (Hy & _ & Hodd & _).
  split; [exact Hm|]. split; [exact Hy|]. now apply Hodd.
Defined.

(* ================================================================== *)
(** * The name comparison *)

(** C4, as amended.  For two records whose names contain a word,
    [sequence_names_match] compares the first white-space-delimited words
    of the two names: it strips the final character from each word if and
    only if both words end in one of ['1'] and ['2'] (whichever of the two
    each ends in), and accepts the pair exactly when the resulting words
    are equal.  For a name without white space the word is the name itself.
    In the paired and in the interleaved reader an accepted pair is yielded
    and a mismatch raises a pairing error that carries both names. *)
Theorem names_match_mate_suffix_rule {R} `{Named R}
    (read1 read2 : R) (t1 t2 : string) (it1 it2 : iterator R) :
  first_word (read_name read1) = Some t1 ->
  first_word (read_name read2) = Some t2 ->
  sequence_names_match read1 read2 =
    Ok (if ends_in_1_or_2 t1 && ends_in_1_or_2 t2
        then (but_last t1 =? but_last t2)%string
        else (t1 =? t2)%string)
  /\ (is_word (read_name read1) = true -> t1 = read_name read1)
  /\ (is_word (read_name read2) = true -> t2 = read_name read2)
  /\ (same_up_to_mate_suffix t1 t2 = true ->
      PairedSequenceReader_iter (Item read1 it1) (Item read2 it2) =
        yield (read1, read2) (PairedSequenceReader_iter it1 it2)
      /\ InterleavedSequenceReader_iter (Item read1 (Item read2 it2)) =
        yield (read1, read2) (InterleavedSequenceReader_iter it2))
  /\ (same_up_to_mate_suffix t1 t2 = false ->
      PairedSequenceReader_iter (Item read1 it1) (Item read2 it2) =
        raise (FormatError
                 (PairedNameMismatch (read_name read1) (read_name read2)))
      /\ InterleavedSequenceReader_iter (Item read1 (Item read2 it2)) =
        raise (FormatError
                 (InterleavedNameMismatch (read_name read1) (read_name read2)))).
Proof.
  intros E1 E2.
  pose proof (sequence_names_match_words read1 read2 t1 t2 E1 E2) as M.
  split; [exact M|].
  split.
  { intros W. rewrite (first_word_of_word _ W) in E1. congruence. }
  split.
  { intros W. rewrite (first_word_of_word _ W) in E2. congruence. }
  split; intros S; rewrite S in M.
  - split; [now apply paired_step_accept | now apply interleaved_step_accept].
  - split; [now apply paired_step_reject | now apply interleaved_step_reject].
Qed.

(** Names ending in ['1'] and ['2'], and two names both ending in ['1'],
    are stripped and found equal on the remainder. *)
Lemma names_match_mate_suffix_rule_applied :
  (first_word (read_name (fasta_read "frag.1")) = Some "frag.1"
   /\ first_word (read_name (fasta_read "frag.2")) = Some "frag.2"
   /\ sequence_names_match (fasta_read "frag.1") (fasta_read "frag.2") = Ok true)
  /\ sequence_names_match (fasta_read "frag/1") (fasta_read "frag/1") = Ok true
  /\ sequence_names_match (fasta_read "frag/1") (fasta_read "frag/3") = Ok false.
Proof.
  split; [split; [reflexivity | split; [reflexivity|]] | split].
  - exact (proj1 (names_match_mate_suffix_rule (fasta_read "frag.1")
                    (fasta_read "frag.2") "frag.1" "frag.2" Exhausted Exhausted
                    eq_refl eq_refl)).
  - exact (proj1 (names_match_mate_suffix_rule (fasta_read "frag/1")
                    (fasta_read "frag/1") "frag/1" "frag/1" Exhausted Exhausted
                    eq_refl eq_refl)).
  - exact (proj1 (names_match_mate_suffix_rule (fasta_read "frag/1")
                    (fasta_read "frag/3") "frag/1" "frag/3" Exhausted Exhausted
                    eq_refl eq_refl)).
Defined.

(** C4 as stated, applied to the whole names, fails: two names that both
    end in ['1'] but whose first words are equal are accepted, although
    stripping the final character of each name leaves different strings. *)
Lemma names_rule_on_whole_names_fails :
  ends_in_1_or_2 (name (fasta_read "M01:7 1:N:0:1"))
  && ends_in_1_or_2 (name (fasta_read "M01:7 2:N:0:1")) = true
  /\ (but_last (name (fasta_read "M01:7 1:N:0:1"))
      =? but_last (name (fasta_read "M01:7 2:N:0:1")))%string = false
  /\ same_up_to_mate_suffix (name (fasta_read "M01:7 1:N:0:1"))
       (name (fasta_read "M01:7 2:N:0:1")) = false
  /\ sequence_names_match (fasta_read "M01:7 1:N:0:1")
       (fasta_read "M01:7 2:N:0:1") = Ok true.
Proof. repeat split. Qed.

(** C9.  The comparison looks only at the first white-space-delimited word
    of each name: two records whose first words are equal under the
    mate-suffix rule match, whatever follows the white space, and the
    paired and the interleaved reader yield such a pair without error.  In
    particular two names made of the same word followed by white space and
    different descriptions match.  In a name that does not begin with white
    space, the first word is the part before the first white-space
    character. *)
Theorem names_match_ignores_description {R} `{Named R}
    (read1 read2 : R) (t1 t2 : string) (it1 it2 : iterator R) :
  first_word (read_name read1) = Some t1 ->
  first_word (read_name read2) = Some t2 ->
  same_up_to_mate_suffix t1 t2 = true ->
  sequence_names_match read1 read2 = Ok true
  /\ PairedSequenceReader_iter (Item read1 it1) (Item read2 it2) =
       yield (read1, read2) (PairedSequenceReader_iter it1 it2)
  /\ InterleavedSequenceReader_iter (Item read1 (Item read2 it2)) =
       yield (read1, read2) (InterleavedSequenceReader_iter it2)
  /\ (forall (c1 c2 : ascii) (d1 d2 : string),
        isspace c1 = true -> isspace c2 = true ->
        forall r1 r2 : R,
          read_name r1 = (t1 ++ String c1 d1)%string ->
          read_name r2 = (t2 ++ String c2 d2)%string ->
          sequence_names_match r1 r2 = Ok true)
  /\ (forall c s, read_name read1 = String c s -> isspace c = false ->
        t1 = fst (span_word (read_name read1)))
  /\ (forall c s, read_name read2 = String c s -> isspace c = false ->
        t2 = fst (span_word (read_name read2))).
Proof.
  intros E1 E2 S.
  pose proof (sequence_names_match_words read1 read2 t1 t2 E1 E2) as M.
  rewrite S in M.
  split; [exact M|].
  split; [now apply paired_step_accept|].
  split; [now apply interleaved_step_accept|].
  split; [|split].
  - intros c1 c2 d1 d2 H1 H2 r1 r2 N1 N2.
    rewrite <- S. apply sequence_names_match_words.
    + rewrite N1. apply first_word_append; [|exact H1].
      eapply first_word_is_word; eassumption.
    + rewrite N2. apply first_word_append; [|exact H2].
      eapply first_word_is_word; eassumption.
  - intros c s N Hc. rewrite N in E1 |- *.
    rewrite (first_word_before_space c s Hc) in E1. congruence.
  - intros c s N Hc. rewrite N in E2 |- *.
    rewrite (first_word_before_space c s Hc) in E2. congruence.
Qed.

Lemma names_match_ignores_description_applied :
  first_word (read_name (fasta_read "frag/1 first mate")) = Some "frag/1"
  /\ first_word (read_name (fasta_read "frag/2 second mate, other text")) =
     Some "frag/2"
  /\ same_up_to_mate_suffix "frag/1" "frag/2" = true
  /\ sequence_names_match (fasta_read "frag/1 first mate")
       (fasta_read "frag/2 second mate, other text") = Ok true.
Proof.
  split; [reflexivity|]. split; [reflexivity|]. split; [reflexivity|].
  exact (proj1 (names_match_ignores_description
                  (fasta_read "frag/1 first mate")
                  (fasta_read "frag/2 second mate, other text")
                  "frag/1" "frag/2" Exhausted Exhausted
                  eq_refl eq_refl eq_refl)).
Defined.

(* ================================================================== *)
(** * The paired alignment reader *)

Section SAMFacts.
Context {S : Type}.
Variable sequence_class : string -> string -> list nat -> result S.

Local Abbreviation as_seq := (_as_sequence sequence_class).
Local Abbreviation sam_iter := (PairedEndSAMReader_iter sequence_class).

Lemma sam_body_ok (p : AlignedSegment * AlignedSegment) :
  name_matched p -> mate_flagged p -> convertible sequence_class p ->
  exists s1 s2,
    as_seq (fst (mate_order p)) = Ok s1
    /\ as_seq (snd (mate_order p)) = Ok s2
    /\ PairedEndSAMReader_body sequence_class p = Ok (s1, s2).
Proof.
  destruct p as [a b]. unfold name_matched, mate_flagged, convertible,
    mate_order, PairedEndSAMReader_body. simpl.
  intros Hn Hf [[sa Ha] [sb Hb]].
  rewrite Hn, String.eqb_refl. simpl.
  destruct (is_read1 a); rewrite Hf; simpl.
  - exists sa, sb. now rewrite Ha, Hb.
  - exists sb, sa. now rewrite Ha, Hb.
Qed.

(** A record left over after the last full pair changes nothing. *)
Lemma sam_dangling_dropped (l : list AlignedSegment) (x : AlignedSegment) :
  Nat.even (length l) = true ->
  sam_iter (iter_of_list (l ++ [x])) = sam_iter (iter_of_list l).
Proof.
  induction l as [| a | a b l IH] using list_pair_ind; intros He.
  - reflexivity.
  - discriminate He.
  - simpl in *. now rewrite (IH He).
Qed.

Lemma sam_run (l : list AlignedSegment) :
  Forall name_matched (consecutive_pairs l) ->
  Forall mate_flagged (consecutive_pairs l) ->
  Forall (convertible sequence_class) (consecutive_pairs l) ->
  ending (sam_iter (iter_of_list l)) = None
  /\ map (fun ss => (Ok (fst ss), Ok (snd ss)))
         (yielded (sam_iter (iter_of_list l))) =
     map (fun p => (as_seq (fst (mate_order p)), as_seq (snd (mate_order p))))
         (consecutive_pairs l).
Proof.
  induction l as [| a | a b l IH] using list_pair_ind; intros Hn Hf Hc;
    try (split; reflexivity).
  inversion Hn as [|? ? Hn1 Hn2]; inversion Hf as [|? ? Hf1 Hf2];
    inversion Hc as [|? ? Hc1 Hc2]; subst.
  destruct (IH Hn2 Hf2 Hc2) as [IHe IHy].
  destruct (sam_body_ok (a, b) Hn1 Hf1 Hc1) as (s1 & s2 & E1 & E2 & Eb).
  change (sam_iter (iter_of_list (a :: b :: l)))
    with (emit (PairedEndSAMReader_body sequence_class (a, b))
               (sam_iter (iter_of_list l))).
  rewrite Eb. simpl. split; [exact IHe|].
  rewrite IHy. f_equal. simpl in E1, E2. now rewrite E1, E2.
Qed.

End SAMFacts.

(** C10, as amended.  For an alignment stream with an odd number [n] of
    records in which each consecutive pair has identical names, carries the
    mate flags the reader asserts (the first record is first of pair and
    the second is second of pair, or the first is not first of pair and the
    second is) and converts to sequence objects, [PairedEndSAMReader]
    yields the [floor(n/2)] consecutive pairs, first of pair first, and then
    ends normally: the last record, which has no partner, is dropped without
    an error, and the run is the one of the stream without it. *)
Theorem paired_sam_reader_drops_last_record {S}
    (sequence_class : string -> string -> list nat -> result S)
    (l : list AlignedSegment) (x : AlignedSegment) :
  Nat.even (length l) = true ->
  Forall name_matched (consecutive_pairs l) ->
  Forall mate_flagged (consecutive_pairs l) ->
  Forall (convertible sequence_class) (consecutive_pairs l) ->
  let r := PairedEndSAMReader_iter sequence_class (iter_of_list (l ++ [x])) in
  Nat.odd (length (l ++ [x])) = true
  /\ length (yielded r) = Nat.div2 (length (l ++ [x]))
  /\ ending r = None
  /\ map (fun ss => (Ok (fst ss), Ok (snd ss))) (yielded r) =
     map (fun p => (_as_sequence sequence_class (fst (mate_order p)),
                    _as_sequence sequence_class (snd (mate_order p))))
         (consecutive_pairs l)
  /\ r = PairedEndSAMReader_iter sequence_class (iter_of_list l).
Proof.
  intros He Hn Hf Hc r. subst r.
  rewrite (sam_dangling_dropped sequence_class l x He).
  destruct (sam_run sequence_class l Hn Hf Hc) as [Hend Hy].
  assert (Hlen : length (yielded (PairedEndSAMReader_iter sequence_class
                                    (iter_of_list l))) = Nat.div2 (length l)).
  { rewrite <- length_consecutive_pairs.
    rewrite <- (length_map (fun ss : S * S => (@Ok S (fst ss), @Ok S (snd ss)))).
    rewrite Hy. apply length_map. }
  assert (Hodd : Nat.odd (length (l ++ [x])) = true).
  { rewrite length_app, Nat.add_comm. simpl.
    rewrite <- Nat.negb_even, Nat.even_succ, <- Nat.negb_even, He.
    reflexivity. }
  repeat split; try assumption.
  rewrite Hlen, length_app, Nat.add_comm. simpl.
  apply Nat.even_spec in He. destruct He as [k ->].
  rewrite Nat.div2_double. symmetry. apply (Nat.div2_succ_double k).
Qed.

Lemma paired_sam_reader_three_records :
  Nat.even (length [sam_record "frag" true false; sam_record "frag" false true])
  = true
  /\ Forall name_matched
       (consecutive_pairs [sam_record "frag" true false;
                           sam_record "frag" false true])
  /\ Forall mate_flagged
       (consecutive_pairs [sam_record "frag" true false;
                           sam_record "frag" false true])
  /\ Forall (convertible sam_Sequence)
       (consecutive_pairs [sam_record "frag" true false;
                           sam_record "frag" false true])
  /\ length (yielded (PairedEndSAMReader_iter sam_Sequence
                        (iter_of_list ([sam_record "frag" true false;
                                        sam_record "frag" false true]
                                       ++ [sam_record "last" true false]))))
     = 1
  /\ ending (PairedEndSAMReader_iter sam_Sequence
               (iter_of_list ([sam_record "frag" true false;
                               sam_record "frag" false true]
                              ++ [sam_record "last" true false])))
     = None.
Proof.
  assert (Hn : Forall name_matched
                 (consecutive_pairs [sam_record "frag" true false;
                                     sam_record "frag" false true]))
    by (repeat constructor).
  assert (Hf : Forall mate_flagged
                 (consecutive_pairs [sam_record "frag" true false;
                                     sam_record "frag" false true]))
    by (repeat constructor).
  assert (Hc : Forall (convertible sam_Sequence)
                 (consecutive_pairs [sam_record "frag" true false;
                                     sam_record "frag" false true])).
  { constructor; [|constructor]. split; eexists; reflexivity. }
  destruct (paired_sam_reader_drops_last_record sam_Sequence
              [sam_record "frag" true false; sam_record "frag" false true]
              (sam_record "last" true false) eq_refl Hn Hf Hc)
    as (_ & Hlen & Hend & _).
  repeat split; assumption.
Defined.

(** C10 as stated fails: three records with one name, none of them flagged
    as first or second of pair, are name-matched, yet the reader stops at
    the first pair with a failed assertion and yields nothing. *)
Lemma paired_sam_reader_unflagged_pair_fails :
  Forall name_matched
    (consecutive_pairs [sam_record "frag" false false;
                        sam_record "frag" false false;
                        sam_record "frag" false false])
  /\ yielded (PairedEndSAMReader_iter sam_Sequence
                (iter_of_list [sam_record "frag" false false;
                               sam_record "frag" false false;
                               sam_record "frag" false false])) = []
  /\ ending (PairedEndSAMReader_iter sam_Sequence
               (iter_of_list [sam_record "frag" false false;
                              sam_record "frag" false false;
                              sam_record "frag" false false]))
     = Some AssertionError.
Proof. repeat split. repeat constructor. Qed.

(* ================================================================== *)
(** * Colorspace records *)

Lemma substring_0_0 (s : string) : substring 0 0 s = "".
Proof. destruct s; reflexivity. Qed.

(** [s[0:1]] *)
Lemma slice_0_1 (s : string) : slice s (Some 0%Z) (Some 1%Z) = str_head s.
Proof.
  destruct s as [|c s]; [reflexivity|].
  unfold slice, clamp_index. simpl String.length.
  change (0 <? 0)%Z with false. change (1 <? 0)%Z with false. cbv iota.
  replace (Z.to_nat (Z.min 0 _)) with 0 by lia.
  replace (Z.to_nat (Z.min 1 _ - Z.min 0 _)) with 1 by lia.
  simpl. now rewrite substring_0_0.
Qed.

(** [s[1:]] *)
Lemma slice_1 (s : string) : slice s (Some 1%Z) None = str_tail s.
Proof.
  destruct s as [|c s]; [reflexivity|].
  unfold slice, clamp_index. simpl String.length.
  change (1 <? 0)%Z with false. cbv iota.
  replace (Z.to_nat (Z.min 1 _)) with 1 by lia.
  replace (Z.to_nat (_ - Z.min 1 _)) with (String.length s) by lia.
  simpl. apply substring_0_all.
Qed.

Lemma str_head_tail (s : string) : s = (str_head s ++ str_tail s)%string.
Proof. destruct s; reflexivity. Qed.

(** [ColorspaceSequence.__init__] without a primer, in terms of the first
    character and the rest of the raw sequence. *)
Lemma ColorspaceSequence_init_split (truncate_string : string -> string)
    (name0 raw : string) (q : option string) (name2 : string) :
  ColorspaceSequence_init truncate_string name0 raw q None name2 =
  ColorspaceSequence_init truncate_string name0 (str_tail raw) q
    (Some (str_head raw)) name2.
Proof.
  unfold ColorspaceSequence_init. now rewrite slice_0_1, slice_1.
Qed.

Lemma ColorspaceSequence_init_cases (truncate_string : string -> string)
    (name0 sequence0 : string) (q : option string) (p : string)
    (name2 : string) :
  ColorspaceSequence_init truncate_string name0 sequence0 q (Some p) name2 =
  match q with
  | Some qs =>
      if (String.length sequence0 =? String.length qs)%nat
      then if is_ACGT p
           then Ok (mkColorspaceSequence (mkSequence name0 sequence0 q name2) p)
           else Raise (FormatError (PrimerNotACGT p (truncate_string name0)))
      else Raise (FormatError
                    (ColorspaceLengthMismatch (truncate_string name0)
                       (String.length qs) (String.length sequence0) p))
  | None =>
      if is_ACGT p
      then Ok (mkColorspaceSequence (mkSequence name0 sequence0 q name2) p)
      else Raise (FormatError (PrimerNotACGT p (truncate_string name0)))
  end.
Proof.
  unfold ColorspaceSequence_init, Sequence_init, is_ACGT.
  destruct (in_strs p ["A"; "C"; "G"; "T"]); destruct q as [qs|];
    try reflexivity;
    rewrite (Nat.eqb_sym (String.length qs));
    destruct (String.length sequence0 =? String.length qs)%nat; reflexivity.
Qed.

(** Closes the case that is left once the outcome of the constructor is
    known. *)
Ltac colorspace_cases :=
  intros;
  repeat match goal with
         | H : Ok _ = Ok _ |- _ => injection H as <-
         | H : Some _ = Some _ |- _ => injection H as ->
         | H : forall qs, Some _ = Some qs -> _ |- _ =>
             specialize (H _ eq_refl)
         end;
  simpl in *;
  try discriminate; try congruence;
  try (eexists; reflexivity); auto.

(** C5.  Constructing a [ColorspaceSequence] without an explicit primer
    splits the first character of the raw sequence off as the primer and
    stores the remaining characters as the sequence.  A primer that is not
    one of ['A'], ['C'], ['G'], ['T'] makes the construction itself fail with
    a [FormatError]; qualities whose length differs from that of the
    sequence after the split make it fail with a [FormatError] that names
    the read. *)
Theorem colorspace_sequence_construction (truncate_string : string -> string)
    (name0 raw : string) (q : option string) (name2 : string) :
  let built := ColorspaceSequence_init truncate_string name0 raw q None name2 in
  (forall cs, built = Ok cs ->
     primer cs = str_head raw
     /\ sequence (cs_read cs) = str_tail raw
     /\ raw = (primer cs ++ sequence (cs_read cs))%string
     /\ is_ACGT (primer cs) = true
     /\ qualities (cs_read cs) = q
     /\ (forall qs, q = Some qs ->
           String.length qs = String.length (sequence (cs_read cs))))
  /\ ((forall qs, q = Some qs -> String.length qs = String.length (str_tail raw)) ->
      is_ACGT (str_head raw) = true ->
      built = Ok (mkColorspaceSequence (mkSequence name0 (str_tail raw) q name2)
                    (str_head raw)))
  /\ (is_ACGT (str_head raw) = false -> exists m, built = Raise (FormatError m))
  /\ (forall qs, q = Some qs ->
        String.length qs <> String.length (str_tail raw) ->
        built = Raise (FormatError
                         (ColorspaceLengthMismatch (truncate_string name0)
                            (String.length qs) (String.length (str_tail raw))
                            (str_head raw))))
  /\ (forall p, is_ACGT p = false ->
        exists m, ColorspaceSequence_init truncate_string name0 raw q (Some p)
                    name2 = Raise (FormatError m)).
Proof.
  intros built. subst built.
  rewrite ColorspaceSequence_init_split, ColorspaceSequence_init_cases.
  pose proof (str_head_tail raw) as Hraw.
  assert (Hgiven : forall p, is_ACGT p = false ->
            exists m, ColorspaceSequence_init truncate_string name0 raw q
                        (Some p) name2 = Raise (FormatError m)).
  { intros p Hp. rewrite ColorspaceSequence_init_cases, Hp.
    destruct q as [qs|]; [|eexists; reflexivity].
    destruct (String.length raw =? String.length qs)%nat;
      eexists; reflexivity. }
  destruct q as [qs|];
    [destruct (Nat.eqb_spec (String.length (str_tail raw)) (String.length qs))
       as [L|L]|];
    destruct (is_ACGT (str_head raw)) eqn:P;
    repeat split; try exact Hgiven; colorspace_cases.
Qed.

(** The record of the example: raw sequence ["A0123"] with four quality
    characters. *)
Lemma colorspace_sequence_A0123 :
  (forall qs, Some "IIII" = Some qs ->
     String.length qs = String.length (str_tail "A0123"))
  /\ is_ACGT (str_head "A0123") = true
  /\ ColorspaceSequence_init (fun s => s) "read" "A0123" (Some "IIII") None "" =
     Ok (mkColorspaceSequence (mkSequence "read" "0123" (Some "IIII") "") "A").
Proof.
  assert (Hq : forall qs, Some "IIII" = Some qs ->
                 String.length qs = String.length (str_tail "A0123"))
    by (intros qs [= <-]; reflexivity).
  split; [exact Hq|]. split; [reflexivity|].
  exact (proj1 (proj2 (colorspace_sequence_construction (fun s => s) "read"
                         "A0123" (Some "IIII") "")) Hq eq_refl).
Defined.

(* ================================================================== *)
(** * Detection from the file name *)

Lemma lower_char_dot (c : ascii) :
  Ascii.eqb (lower_char c) "." = Ascii.eqb c ".".
Proof. destruct c as [[] [] [] [] [] [] [] []]; reflexivity. Qed.

Lemma lower_char_slash (c : ascii) :
  Ascii.eqb (lower_char c) "/" = Ascii.eqb c "/".
Proof. destruct c as [[] [] [] [] [] [] [] []]; reflexivity. Qed.

Lemma rfind_lower_dot (e : string) : rfind "." (lower e) = rfind "." e.
Proof.
  induction e as [|c e IH]; simpl; [reflexivity|].
  now rewrite IH, lower_char_dot.
Qed.

Lemma rfind_lower_slash (e : string) : rfind "/" (lower e) = rfind "/" e.
Proof.
  induction e as [|c e IH]; simpl; [reflexivity|].
  now rewrite IH, lower_char_slash.
Qed.

Lemma length_lower (e : string) : String.length (lower e) = String.length e.
Proof. induction e as [|c e IH]; simpl; [reflexivity | now rewrite IH]. Qed.

Lemma rfind_append (c : ascii) (a b : string) :
  rfind c (a ++ b) =
  match rfind c b with
  | Some i => Some (String.length a + i)
  | None => rfind c a
  end.
Proof.
  induction a as [|x a IH]; simpl.
  - destruct (rfind c b); reflexivity.
  - rewrite IH. destruct (rfind c b); reflexivity.
Qed.

Lemma rfind_lt (c : ascii) (s : string) (i : nat) :
  rfind c s = Some i -> i < String.length s.
Proof.
  revert i. induction s as [|x s IH]; simpl; intros i; [discriminate|].
  destruct (rfind c s) as [j|].
  - intros [= <-]. specialize (IH j eq_refl). lia.
  - destruct (Ascii.eqb x c); [intros [= <-]; lia | discriminate].
Qed.

Lemma substring_prefix_append (a b : string) (n m : nat) :
  n + m <= String.length a ->
  substring n m (a ++ b) = substring n m a.
Proof.
  revert n m. induction a as [|x a IH]; simpl; intros n m Hl.
  - assert (n = 0) as -> by lia. assert (m = 0) as -> by lia.
    now rewrite substring_0_0.
  - destruct n as [|n].
    + destruct m as [|m]; [reflexivity|]. f_equal. apply IH. lia.
    + apply IH. lia.
Qed.

(** The extension found after a stem with a proper last component. *)
Lemma splitext_append (stem e : string) :
  has_base stem = true -> rfind "." e = Some 0 -> rfind "/" e = None ->
  splitext (stem ++ e) = (stem, e).
Proof.
  intros Hb Hd Hs. unfold splitext.
  rewrite (rfind_append "." stem e), Hd, (rfind_append "/" stem e), Hs.
  rewrite Nat.add_0_r.
  set (start := match rfind "/" stem with Some i => 1 + i | None => 0 end).
  assert (Hstart : start <= String.length stem).
  { subst start. destruct (rfind "/" stem) as [i|] eqn:E; [|lia].
    apply rfind_lt in E. lia. }
  assert (Hbase : substring start (String.length stem - start) (stem ++ e)
                  = basename stem).
  { rewrite substring_prefix_append by lia. unfold basename. subst start.
    destruct (rfind "/" stem); [reflexivity|].
    rewrite Nat.sub_0_r. apply substring_0_all. }
  rewrite Hbase. unfold has_base in Hb. rewrite Hb.
  apply Nat.leb_le in Hstart. rewrite Hstart. simpl.
  rewrite substring_0_append. f_equal.
  rewrite length_append, Nat.add_comm, Nat.add_sub.
  rewrite substring_skip_append. apply substring_0_all.
Qed.

Lemma endswith_nil (suf : string) :
  endswith "" suf = ("" =? suf)%string.
Proof. unfold endswith. apply orb_false_r. Qed.

Lemma endswith_cons (x : ascii) (s suf : string) :
  endswith (String x s) suf = (String x s =? suf)%string || endswith s suf.
Proof. reflexivity. Qed.

Lemma endswith_append (a b : string) : endswith (a ++ b) b = true.
Proof.
  induction a as [|x a IH].
  - destruct b; [reflexivity|].
    change ("" ++ String a b)%string with (String a b).
    now rewrite endswith_cons, String.eqb_refl.
  - change (String x a ++ b)%string with (String x (a ++ b)).
    rewrite endswith_cons, IH. apply orb_true_r.
Qed.

Lemma endswith_split (s suf : string) :
  endswith s suf = true -> exists pre, s = (pre ++ suf)%string.
Proof.
  induction s as [|x s IH]; intros He.
  - rewrite endswith_nil in He. apply String.eqb_eq in He. subst.
    now exists "".
  - rewrite endswith_cons in He. apply orb_prop in He as [He|He].
    + apply String.eqb_eq in He. exists "". now rewrite He.
    + destruct (IH He) as [pre ->]. now exists (String x pre).
Qed.

Lemma last_char_append (a b : string) :
  b <> "" -> last_char (a ++ b) = last_char b.
Proof.
  intros Hb. induction a as [|x a IH]; [reflexivity|].
  simpl. destruct (a ++ b)%string eqn:E; [|exact IH].
  destruct a; simpl in E; [contradiction | discriminate].
Qed.

Lemma last_char_lower (e : string) :
  last_char (lower e) = option_map lower_char (last_char e).
Proof.
  induction e as [|c e IH]; [reflexivity|].
  simpl. destruct e; [reflexivity | exact IH].
Qed.

(** A name ends with a suffix only if their last characters agree. *)
Lemma endswith_last_char (s suf : string) :
  suf <> "" -> endswith s suf = true -> last_char s = last_char suf.
Proof.
  intros Hs He. destruct (endswith_split _ _ He) as [pre ->].
  now apply last_char_append.
Qed.

(** [name[:-len(ext)]] removes the suffix that was found. *)
Lemma slice_drop_suffix (p c : string) :
  c <> "" ->
  slice (p ++ c) None (Some (- Z.of_nat (String.length c))%Z) = p.
Proof.
  intros Hc. unfold slice, clamp_index. rewrite length_append.
  destruct c as [|x c]; [contradiction|].
  replace (- Z.of_nat (String.length (String x c)) <? 0)%Z with true
    by (symmetry; apply Z.ltb_lt; simpl String.length; lia).
  replace (Z.to_nat (Z.max _ 0 - 0)) with (String.length p) by lia.
  apply substring_0_append.
Qed.

Lemma append_same_length (p a q b : string) :
  (p ++ a)%string = (q ++ b)%string -> String.length a = String.length b ->
  a = b.
Proof.
  revert q. induction p as [|x p IH]; intros [|y q] E L; simpl in E.
  - exact E.
  - apply (f_equal String.length) in E. simpl in E.
    rewrite length_append in E. lia.
  - apply (f_equal String.length) in E. simpl in E.
    rewrite length_append in E. lia.
  - injection E as _ E. now apply (IH q).
Qed.

Lemma endswith_same_length (p a b : string) :
  String.length a = String.length b -> a <> b ->
  endswith (p ++ a) b = false.
Proof.
  intros L N. destruct (endswith (p ++ a) b) eqn:E; [|reflexivity].
  destruct (endswith_split _ _ E) as [pre E'].
  now apply append_same_length in E'.
Qed.

Lemma endswith_other_last (p a b : string) :
  a <> "" -> b <> "" -> last_char a <> last_char b ->
  endswith (p ++ a) b = false.
Proof.
  intros Ha Hb N. destruct (endswith (p ++ a) b) eqn:E; [|reflexivity].
  apply endswith_last_char in E; [|exact Hb].
  rewrite last_char_append in E by exact Ha. contradiction.
Qed.

(** A compression suffix at the end of a name is found and removed. *)
Lemma strip_compression_found (p comp : string) :
  In comp compression_suffixes ->
  strip_compression compression_suffixes (p ++ comp) = (p, Some comp).
Proof.
  unfold compression_suffixes. simpl.
  intros [<-|[<-|[<-|[]]]].
  - rewrite endswith_append. now rewrite slice_drop_suffix.
  - rewrite endswith_other_last by (discriminate || (simpl; congruence)).
    rewrite endswith_append. now rewrite slice_drop_suffix.
  - rewrite endswith_same_length by (reflexivity || discriminate).
    rewrite endswith_other_last by (discriminate || (simpl; congruence)).
    rewrite endswith_append. now rewrite slice_drop_suffix.
Qed.

(** An extension of the table, in any case, is a dot followed by letters,
    and does not end like a compression suffix. *)
Lemma table_extension_shape (e : string) :
  In (lower e) table_extensions ->
  rfind "." e = Some 0 /\ rfind "/" e = None /\ e <> ""
  /\ last_char e <> Some "z"%char /\ last_char e <> Some "2"%char.
Proof.
  intros Hin.
  rewrite <- rfind_lower_dot, <- rfind_lower_slash.
  assert (Hl : forall c, last_char e = Some c ->
                 last_char (lower e) = Some (lower_char c)).
  { intros c Hc. now rewrite last_char_lower, Hc. }
  assert (Hne : e <> "") by (intros ->; simpl in Hin; intuition discriminate).
  unfold table_extensions, fasta_extensions, fastq_extensions in Hin.
  simpl in Hin.
  repeat (destruct Hin as [Hin|Hin];
          [rewrite <- Hin in *;
           repeat split; try reflexivity; try exact Hne;
           intros Hc; apply Hl in Hc; discriminate Hc|]).
  contradiction.
Qed.

Lemma strip_compression_none (stem e : string) :
  In (lower e) table_extensions ->
  strip_compression compression_suffixes (stem ++ e) = (stem ++ e, None)%string.
Proof.
  intros Hin. destruct (table_extension_shape e Hin) as (_ & _ & Hne & Hz & H2).
  unfold compression_suffixes. simpl.
  rewrite !endswith_other_last; try reflexivity; try assumption;
    try discriminate; simpl; congruence.
Qed.

(** The name [stem ++ e ++ comp], with [e] an extension of the table in any
    case and [comp] a compression suffix or nothing, splits into [stem] and
    [e]. *)
Lemma splitext_compressed_shape (stem e comp : string) :
  has_base stem = true ->
  In (lower e) table_extensions ->
  comp = "" \/ In comp compression_suffixes ->
  exists c, splitext_compressed (stem ++ e ++ comp) = (stem, e, c).
Proof.
  intros Hb Hin Hc. destruct (table_extension_shape e Hin) as (Hd & Hs & _).
  unfold splitext_compressed. destruct Hc as [->|Hc].
  - rewrite append_nil_r, strip_compression_none by exact Hin.
    rewrite splitext_append by assumption. now exists None.
  - rewrite <- append_assoc, strip_compression_found by exact Hc.
    rewrite splitext_append by assumption. now exists (Some comp).
Qed.

Lemma in_strs_In (x : string) (l : list string) :
  in_strs x l = true <-> In x l.
Proof.
  unfold in_strs. rewrite existsb_exists. split.
  - intros (y & Hy & E). apply String.eqb_eq in E. now subst.
  - intros Hx. exists x. split; [exact Hx | apply String.eqb_refl].
Qed.

Lemma in_strs_not_In (x : string) (l : list string) :
  in_strs x l = false <-> ~ In x l.
Proof.
  rewrite <- in_strs_In. destruct (in_strs x l); split; congruence.
Qed.

Lemma strip_compression_absent (suffixes : list string) (name0 : string) :
  (forall cs, In cs suffixes -> endswith name0 cs = false) ->
  strip_compression suffixes name0 = (name0, None).
Proof.
  induction suffixes as [|cs more IH]; intros Hn; [reflexivity|].
  simpl. rewrite (Hn cs) by now left.
  apply IH. intros cs' Hin. apply Hn. now right.
Qed.

(** [guess_format_from_name] on a path that is not empty. *)
Lemma guess_format_from_name_path (name0 : string) (raise_on_failure : bool) :
  name0 <> "" ->
  guess_format_from_name (PathStr name0) raise_on_failure =
  match guess_from_extension name0 with
  | (Some fmt, _) => Ok (Some fmt)
  | (None, ext) =>
      if raise_on_failure
      then Raise (UnknownFileType (ExtensionNotRecognized ext))
      else Ok None
  end.
Proof.
  intros Hn. unfold guess_format_from_name. simpl.
  destruct name0 as [|c n]; [contradiction|].
  destruct (guess_from_extension (String c n)) as [[fmt|] ext]; reflexivity.
Qed.

Lemma append_not_nil (a b : string) : b <> "" -> (a ++ b)%string <> "".
Proof. destruct a; simpl; [auto | discriminate]. Qed.

(** A compression suffix is a dot followed by characters that are neither
    dots nor slashes. *)
Lemma compression_suffix_shape (cs : string) :
  In cs compression_suffixes ->
  rfind "." cs = Some 0 /\ rfind "/" cs = None /\ cs <> "".
Proof.
  unfold compression_suffixes. simpl.
  intros [<-|[<-|[<-|[]]]]; repeat split; discriminate.
Qed.

(** A name that ends in an extension ends in no other one. *)
Lemma endswith_dotted (stem e cs : string) :
  rfind "." e = Some 0 -> rfind "." cs = Some 0 -> e <> cs ->
  endswith (stem ++ e) cs = false.
Proof.
  intros Hd Hc Hne. destruct (endswith (stem ++ e) cs) eqn:E; [|reflexivity].
  exfalso. apply endswith_split in E as [pre E].
  assert (Hr : rfind "." (stem ++ e) = rfind "." (pre ++ cs)) by now rewrite E.
  rewrite !rfind_append, Hd, Hc in Hr. injection Hr as Hr.
  assert (Hl : String.length (stem ++ e) = String.length (pre ++ cs))
    by now rewrite E.
  rewrite !length_append in Hl.
  apply Hne. apply (append_same_length stem e pre cs E). lia.
Qed.

(** What [strip_compression] returns: the name as it is, or the name
    without the suffix it ends in. *)
Lemma strip_compression_cases (suffixes : list string) (name0 : string) :
  (forall cs, In cs suffixes -> cs <> "") ->
  strip_compression suffixes name0 = (name0, None)
  \/ exists p cs,
       In cs suffixes /\ name0 = (p ++ cs)%string
       /\ strip_compression suffixes name0 = (p, Some cs).
Proof.
  induction suffixes as [|cs more IH]; intros Hne; [now left|]. simpl.
  destruct (endswith name0 cs) eqn:E.
  - right. destruct (endswith_split _ _ E) as [pre ->].
    exists pre, cs. split; [now left|]. split; [reflexivity|].
    rewrite slice_drop_suffix by (apply Hne; now left). reflexivity.
  - destruct IH as [IH|(p & cs' & Hin & Hn & IH)].
    + intros cs' Hin. apply Hne. now right.
    + now left.
    + right. exists p, cs'. split; [now right|]. now split.
Qed.

Lemma all_dots_substring (s : string) (n m m' : nat) :
  all_dots (substring n m s) = true -> m' <= m ->
  all_dots (substring n m' s) = true.
Proof.
  revert n m m'. induction s as [|c s IH]; intros n m m' H Hle.
  - destruct n, m'; reflexivity.
  - destruct n as [|n].
    + destruct m' as [|m']; [reflexivity|].
      destruct m as [|m]; [lia|]. simpl in *.
      apply andb_prop in H as [H1 H2]. rewrite H1. simpl.
      apply (IH 0 m m' H2). lia.
    + simpl in *. now apply (IH n m m').
Qed.

(** A path without an extension that ends in a compression suffix has no
    extension once the suffix is taken off. *)
Lemma no_extension_stripped (p cs : string) :
  In cs compression_suffixes ->
  snd (splitext (p ++ cs)) = "" -> snd (splitext p) = "".
Proof.
  intros Hin. destruct (compression_suffix_shape cs Hin) as (Hd & Hs & Hne).
  unfold splitext.
  rewrite (rfind_append "." p cs), Hd, (rfind_append "/" p cs), Hs.
  rewrite Nat.add_0_r.
  set (start := match rfind "/" p with Some i => 1 + i | None => 0 end).
  assert (Hstart : start <= String.length p).
  { subst start. destruct (rfind "/" p) as [i|] eqn:E; [|lia].
    apply rfind_lt in E. lia. }
  rewrite substring_prefix_append by lia.
  destruct (all_dots (substring start (String.length p - start) p)) eqn:Ha.
  2:{ replace (start <=? String.length p)%nat with true
        by (symmetry; now apply Nat.leb_le).
      simpl. rewrite length_append, Nat.add_comm, Nat.add_sub.
      rewrite substring_skip_append, substring_0_all.
      intros E. contradiction. }
  intros _. destruct (rfind "." p) as [d|] eqn:Ed; [|reflexivity].
  apply rfind_lt in Ed.
  destruct (start <=? d)%nat eqn:El; [|reflexivity].
  rewrite (all_dots_substring p start (String.length p - start) (d - start) Ha)
    by lia.
  reflexivity.
Qed.

(** How a name made of a stem, an extension and possibly a compression
    suffix splits, when the extension read alone is not the suffix. *)
Lemma splitext_compressed_dotted (stem e comp : string) :
  has_base stem = true ->
  rfind "." e = Some 0 -> rfind "/" e = None ->
  In comp compression_suffixes
  \/ (comp = "" /\ ~ In e compression_suffixes) ->
  exists c, splitext_compressed (stem ++ e ++ comp) = (stem, e, c).
Proof.
  intros Hb Hd Hs [Hc|[-> Hc]]; unfold splitext_compressed.
  - rewrite <- append_assoc, strip_compression_found by exact Hc.
    rewrite splitext_append by assumption. now exists (Some comp).
  - rewrite append_nil_r, strip_compression_absent.
    + rewrite splitext_append by assumption. now exists None.
    + intros cs Hin. apply endswith_dotted; [exact Hd| |].
      * apply (compression_suffix_shape cs Hin).
      * intros ->. contradiction.
Qed.

(** How a name without an extension splits, with or without a compression
    suffix. *)
Lemma splitext_compressed_plain (stem comp : string) :
  no_extension stem = true ->
  comp = "" \/ In comp compression_suffixes ->
  exists n c, splitext_compressed (stem ++ comp) = (n, "", c).
Proof.
  unfold no_extension. intros Hn Hc. apply String.eqb_eq in Hn.
  unfold splitext_compressed. destruct Hc as [->|Hc].
  - rewrite append_nil_r.
    destruct (strip_compression_cases compression_suffixes stem)
      as [->|(p & cs & Hin & -> & ->)].
    + intros cs Hin. apply (compression_suffix_shape cs Hin).
    + destruct (splitext stem) as [n ext]. simpl in Hn. subst ext.
      now exists n, None.
    + apply (no_extension_stripped p cs Hin) in Hn.
      destruct (splitext p) as [n ext]. simpl in Hn. subst ext.
      now exists n, (Some cs).
  - rewrite strip_compression_found by exact Hc.
    destruct (splitext stem) as [n ext]. simpl in Hn. subst ext.
    now exists n, (Some comp).
Qed.

(** The table of [guess_format_from_name] on what [splitext_compressed]
    makes of a name that is not empty. *)
Lemma guess_format_from_name_split (name0 stem ext1 : string)
    (c : option string) (raise_on_failure : bool) :
  name0 <> "" ->
  splitext_compressed name0 = (stem, ext1, c) ->
  guess_format_from_name (PathStr name0) raise_on_failure =
  if in_strs (lower ext1) fasta_extensions then Ok (Some "fasta")
  else if in_strs (lower ext1) fastq_extensions
          || ((lower ext1 =? ".txt")%string && endswith stem "_sequence")
  then Ok (Some "fastq")
  else if (lower ext1 =? ".sam")%string then Ok (Some "sam")
  else if (lower ext1 =? ".bam")%string then Ok (Some "bam")
  else if raise_on_failure
  then Raise (UnknownFileType (ExtensionNotRecognized (lower ext1)))
  else Ok None.
Proof.
  intros Hn Hs. rewrite guess_format_from_name_path by exact Hn.
  unfold guess_from_extension. rewrite Hs.
  fold fasta_extensions. fold fastq_extensions.
  destruct (in_strs (lower ext1) fasta_extensions); [reflexivity|].
  destruct (in_strs (lower ext1) fastq_extensions
            || (lower ext1 =? ".txt")%string && endswith stem "_sequence");
    [reflexivity|].
  unfold in_strs. cbn [existsb].
  destruct (String.eqb_spec (lower ext1) ".sam") as [->|_]; [reflexivity|].
  destruct (String.eqb_spec (lower ext1) ".bam") as [->|_]; reflexivity.
Qed.

(** An extension outside the table is not recognized. *)
Lemma guess_format_from_name_unmatched (name0 stem ext1 : string)
    (c : option string) (raise_on_failure : bool) :
  name0 <> "" ->
  splitext_compressed name0 = (stem, ext1, c) ->
  ~ In (lower ext1) table_extensions ->
  guess_format_from_name (PathStr name0) raise_on_failure =
  if raise_on_failure
  then Raise (UnknownFileType (ExtensionNotRecognized (lower ext1)))
  else Ok None.
Proof.
  intros Hn Hs Hout.
  rewrite (guess_format_from_name_split name0 stem ext1 c _ Hn Hs).
  assert (Hf : in_strs (lower ext1) fasta_extensions = false).
  { apply in_strs_not_In. intros Hin. apply Hout.
    apply in_or_app. now left. }
  assert (Hq : in_strs (lower ext1) fastq_extensions = false).
  { apply in_strs_not_In. intros Hin. apply Hout.
    apply in_or_app. right. apply in_or_app. now left. }
  assert (Ht : (lower ext1 =? ".txt")%string = false).
  { apply String.eqb_neq. intros E. apply Hout. rewrite E. simpl. tauto. }
  assert (Hsam : (lower ext1 =? ".sam")%string = false).
  { apply String.eqb_neq. intros E. apply Hout. rewrite E. simpl. tauto. }
  assert (Hbam : (lower ext1 =? ".bam")%string = false).
  { apply String.eqb_neq. intros E. apply Hout. rewrite E. simpl. tauto. }
  now rewrite Hf, Hq, Ht, Hsam, Hbam.
Qed.

(** C7, as amended.  [guess_format_from_name] strips a compression suffix
    ([.gz], [.bz2], [.xz]) from the name and maps the extension of what
    remains without regard to its case: [fasta], [fa], [fna], [csfasta],
    [csfa] give ['fasta']; [fastq], [fq] give ['fastq']; [txt] gives
    ['fastq'] when the stem ends in ['_sequence'], written exactly so, in
    lower case, and is otherwise not recognized; [sam] gives ['sam'] and
    [bam] gives ['bam'].  Any other extension, and a name without an
    extension, yields no format, or the unknown-file-type error carrying
    the extension in lower case when the caller asked for failures to
    raise.  This is stated for a name made of a stem, an extension and
    possibly a compression suffix, for a name without an extension, and,
    for every name that is not empty, on the stem and the extension that
    the name splits into. *)
Theorem guess_format_from_name_table
    (stem e comp : string) (raise_on_failure : bool) :
  has_base stem = true ->
  comp = "" \/ In comp compression_suffixes ->
  let guess :=
    guess_format_from_name (PathStr (stem ++ e ++ comp)) raise_on_failure in
  (In (lower e) fasta_extensions -> guess = Ok (Some "fasta"))
  /\ (In (lower e) fastq_extensions -> guess = Ok (Some "fastq"))
  /\ (lower e = ".txt" -> endswith stem "_sequence" = true ->
      guess = Ok (Some "fastq"))
  /\ (lower e = ".txt" -> endswith stem "_sequence" = false ->
      guess = if raise_on_failure
              then Raise (UnknownFileType (ExtensionNotRecognized ".txt"))
              else Ok None)
  /\ (lower e = ".sam" -> guess = Ok (Some "sam"))
  /\ (lower e = ".bam" -> guess = Ok (Some "bam"))
  /\ (rfind "." e = Some 0 -> rfind "/" e = None ->
      ~ In (lower e) table_extensions ->
      (comp = "" -> ~ In e compression_suffixes) ->
      guess =
      if raise_on_failure
      then Raise (UnknownFileType (ExtensionNotRecognized (lower e)))
      else Ok None)
  /\ (no_extension stem = true ->
      guess_format_from_name (PathStr (stem ++ comp)) raise_on_failure =
      if raise_on_failure
      then Raise (UnknownFileType (ExtensionNotRecognized ""))
      else Ok None)
  /\ (forall name0 stem0 ext1 c,
        name0 <> "" ->
        splitext_compressed name0 = (stem0, ext1, c) ->
        guess_format_from_name (PathStr name0) raise_on_failure =
        if in_strs (lower ext1) fasta_extensions then Ok (Some "fasta")
        else if in_strs (lower ext1) fastq_extensions
                || ((lower ext1 =? ".txt")%string && endswith stem0 "_sequence")
        then Ok (Some "fastq")
        else if (lower ext1 =? ".sam")%string then Ok (Some "sam")
        else if (lower ext1 =? ".bam")%string then Ok (Some "bam")
        else if raise_on_failure
        then Raise (UnknownFileType (ExtensionNotRecognized (lower ext1)))
        else Ok None).
Proof.
  intros Hb Hc guess.
  assert (Hstem : stem <> "") by (intros ->; discriminate Hb).
  assert (Hshape : In (lower e) table_extensions ->
            guess = match (let ext := lower e in
                           if in_strs ext fasta_extensions
                           then (Some "fasta", ext)
                           else if in_strs ext fastq_extensions
                                   || ((ext =? ".txt")%string
                                       && endswith stem "_sequence")
                           then (Some "fastq", ext)
                           else if in_strs ext [".sam"; ".bam"]
                           then (Some (slice ext (Some 1%Z) None), ext)
                           else (None, ext)) with
                    | (Some fmt, _) => Ok (Some fmt)
                    | (None, ext) =>
                        if raise_on_failure
                        then Raise (UnknownFileType (ExtensionNotRecognized ext))
                        else Ok None
                    end).
  { intros Hin. subst guess.
    destruct (table_extension_shape e Hin) as (_ & _ & Hne & _).
    rewrite guess_format_from_name_path
      by (apply append_not_nil; destruct e; [contradiction | discriminate]).
    unfold guess_from_extension.
    destruct (splitext_compressed_shape stem e comp Hb Hin Hc) as [c ->].
    reflexivity. }
  unfold table_extensions in Hshape.
  split; [|split; [|split; [|split; [|split; [|split; [|split; [|split]]]]]]].
  - intros Hin. rewrite Hshape by (apply in_or_app; now left).
    cbv zeta. apply in_strs_In in Hin. now rewrite Hin.
  - intros Hin.
    rewrite Hshape by (apply in_or_app; right; apply in_or_app; now left).
    cbv zeta. unfold fastq_extensions in Hin. simpl in Hin.
    destruct Hin as [<-|[<-|[]]]; reflexivity.
  - intros He Hs.
    rewrite Hshape by (rewrite He; simpl; tauto).
    rewrite He, Hs. reflexivity.
  - intros He Hs.
    rewrite Hshape by (rewrite He; simpl; tauto).
    rewrite He, Hs. reflexivity.
  - intros He. rewrite Hshape by (rewrite He; simpl; tauto).
    rewrite He. reflexivity.
  - intros He. rewrite Hshape by (rewrite He; simpl; tauto).
    rewrite He. reflexivity.
  - intros Hd Hs Hout Hnc. subst guess.
    assert (Hcase : In comp compression_suffixes
                    \/ (comp = "" /\ ~ In e compression_suffixes)).
    { destruct Hc as [->|Hc]; [right; split; auto | now left]. }
    destruct (splitext_compressed_dotted stem e comp Hb Hd Hs Hcase) as [c Hsp].
    apply (guess_format_from_name_unmatched _ stem e c); try assumption.
    intros E. destruct stem; [contradiction | discriminate E].
  - intros Hn.
    destruct (splitext_compressed_plain stem comp Hn Hc) as (n & c & Hsp).
    assert (Hne : (stem ++ comp)%string <> "").
    { intros E. destruct stem; [contradiction | discriminate E]. }
    rewrite (guess_format_from_name_unmatched _ n "" c _ Hne Hsp).
    + reflexivity.
    + simpl. intros H. repeat (destruct H as [H|H]; [discriminate H|]).
      contradiction.
  - intros name0 stem0 ext1 c Hn Hsp.
    apply (guess_format_from_name_split name0 stem0 ext1 c _ Hn Hsp).
Qed.

(** An upper-case [.TXT] after a stem ending in ['_sequence'], compressed,
    is FASTQ. *)
Lemma guess_format_from_name_table_applied :
  has_base "lane1_sequence" = true
  /\ (".gz" = "" \/ In ".gz" compression_suffixes)
  /\ lower ".TXT" = ".txt"
  /\ endswith "lane1_sequence" "_sequence" = true
  /\ guess_format_from_name (PathStr "lane1_sequence.TXT.gz") false =
     Ok (Some "fastq").
Proof.
  assert (Hc : ".gz" = "" \/ In ".gz" compression_suffixes)
    by (right; now left).
  split; [reflexivity|]. split; [exact Hc|].
  split; [reflexivity|]. split; [reflexivity|].
  destruct (guess_format_from_name_table "lane1_sequence" ".TXT" ".gz" false
              eq_refl Hc) as (_ & _ & Htxt & _).
  exact (Htxt eq_refl eq_refl).
Defined.

(** C7 as stated fails: the extension is matched without regard to case,
    the stem is not.  A [.TXT] file whose stem ends in ['_SEQUENCE'] is not
    recognized. *)
Lemma guess_format_upper_case_stem_fails :
  guess_format_from_name (PathStr "lane1_SEQUENCE.TXT") false = Ok None
  /\ guess_format_from_name (PathStr "lane1_SEQUENCE.TXT") true =
     Raise (UnknownFileType (ExtensionNotRecognized ".txt"))
  /\ guess_format_from_name (PathStr "lane1_SEQUENCE.TXT") false <>
     Ok (Some "fastq").
Proof. repeat split. discriminate. Qed.

(* ================================================================== *)
(** * The FASTA reader and formatter *)

Lemma join_empty (l : list string) : join "" l = concat_all l.
Proof.
  unfold join. induction l as [|x l IH]; [reflexivity|].
  destruct l as [|y l]; simpl in *.
  - now rewrite append_nil_r.
  - now rewrite IH.
Qed.

Lemma FastaFormat_format_entry_plain (fill : nat -> string -> string)
    (name0 sequence0 : string) :
  FastaFormat_format_entry fill None name0 sequence0 =
  (">" ++ name0 ++ nl ++ sequence0 ++ nl)%string.
Proof. reflexivity. Qed.

Section FastaFacts.
Variable truncate_string : string -> string.

Local Abbreviation loop :=
  (FastaReader_loop truncate_string (Sequence_class truncate_string) "").

(** One step of the loop on each kind of line. *)
Lemma loop_ignored (i : nat) (name0 : option string) (seq : list string)
    (raw : string) (rest : list string) :
  ignored_line raw = true ->
  loop i name0 seq (raw :: rest) = loop (i + 1) name0 seq rest.
Proof.
  unfold ignored_line. intros Hi. simpl.
  destruct (strip raw =? "")%string eqn:E; [reflexivity|].
  simpl in Hi.
  destruct (strip raw) as [|c s] eqn:Es; [discriminate|].
  simpl in Hi |- *. apply Ascii.eqb_eq in Hi. subst c. reflexivity.
Qed.

Lemma loop_residues (i : nat) (n : string) (seq : list string)
    (raw : string) (rest : list string) :
  sequence_line raw = true ->
  loop i (Some n) seq (raw :: rest) =
  loop (i + 1) (Some n) (seq ++ [strip raw]) rest.
Proof.
  unfold sequence_line. intros Hs. simpl.
  apply andb_prop in Hs as [Hs H3]. apply andb_prop in Hs as [H1 H2].
  apply negb_true_iff in H1, H2, H3. now rewrite H1, H2, H3.
Qed.

Lemma header_line_shape (raw : string) :
  header_line raw = true ->
  (strip raw =? "")%string = false
  /\ slice (strip raw) (Some 1%Z) None = str_tail (strip raw).
Proof.
  unfold header_line. intros Hh. split; [|apply slice_1].
  destruct (strip raw); [discriminate | reflexivity].
Qed.

Lemma loop_header_first (i : nat) (raw : string) (rest : list string) :
  header_line raw = true ->
  loop i None [] (raw :: rest) =
  loop (i + 1) (Some (str_tail (strip raw))) [] rest.
Proof.
  intros Hh. destruct (header_line_shape raw Hh) as [Hne Hsl].
  unfold header_line in Hh. simpl. now rewrite Hne, Hh, Hsl.
Qed.

Lemma loop_header_next (i : nat) (n : string) (seq : list string)
    (raw : string) (rest : list string) :
  header_line raw = true ->
  loop i (Some n) seq (raw :: rest) =
  yield (mkSequence n (concat_all seq) None "")
        (loop (i + 1) (Some (str_tail (strip raw))) [] rest).
Proof.
  intros Hh. destruct (header_line_shape raw Hh) as [Hne Hsl].
  unfold header_line in Hh. simpl. rewrite Hne, Hh, Hsl.
  unfold Sequence_class, Sequence_init. now rewrite join_empty.
Qed.

Lemma loop_end (i : nat) (n : string) (seq : list string) :
  loop i (Some n) seq [] = mkRun [mkSequence n (concat_all seq) None ""] None.
Proof.
  simpl. unfold Sequence_class, Sequence_init. now rewrite join_empty.
Qed.

(** Ignored lines before the first header are passed over. *)
Lemma loop_preamble (preamble rest : list string) (i : nat) :
  forallb ignored_line preamble = true ->
  loop i None [] (preamble ++ rest) = loop (i + length preamble) None [] rest.
Proof.
  revert i. induction preamble as [|raw pre IH]; intros i Hp.
  - simpl. now rewrite Nat.add_0_r.
  - simpl in Hp. apply andb_prop in Hp as [Hr Hp].
    change ((raw :: pre) ++ rest) with (raw :: pre ++ rest).
    rewrite loop_ignored by exact Hr. rewrite IH by exact Hp.
    simpl length. f_equal. lia.
Qed.

(** The body of a record adds its sequence lines to [seq]. *)
Lemma loop_body (body : list body_line) (rest : list string)
    (i : nat) (n : string) (seq : list string) :
  forallb body_ok body = true ->
  loop i (Some n) seq (map body_raw body ++ rest) =
  loop (i + length body) (Some n) (seq ++ residues_of body) rest.
Proof.
  revert i seq. induction body as [|b body IH]; intros i seq Hb.
  - simpl. now rewrite Nat.add_0_r, app_nil_r.
  - simpl in Hb. apply andb_prop in Hb as [Hb1 Hb].
    change (map body_raw (b :: body) ++ rest)
      with (body_raw b :: map body_raw body ++ rest).
    destruct b as [raw|raw]; simpl in Hb1; simpl body_raw.
    + rewrite loop_residues by exact Hb1. rewrite IH by exact Hb.
      simpl. rewrite <- app_assoc. simpl. f_equal. lia.
    + rewrite loop_ignored by exact Hb1. rewrite IH by exact Hb.
      simpl. f_equal. lia.
Qed.

Lemma loop_entries (entries : list fasta_entry) (i : nat) (n : string)
    (seq : list string) :
  forallb entry_ok entries = true ->
  loop i (Some n) seq (flat_map entry_lines entries) =
  mkRun (mkSequence n (concat_all seq) None "" :: map read_entry entries) None.
Proof.
  revert i n seq. induction entries as [|e es IH]; intros i n seq He.
  - apply loop_end.
  - simpl in He. apply andb_prop in He as [He1 He].
    unfold entry_ok in He1. apply andb_prop in He1 as [Hh Hb].
    simpl flat_map. unfold entry_lines at 1.
    change ((entry_header e :: map body_raw (entry_body e))
              ++ flat_map entry_lines es)
      with (entry_header e
              :: map body_raw (entry_body e) ++ flat_map entry_lines es).
    rewrite loop_header_next by exact Hh.
    rewrite loop_body by exact Hb.
    rewrite IH by exact He. reflexivity.
Qed.

(** The run of the reader on a well-formed file. *)
Lemma FastaReader_run (preamble : list string) (entries : list fasta_entry) :
  forallb ignored_line preamble = true ->
  forallb entry_ok entries = true ->
  FastaReader_iter truncate_string (Sequence_class truncate_string) ""
    (fasta_lines preamble entries) =
  mkRun (map read_entry entries) None.
Proof.
  intros Hp He. unfold FastaReader_iter, fasta_lines.
  rewrite loop_preamble by exact Hp.
  destruct entries as [|e es].
  - reflexivity.
  - simpl in He. apply andb_prop in He as [He1 He].
    unfold entry_ok in He1. apply andb_prop in He1 as [Hh Hb].
    simpl flat_map. unfold entry_lines at 1.
    change ((entry_header e :: map body_raw (entry_body e))
              ++ flat_map entry_lines es)
      with (entry_header e
              :: map body_raw (entry_body e) ++ flat_map entry_lines es).
    rewrite loop_header_first by exact Hh.
    rewrite loop_body by exact Hb.
    rewrite loop_entries by exact He. reflexivity.
Qed.

(** A sequence line before any header is refused, with its line number. *)
Lemma FastaReader_rejects (ignored : list string) (raw : string)
    (rest : list string) :
  forallb ignored_line ignored = true ->
  sequence_line raw = true ->
  FastaReader_iter truncate_string (Sequence_class truncate_string) ""
    (ignored ++ raw :: rest) =
  raise (FormatError
           (ExpectedHeader (length ignored + 1) (truncate_string (strip raw)))).
Proof.
  intros Hi Hs. unfold FastaReader_iter.
  rewrite loop_preamble by exact Hi.
  unfold sequence_line in Hs.
  apply andb_prop in Hs as [Hs H3]. apply andb_prop in Hs as [H1 H2].
  apply negb_true_iff in H1, H2, H3. simpl. now rewrite H1, H2, H3.
Qed.

End FastaFacts.

(** Every line has one of the three roles. *)
Lemma line_role (raw : string) :
  header_line raw = true \/ ignored_line raw = true
  \/ sequence_line raw = true.
Proof.
  unfold header_line, ignored_line, sequence_line.
  destruct (strip raw =? "")%string; [right; now left|].
  destruct (first_is ">" (strip raw)); [now left|].
  destruct (first_is "#" (strip raw)); right; [left | right]; reflexivity.
Qed.

(** Every list of lines is a run of body lines followed by records: the
    well-formed inputs are those in which the run before the first header
    holds no sequence line. *)
Lemma fasta_lines_decompose (lines : list string) :
  exists (body : list body_line) (entries : list fasta_entry),
    lines = map body_raw body ++ flat_map entry_lines entries
    /\ forallb body_ok body = true
    /\ forallb entry_ok entries = true.
Proof.
  induction lines as [|raw rest (body & entries & E & Hb & He)].
  - now exists [], [].
  - destruct (line_role raw) as [Hh|[Hi|Hs]].
    + exists [], (mkEntry raw body :: entries). subst rest.
      repeat split. simpl. unfold entry_ok. simpl. now rewrite Hh, Hb.
    + exists (Ignored raw :: body), entries. subst rest.
      repeat split; [|exact He]. simpl. now rewrite Hi.
    + exists (Residues raw :: body), entries. subst rest.
      repeat split; [|exact He]. simpl. now rewrite Hs.
Qed.

Lemma rstrip_nl (s : string) : rstrip (s ++ nl) = rstrip s.
Proof.
  induction s as [|c s IH]; [reflexivity|].
  change (String c s ++ nl)%string with (String c (s ++ nl)).
  simpl. now rewrite IH.
Qed.

(** A line without surrounding white space is what [strip] finds in it
    when a newline follows. *)
Lemma strip_clean_line (s : string) :
  lstrip s = s -> rstrip s = s -> strip (s ++ nl) = s.
Proof.
  intros Hl Hr. unfold strip.
  destruct s as [|c s]; [reflexivity|].
  pose proof (lstrip_head (String c s)) as Hh. rewrite Hl in Hh.
  change (String c s ++ nl)%string with (String c (s ++ nl)).
  simpl lstrip. rewrite Hh.
  change (String c (s ++ nl)) with (String c s ++ nl)%string.
  now rewrite rstrip_nl.
Qed.

(** A clean header line [">" ++ h] followed by a newline has header [h]. *)
Lemma header_of_clean (h : string) (body : list body_line) :
  rstrip h = h -> header_of (mkEntry (">" ++ h ++ nl) body) = h.
Proof.
  intros Hr. unfold header_of.
  assert (Hs : rstrip (String ">" h) = String ">" h).
  { simpl. rewrite Hr. destruct h; reflexivity. }
  pose proof (strip_clean_line (String ">" h) eq_refl Hs) as E.
  change (strip (entry_header (mkEntry (">" ++ h ++ nl) body)))
    with (strip (String ">" h ++ nl)).
  now rewrite E.
Qed.

(** C8.  For a well-formed FASTA input, that is ignored lines (blank lines
    and ['#'] comments) followed by records, each a ['>'] header line
    followed by sequence lines and ignored lines, reading with
    [FastaReader] ends without error, and rendering every record with
    [FastaFormat] without a line length gives, record by record, ['>'],
    the header, a newline, the concatenation of the sequence lines of the
    record, and a newline.  The sequence content is kept; the width at
    which it was wrapped in the input is not. *)
Theorem fasta_round_trip (truncate_string : string -> string)
    (textwrap_fill : nat -> string -> string)
    (preamble : list string) (entries : list fasta_entry) :
  forallb ignored_line preamble = true ->
  forallb entry_ok entries = true ->
  let r := FastaReader_iter truncate_string (Sequence_class truncate_string) ""
             (fasta_lines preamble entries) in
  ending r = None
  /\ length (yielded r) = length entries
  /\ map name (yielded r) = map header_of entries
  /\ map sequence (yielded r) =
     map (fun e => concat_all (residues_of (entry_body e))) entries
  /\ map (FastaFormat_format textwrap_fill (FastaFormat_init None)) (yielded r) =
     map (fun e => (">" ++ header_of e ++ nl
                    ++ concat_all (residues_of (entry_body e)) ++ nl)%string)
         entries
  /\ (forall h body, rstrip h = h ->
        header_of (mkEntry (">" ++ h ++ nl) body) = h)
  /\ (forall s, lstrip s = s -> rstrip s = s ->
        residues_of [Residues (s ++ nl)] = [s]).
Proof.
  intros Hp He r. subst r.
  rewrite (FastaReader_run truncate_string preamble entries Hp He).
  simpl yielded. simpl ending. rewrite !map_map, length_map.
  repeat split.
  - intros h body Hr. now apply header_of_clean.
  - intros s Hl Hr. simpl. now rewrite strip_clean_line.
Qed.

Lemma fasta_round_trip_sample :
  forallb ignored_line sample_preamble = true
  /\ forallb entry_ok sample_entries = true
  /\ map (FastaFormat_format (fun _ s => s) (FastaFormat_init None))
       (yielded (FastaReader_iter (fun s => s) (Sequence_class (fun s => s)) ""
                   (fasta_lines sample_preamble sample_entries))) =
     [(">seq1 first" ++ nl ++ "ACGTTTGA" ++ nl)%string;
      (">seq2" ++ nl ++ "GGCC" ++ nl)%string].
Proof.
  split; [reflexivity|]. split; [reflexivity|].
  destruct (fasta_round_trip (fun s => s) (fun _ s => s) sample_preamble
              sample_entries eq_refl eq_refl) as (_ & _ & _ & _ & Hf & _).
  exact Hf.
Defined.

(* ================================================================== *)
(** * Detection from the content *)

Lemma skip_comments_app (comments : list string) (line : string)
    (rest : list string) :
  forallb (fun l => startswith l "#") comments = true ->
  startswith line "#" = false ->
  skip_comments (comments ++ line :: rest) = Some (line, rest).
Proof.
  intros Hc Hl. induction comments as [|c cs IH]; simpl.
  - now rewrite Hl.
  - simpl in Hc. apply andb_prop in Hc as [Hc1 Hc]. rewrite Hc1. now apply IH.
Qed.

Lemma lstrip_append_nl (s : string) :
  lstrip (s ++ nl) =
  match lstrip s with
  | EmptyString => EmptyString
  | t => (t ++ nl)%string
  end.
Proof.
  induction s as [|c s IH]; [reflexivity|].
  change (String c s ++ nl)%string with (String c (s ++ nl)).
  simpl. destruct (isspace c); [exact IH | reflexivity].
Qed.

(** A newline put after a line does not change what [strip] finds. *)
Lemma strip_nl (s : string) : strip (s ++ nl) = strip s.
Proof.
  unfold strip. rewrite lstrip_append_nl.
  destruct (lstrip s) as [|c t]; [reflexivity|]. apply rstrip_nl.
Qed.

Lemma strip_prepended (line : string) :
  strip (if endswith line nl then line else (line ++ nl)%string) = strip line.
Proof. destruct (endswith line nl); [reflexivity | apply strip_nl]. Qed.

Lemma startswith_char (c : ascii) (s : string) :
  startswith s (String c "") = first_is c s.
Proof.
  destruct s as [|a s]; [reflexivity|].
  unfold startswith. cbn [prefix first_is].
  destruct (ascii_dec c a) as [<-|N].
  - rewrite Ascii.eqb_refl. now destruct s.
  - symmetry. apply Ascii.eqb_neq. congruence.
Qed.

Lemma first_is_strip (c : ascii) (line : string) :
  isspace c = false ->
  first_is c line = true -> first_is c (strip line) = true.
Proof.
  intros Hc Hs. destruct line as [|a line]; [discriminate|].
  simpl in Hs. apply Ascii.eqb_eq in Hs. subst a.
  unfold strip. simpl lstrip. rewrite Hc. simpl.
  destruct (rstrip line); [rewrite Hc|]; simpl; apply Ascii.eqb_refl.
Qed.

(** A call of [open_reader] with one file and without [interleaved] makes
    no call to itself: its result does not depend on what such a call would
    return.  This is the call that the constructors of the paired and the
    interleaved reader make. *)
Lemma open_reader_body_single (STDOUT : string) (sys_stdin : pyfile)
    (self1 self2 : pyfile -> bool -> option string -> result Reader)
    (file1 : pyfile) (colorspace : bool) (fileformat : option string)
    (single_input_read : option nat) :
  open_reader_body STDOUT sys_stdin self1 file1 None None colorspace fileformat
    false single_input_read =
  open_reader_body STDOUT sys_stdin self2 file1 None None colorspace fileformat
    false single_input_read.
Proof. reflexivity. Qed.

Section ContentFacts.
Variable truncate_string : string -> string.

(** Once a header has been read, the reader yields a first record with
    that header, whatever follows. *)
Lemma loop_after_header (lines : list string) (i : nat) (n : string)
    (seq : list string) :
  exists s more,
    yielded (FastaReader_loop truncate_string (Sequence_class truncate_string)
               "" i (Some n) seq lines) =
    mkSequence n s None "" :: more.
Proof.
  revert i n seq. induction lines as [|raw rest IH]; intros i n seq.
  - simpl. now exists (join "" seq), [].
  - simpl. destruct (strip raw =? "")%string; [apply IH|].
    destruct (first_is ">" (strip raw)).
    + simpl. eexists. eexists. reflexivity.
    + destruct (first_is "#" (strip raw)); apply IH.
Qed.

Lemma FastaReader_first_record (line : string) (rest : list string) :
  first_is ">" (strip line) = true ->
  exists s more,
    yielded (FastaReader_iter truncate_string (Sequence_class truncate_string)
               "" (line :: rest)) =
    mkSequence (str_tail (strip line)) s None "" :: more.
Proof.
  intros Hh. unfold FastaReader_iter. simpl.
  assert (Hne : (strip line =? "")%string = false)
    by (destruct (strip line); [discriminate | reflexivity]).
  rewrite Hne, Hh, slice_1. apply loop_after_header.
Qed.

End ContentFacts.

(** C3.  When [open_reader] is given an open stream whose name (if it has
    one) tells no format, and no explicit format, it reads lines, skips the
    leading lines that start with ['#'] and goes by the first other line: a
    line starting with ['>'] selects the FASTA reader and a line starting
    with ['@'] the FASTQ reader (the colorspace one of each when colorspace
    was asked for).  The reader is built on [FileWithPrependedLine] around
    the rest of the stream, so what it iterates starts with the line that
    was consumed, newline-terminated; for FASTA that line gives the header
    of the first record. *)
Theorem open_reader_detects_from_content
    (STDOUT : string) (sys_stdin : pyfile)
    (truncate_string : string -> string)
    (fname : option string) (comments : list string) (line : string)
    (rest : list string) (colorspace interleaved : bool)
    (single_input_read : option nat) :
  guess_format_from_name (FileObj fname (comments ++ line :: rest)) false
    = Ok None ->
  forallb (fun l => startswith l "#") comments = true ->
  startswith line "#" = false ->
  let wrapped := FileWithPrependedLine (FileObj fname rest) line in
  let opened :=
    open_reader STDOUT sys_stdin (FileObj fname (comments ++ line :: rest))
      None None colorspace None interleaved single_input_read in
  iter_file wrapped =
    (if endswith line nl then line else (line ++ nl)%string) :: rest
  /\ (startswith line ">" = true ->
      (exists reader,
         opened = Ok reader
         /\ innermost reader =
            (if colorspace then ColorspaceFastaReader wrapped
             else FastaReader wrapped))
      /\ exists s more,
           yielded (FastaReader_iter truncate_string
                      (Sequence_class truncate_string) "" (iter_file wrapped))
           = mkSequence (str_tail (strip line)) s None "" :: more)
  /\ (startswith line "@" = true ->
      exists reader,
        opened = Ok reader
        /\ innermost reader =
           (if colorspace then ColorspaceFastqReader wrapped
            else FastqReader wrapped)).
Proof.
  intros Hg Hc Hl wrapped opened.
  assert (Hfirst : first_data_line (FileObj fname (comments ++ line :: rest))
                   = Some (line, FileObj fname rest)).
  { simpl. now rewrite skip_comments_app. }
  split; [reflexivity|].
  split.
  - intros Hs. split.
    + subst opened. unfold open_reader, open_reader_body.
      cbn [is_none andb negb orb is_STDOUT].
      rewrite Hg. cbn [bind]. unfold detect_from_content.
      cbn [is_STDOUT]. rewrite Hfirst, Hs. fold wrapped.
      destruct colorspace, interleaved;
        try (eexists; split; reflexivity);
        destruct single_input_read as [[|[|[|k]]]|];
        eexists; split; reflexivity.
    + subst wrapped. unfold FileWithPrependedLine. simpl iter_file.
      pose proof (FastaReader_first_record truncate_string
                    (if endswith line nl then line else (line ++ nl)%string)
                    rest) as Hr.
      rewrite strip_prepended in Hr. apply Hr.
      apply first_is_strip; [reflexivity|].
      now rewrite <- startswith_char.
  - intros Hs.
    assert (Hn : startswith line ">" = false).
    { rewrite startswith_char in *.
      destruct line as [|a l]; [discriminate|].
      simpl in Hs. apply Ascii.eqb_eq in Hs. now subst a. }
    subst opened. unfold open_reader, open_reader_body.
    cbn [is_none andb negb orb is_STDOUT].
    rewrite Hg. cbn [bind]. unfold detect_from_content.
    cbn [is_STDOUT]. rewrite Hfirst, Hn, Hs. fold wrapped.
    destruct colorspace, interleaved;
      try (eexists; split; reflexivity);
      destruct single_input_read as [[|[|[|k]]]|];
      eexists; split; reflexivity.
Qed.

Lemma open_reader_detects_from_content_sample :
  guess_format_from_name
    (FileObj None (["# made by hand" ++ nl] ++ (">seq1 first" ++ nl)
                   :: ["ACGT" ++ nl]))%string false = Ok None
  /\ forallb (fun l => startswith l "#") ["# made by hand" ++ nl]%string = true
  /\ startswith (">seq1 first" ++ nl) "#" = false
  /\ startswith (">seq1 first" ++ nl) ">" = true
  /\ open_reader "-" (FileObj (Some "<stdin>") [])
       (FileObj None (["# made by hand" ++ nl] ++ (">seq1 first" ++ nl)
                      :: ["ACGT" ++ nl]))%string
       None None false None false None =
     Ok (FastaReader
           (Prepended (">seq1 first" ++ nl) (FileObj None ["ACGT" ++ nl]))%string)
  /\ yielded (FastaReader_iter (fun s => s) (Sequence_class (fun s => s)) ""
                (iter_file
                   (Prepended (">seq1 first" ++ nl)
                      (FileObj None ["ACGT" ++ nl]))%string)) =
     [mkSequence "seq1 first" "ACGT" None ""].
Proof.
  destruct (open_reader_detects_from_content "-" (FileObj (Some "<stdin>") [])
              (fun s => s) None ["# made by hand" ++ nl]%string
              (">seq1 first" ++ nl)%string ["ACGT" ++ nl]%string
              false false None eq_refl eq_refl eq_refl)
    as (_ & Hfa & _).
  destruct (Hfa eq_refl) as ((reader & Hopen & Hin) & _).
  repeat split.
Defined.

(* ================================================================== *)
(** * The output factory *)

(** What [get_format] does without an explicit format when the name of the
    path tells no format: the caller's statement about qualities decides,
    and without one the failure of the detection is raised. *)
Lemma get_format_undetected (path : pyfile) (colorspace : bool)
    (line_length : option nat) :
  guess_format_from_name path false = Ok None ->
  get_format path None colorspace (Some true) line_length =
    Ok (if colorspace then ColorspaceFastqFormat else FastqFormat)
  /\ get_format path None colorspace (Some false) line_length =
    Ok (if colorspace then ColorspaceFastaFormat (FastaFormat_init line_length)
        else FastaFormat (FastaFormat_init line_length))
  /\ exists e, guess_format_from_name path true = Raise e
       /\ get_format path None colorspace None line_length = Raise e.
Proof.
  intros Hg. unfold get_format. simpl is_none. rewrite Hg. cbn [bind].
  repeat split; try (destruct colorspace; reflexivity).
  unfold guess_format_from_name in *.
  destruct (match path_name path with
            | Some (String _ _ as name0) =>
                let '(fmt, ext) := guess_from_extension name0 in (fmt, Some ext)
            | _ => (None, None)
            end) as [[fmt|] ext]; [discriminate|].
  destruct ext; eexists; split; reflexivity.
Qed.

(** For a path with a name, a failed detection without a statement about
    qualities is the unknown-format error. *)
Lemma get_format_undetected_named (name0 : string) (colorspace : bool)
    (line_length : option nat) :
  name0 <> "" ->
  guess_format_from_name (PathStr name0) false = Ok None ->
  get_format (PathStr name0) None colorspace None line_length =
  Raise (UnknownFileType
           (ExtensionNotRecognized (snd (guess_from_extension name0)))).
Proof.
  intros Hn Hg. unfold get_format. simpl is_none.
  rewrite guess_format_from_name_path in * by exact Hn.
  destruct (guess_from_extension name0) as [[fmt|] ext];
    [discriminate | reflexivity].
Qed.

(** FASTQ, requested or detected, with the statement that there are no
    qualities is a configuration error. *)
Lemma get_format_fastq_without_qualities (path : pyfile) (colorspace : bool)
    (line_length : option nat) :
  get_format path (Some "fastq") colorspace (Some false) line_length =
    Raise (ValueError FastqWithoutQualities)
  /\ (guess_format_from_name path false = Ok (Some "fastq") ->
      get_format path None colorspace (Some false) line_length =
        Raise (ValueError FastqWithoutQualities)).
Proof.
  split; [reflexivity|]. intros Hg. unfold get_format. simpl is_none.
  now rewrite Hg.
Qed.

(** On a path without a name the call of [get_format] that must report the
    failed detection reads the unbound [ext], whatever the other
    arguments. *)
Lemma get_format_nameless (path : pyfile) (colorspace : bool)
    (line_length : option nat) :
  path_name path = None \/ path_name path = Some "" ->
  guess_format_from_name path false = Ok None
  /\ get_format path None colorspace None line_length =
     Raise (UnboundLocalError "ext").
Proof.
  unfold get_format, guess_format_from_name.
  intros [E|E]; rewrite E; split; reflexivity.
Qed.

(** C6.  [get_format] without an explicit format and without a statement
    about qualities must raise the unknown-format error when the format
    cannot be detected from the name.  On a path without a name (the empty
    string, or a file object that has no [name]) the detection fails, as the
    call that does not raise shows, but the call that raises leaves with
    [UnboundLocalError]: the message of the error it was about to raise
    reads [ext], which is bound only when there is a name. *)
Theorem get_format_nameless_path_unbound_ext :
  guess_format_from_name (PathStr "") false = Ok None
  /\ get_format (PathStr "") None false None None =
     Raise (UnboundLocalError "ext")
  /\ guess_format_from_name (FileObj None []) false = Ok None
  /\ get_format (FileObj None []) None false None None =
     Raise (UnboundLocalError "ext")
  /\ get_format (PathStr "out.xyz") None false None None =
     Raise (UnknownFileType (ExtensionNotRecognized ".xyz"))
  /\ get_format (PathStr "out.xyz") None false (Some true) None = Ok FastqFormat
  /\ get_format (PathStr "out.xyz") None false (Some false) None =
     Ok (FastaFormat None).
Proof. repeat split. Qed.

(* ================================================================== *)
(** * Further properties: the name comparison as a relation *)

Lemma same_up_to_mate_suffix_refl (t : string) :
  same_up_to_mate_suffix t t = true.
Proof.
  unfold same_up_to_mate_suffix.
  destruct (ends_in_1_or_2 t && ends_in_1_or_2 t); apply String.eqb_refl.
Qed.

Lemma same_up_to_mate_suffix_sym (t1 t2 : string) :
  same_up_to_mate_suffix t1 t2 = same_up_to_mate_suffix t2 t1.
Proof.
  unfold same_up_to_mate_suffix. rewrite andb_comm.
  destruct (ends_in_1_or_2 t2 && ends_in_1_or_2 t1); apply String.eqb_sym.
Qed.

Lemma same_up_to_mate_suffix_trans (a b c : string) :
  same_up_to_mate_suffix a b = true ->
  same_up_to_mate_suffix b c = true ->
  same_up_to_mate_suffix a c = true.
Proof.
  unfold same_up_to_mate_suffix.
  destruct (ends_in_1_or_2 a) eqn:Ea, (ends_in_1_or_2 b) eqn:Eb,
    (ends_in_1_or_2 c) eqn:Ec; simpl; intros H1 H2;
    apply String.eqb_eq in H1, H2; subst;
    try apply String.eqb_refl; try congruence.
  now rewrite H1, H2, String.eqb_refl.
Qed.

(** What [sequence_names_match] returns, by the first words of the names. *)
Lemma sequence_names_match_cases {R1 R2} `{Named R1} `{Named R2}
    (read1 : R1) (read2 : R2) :
  sequence_names_match read1 read2 =
  match first_word (read_name read1), first_word (read_name read2) with
  | Some t1, Some t2 => Ok (same_up_to_mate_suffix t1 t2)
  | _, _ => Raise IndexError
  end.
Proof.
  destruct (first_word (read_name read1)) as [t1|] eqn:E1.
  - destruct (first_word (read_name read2)) as [t2|] eqn:E2.
    + now apply sequence_names_match_words.
    + now apply sequence_names_match_no_word2.
  - now apply sequence_names_match_no_word1.
Qed.

(** X1.  [sequence_names_match] is symmetric, the [IndexError] of a name
    without a word included, and on records whose names have a word it is
    reflexive and transitive: matching names is an equivalence. *)
Theorem sequence_names_match_equivalence {R} `{Named R} (read1 read2 read3 : R) :
  sequence_names_match read1 read2 = sequence_names_match read2 read1
  /\ (first_word (read_name read1) <> None ->
      sequence_names_match read1 read1 = Ok true)
  /\ (sequence_names_match read1 read2 = Ok true ->
      sequence_names_match read2 read3 = Ok true ->
      sequence_names_match read1 read3 = Ok true).
Proof.
  rewrite !sequence_names_match_cases.
  destruct (first_word (read_name read1)) as [t1|],
    (first_word (read_name read2)) as [t2|],
    (first_word (read_name read3)) as [t3|];
    repeat split; try discriminate; try congruence;
    try (now rewrite same_up_to_mate_suffix_sym);
    try (intros _; now rewrite same_up_to_mate_suffix_refl).
  intros [= H1] [= H2]. f_equal.
  exact (same_up_to_mate_suffix_trans _ _ _ H1 H2).
Qed.

Lemma last_char_snoc (w : string) (c : ascii) :
  last_char (w ++ String c "") = Some c.
Proof. now rewrite last_char_append. Qed.

Lemma but_last_snoc (w : string) (c : ascii) :
  but_last (w ++ String c "") = w.
Proof.
  induction w as [|a w IH]; [reflexivity|].
  change (String a w ++ String c "")%string with (String a (w ++ String c "")).
  simpl. rewrite IH. destruct (w ++ String c "")%string eqn:E; [|reflexivity].
  destruct w; discriminate.
Qed.

Lemma no_space_snoc (w : string) (c : ascii) :
  no_space w = true -> isspace c = false ->
  is_word (w ++ String c "") = true.
Proof.
  intros Hw Hc. unfold is_word.
  assert (Hn : no_space (w ++ String c "") = true).
  { induction w as [|a w IH]; simpl in *; [now rewrite Hc|].
    apply andb_prop in Hw as [Ha Hw]. now rewrite Ha, IH. }
  rewrite Hn. destruct w; reflexivity.
Qed.

(** X2.  Two names without white space that differ only in their last
    character match exactly when both last characters are among ['1'] and
    ['2']: [x1] and [x2] match, and so do [x1] and [x1], but [x1] and [x3],
    or [xa] and [xb], do not. *)
Theorem sequence_names_match_last_character {R} `{Named R}
    (read1 read2 : R) (w : string) (c1 c2 : ascii) :
  no_space w = true -> isspace c1 = false -> isspace c2 = false ->
  read_name read1 = (w ++ String c1 "")%string ->
  read_name read2 = (w ++ String c2 "")%string ->
  sequence_names_match read1 read2 =
  Ok (Ascii.eqb c1 c2
      || ((Ascii.eqb c1 "1" || Ascii.eqb c1 "2")
          && (Ascii.eqb c2 "1" || Ascii.eqb c2 "2"))).
Proof.
  intros Hw H1 H2 N1 N2.
  rewrite (sequence_names_match_words read1 read2
             (w ++ String c1 "") (w ++ String c2 ""))
    by (rewrite ?N1, ?N2; apply first_word_of_word; now apply no_space_snoc).
  f_equal. unfold same_up_to_mate_suffix, ends_in_1_or_2.
  rewrite !last_char_snoc, !but_last_snoc, String.eqb_refl.
  destruct ((Ascii.eqb c1 "1" || Ascii.eqb c1 "2")
            && (Ascii.eqb c2 "1" || Ascii.eqb c2 "2"));
    [now rewrite orb_true_r|].
  rewrite orb_false_r.
  destruct (Ascii.eqb_spec c1 c2) as [->|N].
  - apply String.eqb_refl.
  - apply String.eqb_neq. intros E. apply N.
    apply (f_equal last_char) in E. rewrite !last_char_snoc in E. congruence.
Qed.

Lemma sequence_names_match_last_character_applied :
  (no_space "frag." = true /\ isspace "1" = false /\ isspace "2" = false
   /\ read_name (fasta_read "frag.1") = ("frag." ++ "1")%string
   /\ read_name (fasta_read "frag.2") = ("frag." ++ "2")%string)
  /\ sequence_names_match (fasta_read "frag.1") (fasta_read "frag.2") = Ok true.
Proof.
  split; [repeat split|].
  exact (sequence_names_match_last_character (fasta_read "frag.1")
           (fasta_read "frag.2") "frag." "1" "2"
           eq_refl eq_refl eq_refl eq_refl eq_refl).
Defined.

(* ================================================================== *)
(** * Further properties: the pairing readers *)

Section PairingMore.
Context {R : Type} `{Named R}.

Lemma paired_yields_prefix (l1 l2 : list R) :
  let r := PairedSequenceReader_iter (iter_of_list l1) (iter_of_list l2) in
  yielded r = firstn (length (yielded r)) (combine l1 l2)
  /\ all_names_match (yielded r).
Proof.
  revert l2. induction l1 as [|r1 l1 IH]; intros [|r2 l2];
    try (split; [reflexivity | constructor]).
  simpl. destruct (sequence_names_match r1 r2) as [[|]|e] eqn:E;
    try (split; [reflexivity | constructor]).
  destruct (IH l2) as [IHy IHm]. simpl. split.
  - f_equal. exact IHy.
  - constructor; [exact E | exact IHm].
Qed.

Lemma paired_normal_end (l1 l2 : list R) :
  ending (PairedSequenceReader_iter (iter_of_list l1) (iter_of_list l2)) = None ->
  yielded (PairedSequenceReader_iter (iter_of_list l1) (iter_of_list l2))
  = combine l1 l2.
Proof.
  revert l2. induction l1 as [|r1 l1 IH]; intros [|r2 l2];
    try discriminate; try reflexivity.
  simpl. destruct (sequence_names_match r1 r2) as [[|]|e];
    try discriminate.
  simpl. intros He. f_equal. now apply IH.
Qed.

(** The interleaved reader on two lists written alternately does what the
    two-file reader does on the lists. *)
Lemma interleaved_of_interleave (l1 l2 : list R) :
  length l1 = length l2 ->
  InterleavedSequenceReader_iter (iter_of_list (interleave l1 l2)) =
  mkRun
    (yielded (PairedSequenceReader_iter (iter_of_list l1) (iter_of_list l2)))
    (option_map as_interleaved
       (ending (PairedSequenceReader_iter (iter_of_list l1) (iter_of_list l2)))).
Proof.
  revert l2. induction l1 as [|r1 l1 IH]; intros [|r2 l2] Hl;
    try discriminate; try reflexivity.
  simpl. rewrite sequence_names_match_cases.
  destruct (first_word (read_name r1)) as [t1|]; [|reflexivity].
  destruct (first_word (read_name r2)) as [t2|]; [|reflexivity].
  destruct (same_up_to_mate_suffix t1 t2); [|reflexivity].
  simpl. rewrite IH by (simpl in Hl; lia). reflexivity.
Qed.

Lemma paired_first_fails (l1 l2 : list R) (e : exn) :
  all_names_match (combine l1 l2) -> length l1 <= length l2 ->
  PairedSequenceReader_iter (iter_then_fail l1 e) (iter_of_list l2) =
  mkRun (combine l1 l2) (Some e).
Proof.
  revert l2. induction l1 as [|r1 l1 IH]; intros [|r2 l2] Hm Hl;
    try reflexivity; [simpl in Hl; lia|].
  inversion Hm as [|? ? Hp Hps]; subst. simpl in *.
  rewrite Hp. rewrite IH by (assumption || lia). reflexivity.
Qed.

Lemma paired_second_fails (l1 l2 : list R) (e : exn) :
  all_names_match (combine l1 l2) -> length l2 <= length l1 ->
  PairedSequenceReader_iter (iter_of_list l1) (iter_then_fail l2 e) =
  mkRun (combine l1 l2) (Some e).
Proof.
  revert l2. induction l1 as [|r1 l1 IH]; intros [|r2 l2] Hm Hl;
    try reflexivity; [simpl in Hl; lia|].
  inversion Hm as [|? ? Hp Hps]; subst. simpl in *.
  rewrite Hp. rewrite IH by (assumption || lia). reflexivity.
Qed.

End PairingMore.

(** X3.  Whatever the names are, [PairedSequenceReader] yields the records
    of the two streams in step, without skipping or reordering, and only
    pairs that pass the name comparison; it ends normally only when the two
    streams have the same number of records and every pair was yielded. *)
Theorem paired_reader_lock_step {R} `{Named R} (l1 l2 : list R) :
  let r := PairedSequenceReader_iter (iter_of_list l1) (iter_of_list l2) in
  yielded r = firstn (length (yielded r)) (combine l1 l2)
  /\ all_names_match (yielded r)
  /\ length (yielded r) <= Nat.min (length l1) (length l2)
  /\ (ending r = None ->
      length l1 = length l2 /\ yielded r = combine l1 l2).
Proof.
  intros r. subst r.
  destruct (paired_yields_prefix l1 l2) as [Hp Hm].
  split; [exact Hp|]. split; [exact Hm|].
  split; [apply paired_yields_at_most|].
  intros He. split; [|now apply paired_normal_end].
  destruct (Nat.eq_dec (length l1) (length l2)) as [E|N]; [exact E|].
  now apply paired_unequal_never_normal in N.
Qed.

(** X4.  Reading two equally long lists of mates written alternately into
    one stream with [InterleavedSequenceReader] yields the pairs that
    [PairedSequenceReader] yields on the two lists, and ends the same way,
    a name mismatch being reported with the message of the interleaved
    reader. *)
Theorem interleaved_reader_matches_paired {R} `{Named R} (l1 l2 : list R) :
  length l1 = length l2 ->
  let paired :=
    PairedSequenceReader_iter (iter_of_list l1) (iter_of_list l2) in
  let interleaved :=
    InterleavedSequenceReader_iter (iter_of_list (interleave l1 l2)) in
  yielded interleaved = yielded paired
  /\ ending interleaved = option_map as_interleaved (ending paired)
  /\ (ending interleaved = None <-> ending paired = None).
Proof.
  intros Hl paired interleaved. subst paired interleaved.
  rewrite (interleaved_of_interleave l1 l2 Hl). simpl.
  repeat split;
    destruct (ending (PairedSequenceReader_iter (iter_of_list l1)
                        (iter_of_list l2))); simpl; congruence.
Qed.

Lemma interleaved_reader_matches_paired_applied :
  length [fasta_read "a/1"; fasta_read "b/1"]
  = length [fasta_read "a/2"; fasta_read "c/2"]
  /\ yielded (InterleavedSequenceReader_iter
                (iter_of_list (interleave [fasta_read "a/1"; fasta_read "b/1"]
                                 [fasta_read "a/2"; fasta_read "c/2"])))
     = [(fasta_read "a/1", fasta_read "a/2")]
  /\ ending (InterleavedSequenceReader_iter
               (iter_of_list (interleave [fasta_read "a/1"; fasta_read "b/1"]
                                [fasta_read "a/2"; fasta_read "c/2"])))
     = Some (FormatError (InterleavedNameMismatch "b/1" "c/2")).
Proof.
  destruct (interleaved_reader_matches_paired
              [fasta_read "a/1"; fasta_read "b/1"]
              [fasta_read "a/2"; fasta_read "c/2"] eq_refl) as (Hy & He & _).
  split; [reflexivity|]. split; [exact Hy | exact He].
Defined.

(** X5.  For two equally long lists of mates whose pairs pass the name
    comparison, reading their interleaving and keeping one mate gives the
    lists back: [paired_to_read1] yields the first list and
    [paired_to_read2] the second, both ending normally. *)
Theorem single_mate_projection {R} `{Named R} (l1 l2 : list R) :
  length l1 = length l2 ->
  all_names_match (combine l1 l2) ->
  paired_to_read1
    (InterleavedSequenceReader_iter (iter_of_list (interleave l1 l2)))
  = mkRun l1 None
  /\ paired_to_read2
       (InterleavedSequenceReader_iter (iter_of_list (interleave l1 l2)))
     = mkRun l2 None.
Proof.
  intros Hl Hm. rewrite (interleaved_of_interleave l1 l2 Hl).
  rewrite (paired_run l1 l2 Hm), Hl, Nat.compare_refl.
  unfold paired_to_read1, paired_to_read2. simpl.
  split; f_equal; clear Hm; revert l2 Hl;
    induction l1 as [|a l1 IH]; intros [|b l2] Hl;
    try discriminate; try reflexivity;
    simpl; f_equal; apply IH; simpl in Hl; lia.
Qed.

Lemma single_mate_projection_applied :
  length file_B = length [fasta_read "read1/1"; fasta_read "read2/1"]
  /\ all_names_match
       (combine [fasta_read "read1/1"; fasta_read "read2/1"] file_B)
  /\ paired_to_read2
       (InterleavedSequenceReader_iter
          (iter_of_list
             (interleave [fasta_read "read1/1"; fasta_read "read2/1"] file_B)))
     = mkRun file_B None.
Proof.
  assert (Hm : all_names_match
                 (combine [fasta_read "read1/1"; fasta_read "read2/1"] file_B))
    by (repeat constructor).
  split; [reflexivity|]. split; [exact Hm|].
  exact (proj2 (single_mate_projection
                  [fasta_read "read1/1"; fasta_read "read2/1"] file_B
                  eq_refl Hm)).
Defined.

(** X6.  An exception raised by one of the two underlying readers leaves
    [PairedSequenceReader] unchanged, after the pairs read before it: when
    reader 1 fails after as many records as reader 2 has, or fewer, and when
    reader 2 fails after as many records as reader 1 has, or fewer (also
    when the failure comes at the pull that checks that file 2 has
    ended). *)
Theorem paired_reader_propagates {R} `{Named R} (l1 l2 : list R) (e : exn) :
  all_names_match (combine l1 l2) ->
  (length l1 <= length l2 ->
   PairedSequenceReader_iter (iter_then_fail l1 e) (iter_of_list l2) =
   mkRun (combine l1 l2) (Some e))
  /\ (length l2 <= length l1 ->
      PairedSequenceReader_iter (iter_of_list l1) (iter_then_fail l2 e) =
      mkRun (combine l1 l2) (Some e)).
Proof.
  intros Hm. split; intros Hl;
    [now apply paired_first_fails | now apply paired_second_fails].
Qed.

Lemma paired_reader_propagates_applied :
  all_names_match (combine [fasta_read "a/1"] [fasta_read "a/2"])
  /\ PairedSequenceReader_iter (iter_of_list [fasta_read "a/1"])
       (iter_then_fail [fasta_read "a/2"]
          (FormatError (ExpectedHeader 3 "ACGT")))
     = mkRun [(fasta_read "a/1", fasta_read "a/2")]
         (Some (FormatError (ExpectedHeader 3 "ACGT"))).
Proof.
  assert (Hm : all_names_match (combine [fasta_read "a/1"] [fasta_read "a/2"]))
    by (repeat constructor).
  split; [exact Hm|].
  apply (proj2 (paired_reader_propagates [fasta_read "a/1"] [fasta_read "a/2"]
                  (FormatError (ExpectedHeader 3 "ACGT")) Hm)).
  simpl. lia.
Defined.

(* ================================================================== *)
(** * Further properties: the alignment readers *)

Section SAMMore.
Context {S : Type}.
Variable sequence_class : string -> string -> list nat -> result S.

Lemma read1_is_filtered (l : list AlignedSegment) :
  Read1SingleEndSAMReader_iter sequence_class (iter_of_list l) =
  SingleEndSAMReader_iter sequence_class (iter_of_list (filter is_read1 l)).
Proof.
  induction l as [|read l IH]; [reflexivity|].
  simpl. destruct (is_read1 read); simpl; now rewrite IH.
Qed.

Lemma read2_is_filtered (l : list AlignedSegment) :
  Read2SingleEndSAMReader_iter sequence_class (iter_of_list l) =
  SingleEndSAMReader_iter sequence_class (iter_of_list (filter is_read2 l)).
Proof.
  induction l as [|read l IH]; [reflexivity|].
  simpl. destruct (is_read2 read); simpl; now rewrite IH.
Qed.

(** The single-end reader on records that all convert. *)
Lemma single_end_run (l : list AlignedSegment) (converted : list S) :
  map (_as_sequence sequence_class) l = map Ok converted ->
  SingleEndSAMReader_iter sequence_class (iter_of_list l) = mkRun converted None.
Proof.
  revert converted. induction l as [|read l IH]; intros [|s ss] E;
    try discriminate; [reflexivity|].
  simpl in E. injection E as E1 E2. simpl. rewrite E1. simpl.
  now rewrite (IH ss E2).
Qed.

(** The single-end reader stops at the first record that does not
    convert. *)
Lemma single_end_stops (l more : list AlignedSegment) (bad : AlignedSegment)
    (converted : list S) (e : exn) :
  map (_as_sequence sequence_class) l = map Ok converted ->
  _as_sequence sequence_class bad = Raise e ->
  SingleEndSAMReader_iter sequence_class (iter_of_list (l ++ bad :: more)) =
  mkRun converted (Some e).
Proof.
  revert converted. induction l as [|read l IH]; intros [|s ss] E Hb;
    try discriminate.
  - simpl. now rewrite Hb.
  - simpl in E. injection E as E1 E2. simpl. rewrite E1. simpl.
    now rewrite (IH ss E2 Hb).
Qed.

End SAMMore.

(** X7.  [Read1SingleEndSAMReader] is [SingleEndSAMReader] on the records
    that are first of pair, and [Read2SingleEndSAMReader] on those that are
    second of pair: the others are passed over without being converted, so
    a record of the other mate that cannot be converted raises nothing. *)
Theorem single_mate_sam_readers {S}
    (sequence_class : string -> string -> list nat -> result S)
    (l : list AlignedSegment) :
  Read1SingleEndSAMReader_iter sequence_class (iter_of_list l) =
  SingleEndSAMReader_iter sequence_class (iter_of_list (filter is_read1 l))
  /\ Read2SingleEndSAMReader_iter sequence_class (iter_of_list l) =
     SingleEndSAMReader_iter sequence_class (iter_of_list (filter is_read2 l))
  /\ (forall converted,
        map (_as_sequence sequence_class) (filter is_read1 l) = map Ok converted ->
        Read1SingleEndSAMReader_iter sequence_class (iter_of_list l) =
        mkRun converted None).
Proof.
  split; [apply read1_is_filtered|]. split; [apply read2_is_filtered|].
  intros converted E. rewrite read1_is_filtered. now apply single_end_run.
Qed.

(** X8.  [SingleEndSAMReader] yields the conversions of the records in
    order and stops at the first record that [_as_sequence] cannot convert,
    with the exception of the conversion: a record without base qualities
    raises [TypeError], whatever the sequence class. *)
Theorem single_end_sam_reader_stops {S}
    (sequence_class : string -> string -> list nat -> result S)
    (l more : list AlignedSegment) (bad : AlignedSegment) (converted : list S) :
  map (_as_sequence sequence_class) l = map Ok converted ->
  query_qualities bad = None ->
  SingleEndSAMReader_iter sequence_class (iter_of_list (l ++ bad :: more)) =
  mkRun converted (Some TypeError).
Proof.
  intros E Hb. apply single_end_stops; [exact E|].
  unfold _as_sequence. now rewrite Hb.
Qed.

Lemma single_end_sam_reader_stops_applied :
  map (_as_sequence sam_Sequence) [sam_record "frag" true false] =
  map Ok [mkSequence "frag" "ACGT" (Some "????") ""]
  /\ query_qualities (mkAlignedSegment "next" "AC" None false true) = None
  /\ SingleEndSAMReader_iter sam_Sequence
       (iter_of_list ([sam_record "frag" true false]
                      ++ mkAlignedSegment "next" "AC" None false true
                      :: [sam_record "last" true false])) =
     mkRun [mkSequence "frag" "ACGT" (Some "????") ""] (Some TypeError).
Proof.
  split; [reflexivity|]. split; [reflexivity|].
  exact (single_end_sam_reader_stops sam_Sequence [sam_record "frag" true false]
           [sam_record "last" true false]
           (mkAlignedSegment "next" "AC" None false true)
           [mkSequence "frag" "ACGT" (Some "????") ""] eq_refl eq_refl).
Defined.

Section SAMPairs.
Context {S : Type}.
Variable sequence_class : string -> string -> list nat -> result S.

Lemma paired_end_is_zip_of_mates (l : list AlignedSegment) :
  Forall name_matched (consecutive_pairs l) ->
  forallb strictly_flagged (consecutive_pairs l) = true ->
  Forall (convertible sequence_class) (consecutive_pairs l) ->
  Nat.even (length l) = true ->
  let first := Read1SingleEndSAMReader_iter sequence_class (iter_of_list l) in
  let second := Read2SingleEndSAMReader_iter sequence_class (iter_of_list l) in
  ending first = None /\ ending second = None
  /\ length (yielded first) = length (yielded second)
  /\ PairedEndSAMReader_iter sequence_class (iter_of_list l) =
     mkRun (combine (yielded first) (yielded second)) None.
Proof.
  induction l as [| a | a b l IH] using list_pair_ind;
    intros Hn Hf Hc He; [repeat split | discriminate He |].
  inversion Hn as [|? ? Hn1 Hn2]; inversion Hc as [|? ? Hc1 Hc2]; subst.
  simpl in Hf. apply andb_prop in Hf as [Hf1 Hf2].
  destruct (IH Hn2 Hf2 Hc2 He) as (I1 & I2 & I3 & I4).
  destruct Hc1 as [[sa Ha] [sb Hb]]. simpl in Ha, Hb.
  unfold name_matched in Hn1. simpl in Hn1.
  unfold strictly_flagged in Hf1. simpl in Hf1.
  cbv zeta in *.
  change (iter_of_list (a :: b :: l)) with (Item a (Item b (iter_of_list l))).
  cbn [PairedEndSAMReader_iter Read1SingleEndSAMReader_iter
         Read2SingleEndSAMReader_iter].
  unfold PairedEndSAMReader_body. cbn [fst snd].
  rewrite Hn1, String.eqb_refl. cbn [negb].
  destruct (is_read1 a), (is_read2 a), (is_read1 b), (is_read2 b);
    try discriminate Hf1;
    cbn [bind fst snd]; rewrite Ha, Hb; cbn [bind emit yield yielded ending];
    rewrite I4; cbn [yielded ending combine length];
    repeat split; try assumption; now rewrite I3.
Qed.

End SAMPairs.

(** X9.  On a stream of alignment records made of mate pairs (consecutive
    records with one name, one flagged first and the other second of pair,
    in either order, all convertible), [PairedEndSAMReader] yields exactly
    the records of [Read1SingleEndSAMReader] paired in order with those of
    [Read2SingleEndSAMReader]: whatever the order on the stream, the first
    of pair comes first. *)
Theorem paired_end_sam_zips_single_mate_readers {S}
    (sequence_class : string -> string -> list nat -> result S)
    (l : list AlignedSegment) :
  Nat.even (length l) = true ->
  Forall name_matched (consecutive_pairs l) ->
  forallb strictly_flagged (consecutive_pairs l) = true ->
  Forall (convertible sequence_class) (consecutive_pairs l) ->
  PairedEndSAMReader_iter sequence_class (iter_of_list l) =
  mkRun
    (combine
       (yielded (Read1SingleEndSAMReader_iter sequence_class (iter_of_list l)))
       (yielded (Read2SingleEndSAMReader_iter sequence_class (iter_of_list l))))
    None.
Proof.
  intros He Hn Hf Hc.
  exact (proj2 (proj2 (proj2 (paired_end_is_zip_of_mates sequence_class l
                                Hn Hf Hc He)))).
Qed.

Lemma paired_end_sam_zips_single_mate_readers_applied :
  Nat.even (length [sam_record "frag" false true; sam_record "frag" true false])
  = true
  /\ Forall name_matched
       (consecutive_pairs [sam_record "frag" false true;
                           sam_record "frag" true false])
  /\ forallb strictly_flagged
       (consecutive_pairs [sam_record "frag" false true;
                           sam_record "frag" true false]) = true
  /\ Forall (convertible sam_Sequence)
       (consecutive_pairs [sam_record "frag" false true;
                           sam_record "frag" true false])
  /\ PairedEndSAMReader_iter sam_Sequence
       (iter_of_list [sam_record "frag" false true;
                      sam_record "frag" true false]) =
     mkRun [(mkSequence "frag" "ACGT" (Some "????") "",
             mkSequence "frag" "ACGT" (Some "????") "")] None.
Proof.
  assert (Hn : Forall name_matched
                 (consecutive_pairs [sam_record "frag" false true;
                                     sam_record "frag" true false]))
    by (repeat constructor).
  assert (Hc : Forall (convertible sam_Sequence)
                 (consecutive_pairs [sam_record "frag" false true;
                                     sam_record "frag" true false])).
  { constructor; [|constructor]. split; eexists; reflexivity. }
  split; [reflexivity|]. split; [exact Hn|]. split; [reflexivity|].
  split; [exact Hc|].
  exact (paired_end_sam_zips_single_mate_readers sam_Sequence
           [sam_record "frag" false true; sam_record "frag" true false]
           eq_refl Hn eq_refl Hc).
Defined.

(* ================================================================== *)
(** * Further properties: the FASTA reader *)

Lemma ignored_not_header (raw : string) :
  ignored_line raw = true -> header_line raw = false.
Proof.
  unfold ignored_line, header_line.
  destruct (strip raw) as [|c s]; [reflexivity|]. simpl.
  intros Hc. apply Ascii.eqb_eq in Hc. now subst c.
Qed.

Lemma sequence_not_header (raw : string) :
  sequence_line raw = true -> header_line raw = false.
Proof.
  unfold sequence_line, header_line. intros Hs.
  apply andb_prop in Hs as [Hs _]. apply andb_prop in Hs as [_ Hs].
  now apply negb_true_iff in Hs.
Qed.

Lemma body_has_no_header (body : list body_line) :
  forallb body_ok body = true ->
  filter header_line (map body_raw body) = [].
Proof.
  induction body as [|b body IH]; [reflexivity|]. simpl.
  intros Hb. apply andb_prop in Hb as [Hb1 Hb].
  destruct b as [raw|raw]; simpl in *;
    [rewrite sequence_not_header | rewrite ignored_not_header];
    auto.
Qed.

Lemma headers_of_entries (entries : list fasta_entry) :
  forallb entry_ok entries = true ->
  length (filter header_line (flat_map entry_lines entries)) = length entries.
Proof.
  induction entries as [|e es IH]; [reflexivity|]. simpl.
  intros He. apply andb_prop in He as [He1 He].
  unfold entry_ok in He1. apply andb_prop in He1 as [Hh Hb].
  rewrite Hh, filter_app, body_has_no_header by exact Hb.
  simpl. now rewrite IH.
Qed.

Lemma only_ignored_lines (body : list body_line) :
  forallb body_ok body = true -> only_ignored body = true ->
  forallb ignored_line (map body_raw body) = true.
Proof.
  induction body as [|[raw|raw] body IH]; simpl; try discriminate; auto.
  intros Hb Ho. apply andb_prop in Hb as [Hb1 Hb]. now rewrite Hb1, IH.
Qed.

Lemma first_sequence_line (body : list body_line) :
  forallb body_ok body = true -> only_ignored body = false ->
  exists ignored raw more,
    map body_raw body = ignored ++ raw :: more
    /\ forallb ignored_line ignored = true
    /\ sequence_line raw = true.
Proof.
  induction body as [|[raw|raw] body IH]; simpl; try discriminate.
  - intros Hb _. apply andb_prop in Hb as [Hb1 _].
    now exists [], raw, (map body_raw body).
  - intros Hb Ho. apply andb_prop in Hb as [Hb1 Hb].
    destruct (IH Hb Ho) as (ign & r & more & E & Hi & Hs).
    exists (raw :: ign), r, more. rewrite E. simpl. now rewrite Hb1.
Qed.

(** X10.  On any input, [FastaReader] with the class [Sequence] either
    ends normally, having yielded one record for each header line, or
    raises a single kind of error, before it has yielded anything: the
    first line that is neither blank nor a comment is not a header, and the
    [FormatError] carries its number, counted from 1, and its text.  Once a
    header has been read, nothing in the rest of the input makes the reader
    fail. *)
Theorem fasta_reader_outcomes (truncate_string : string -> string)
    (lines : list string) :
  let r := FastaReader_iter truncate_string (Sequence_class truncate_string) ""
             lines in
  (ending r = None
   /\ length (yielded r) = length (filter header_line lines))
  \/ (exists ignored raw rest,
        lines = ignored ++ raw :: rest
        /\ forallb ignored_line ignored = true
        /\ sequence_line raw = true
        /\ yielded r = []
        /\ ending r = Some (FormatError
                              (ExpectedHeader (length ignored + 1)
                                 (truncate_string (strip raw))))).
Proof.
  intros r. subst r.
  destruct (fasta_lines_decompose lines) as (body & entries & E & Hb & He).
  destruct (only_ignored body) eqn:Ho.
  - left. pose proof (only_ignored_lines body Hb Ho) as Hp.
    rewrite E.
    change (map body_raw body ++ flat_map entry_lines entries)
      with (fasta_lines (map body_raw body) entries).
    rewrite (FastaReader_run truncate_string _ entries Hp He).
    cbn [yielded ending]. split; [reflexivity|].
    unfold fasta_lines.
    rewrite length_map, filter_app, length_app.
    rewrite body_has_no_header by exact Hb.
    rewrite headers_of_entries by exact He. reflexivity.
  - right. destruct (first_sequence_line body Hb Ho)
      as (ign & raw & more & Eb & Hi & Hs).
    exists ign, raw, (more ++ flat_map entry_lines entries).
    rewrite E, Eb, <- app_assoc. simpl.
    rewrite (FastaReader_rejects truncate_string ign raw _ Hi Hs).
    repeat split; assumption.
Qed.

Section FastaGeneric.
Variable truncate_string : string -> string.
Context {S : Type}.
Variable sequence_class : string -> string -> option string -> result S.
Variable delimiter : string.

Local Abbreviation gloop :=
  (FastaReader_loop truncate_string sequence_class delimiter).

Local Abbreviation entry_call := (entry_call sequence_class delimiter).

Lemma gloop_ignored (i : nat) (name0 : option string) (seq : list string)
    (raw : string) (rest : list string) :
  ignored_line raw = true ->
  gloop i name0 seq (raw :: rest) = gloop (i + 1) name0 seq rest.
Proof.
  unfold ignored_line. intros Hi. simpl.
  destruct (strip raw =? "")%string eqn:E; [reflexivity|].
  simpl in Hi.
  destruct (strip raw) as [|c s] eqn:Es; [discriminate|].
  simpl in Hi |- *. apply Ascii.eqb_eq in Hi. subst c. reflexivity.
Qed.

Lemma gloop_residues (i : nat) (n : string) (seq : list string)
    (raw : string) (rest : list string) :
  sequence_line raw = true ->
  gloop i (Some n) seq (raw :: rest) =
  gloop (i + 1) (Some n) (seq ++ [strip raw]) rest.
Proof.
  unfold sequence_line. intros Hs. simpl.
  apply andb_prop in Hs as [Hs H3]. apply andb_prop in Hs as [H1 H2].
  apply negb_true_iff in H1, H2, H3. now rewrite H1, H2, H3.
Qed.

Lemma gloop_preamble (preamble rest : list string) (i : nat) :
  forallb ignored_line preamble = true ->
  gloop i None [] (preamble ++ rest) = gloop (i + length preamble) None [] rest.
Proof.
  revert i. induction preamble as [|raw pre IH]; intros i Hp.
  - simpl. now rewrite Nat.add_0_r.
  - simpl in Hp. apply andb_prop in Hp as [Hr Hp].
    change ((raw :: pre) ++ rest) with (raw :: pre ++ rest).
    rewrite gloop_ignored by exact Hr. rewrite IH by exact Hp.
    simpl length. f_equal. lia.
Qed.

Lemma gloop_body (body : list body_line) (rest : list string)
    (i : nat) (n : string) (seq : list string) :
  forallb body_ok body = true ->
  gloop i (Some n) seq (map body_raw body ++ rest) =
  gloop (i + length body) (Some n) (seq ++ residues_of body) rest.
Proof.
  revert i seq. induction body as [|b body IH]; intros i seq Hb.
  - simpl. now rewrite Nat.add_0_r, app_nil_r.
  - simpl in Hb. apply andb_prop in Hb as [Hb1 Hb].
    change (map body_raw (b :: body) ++ rest)
      with (body_raw b :: map body_raw body ++ rest).
    destruct b as [raw|raw]; simpl in Hb1; simpl body_raw.
    + rewrite gloop_residues by exact Hb1. rewrite IH by exact Hb.
      simpl. rewrite <- app_assoc. simpl. f_equal. lia.
    + rewrite gloop_ignored by exact Hb1. rewrite IH by exact Hb.
      simpl. f_equal. lia.
Qed.

Lemma gloop_entries (entries : list fasta_entry) (i : nat) (n : string)
    (seq : list string) :
  forallb entry_ok entries = true ->
  gloop i (Some n) seq (flat_map entry_lines entries) =
  emit (sequence_class n (join delimiter seq) None)
       (emit_each (map entry_call entries)).
Proof.
  revert i n seq. induction entries as [|e es IH]; intros i n seq He.
  - reflexivity.
  - simpl in He. apply andb_prop in He as [He1 He].
    unfold entry_ok in He1. apply andb_prop in He1 as [Hh Hb].
    destruct (header_line_shape _ Hh) as [Hne Hsl]. unfold header_line in Hh.
    simpl flat_map. unfold entry_lines at 1.
    change ((entry_header e :: map body_raw (entry_body e))
              ++ flat_map entry_lines es)
      with (entry_header e
              :: map body_raw (entry_body e) ++ flat_map entry_lines es).
    cbn [FastaReader_loop]. rewrite Hne, Hh, Hsl. f_equal.
    rewrite gloop_body by exact Hb. rewrite IH by exact He. reflexivity.
Qed.

(** The run of a FASTA reader, whatever its class and delimiter, on a
    well-formed file. *)
Lemma FastaReader_calls (preamble : list string) (entries : list fasta_entry) :
  forallb ignored_line preamble = true ->
  forallb entry_ok entries = true ->
  FastaReader_iter truncate_string sequence_class delimiter
    (fasta_lines preamble entries) =
  emit_each (map entry_call entries).
Proof.
  intros Hp He. unfold FastaReader_iter, fasta_lines.
  rewrite gloop_preamble by exact Hp.
  destruct entries as [|e es]; [reflexivity|].
  simpl in He. apply andb_prop in He as [He1 He].
  unfold entry_ok in He1. apply andb_prop in He1 as [Hh Hb].
  destruct (header_line_shape _ Hh) as [Hne Hsl]. unfold header_line in Hh.
  simpl flat_map. unfold entry_lines at 1.
  change ((entry_header e :: map body_raw (entry_body e))
            ++ flat_map entry_lines es)
    with (entry_header e
            :: map body_raw (entry_body e) ++ flat_map entry_lines es).
  cbn [FastaReader_loop]. rewrite Hne, Hh, Hsl.
  rewrite gloop_body by exact Hb. rewrite gloop_entries by exact He.
  reflexivity.
Qed.

End FastaGeneric.

Lemma emit_each_all {A} (values : list A) :
  emit_each (map Ok values) = mkRun values None.
Proof.
  unfold emit_each. induction values as [|v vs IH]; [reflexivity|].
  simpl. now rewrite IH.
Qed.

Lemma emit_each_stops {A} (values : list A) (e : exn) (more : list (result A)) :
  emit_each (map Ok values ++ Raise e :: more) = mkRun values (Some e).
Proof.
  unfold emit_each. induction values as [|v vs IH]; [reflexivity|].
  simpl. now rewrite IH.
Qed.

(** X11.  On a well-formed FASTA file a [FastaReader], whatever its
    sequence class and with or without [keep_linebreaks], calls the class
    once for each record, in order, with the header and the sequence lines
    of the record joined by the delimiter (the empty string, or a newline
    to keep the line breaks), and yields what the calls return.  It is left
    by the first call that raises, with that exception, after the records
    before it; the records after it are not delivered. *)
Theorem fasta_reader_per_record (truncate_string : string -> string) {S}
    (sequence_class : string -> string -> option string -> result S)
    (delimiter : string)
    (preamble : list string) (entries : list fasta_entry) :
  forallb ignored_line preamble = true ->
  forallb entry_ok entries = true ->
  let r := FastaReader_iter truncate_string sequence_class delimiter
             (fasta_lines preamble entries) in
  r = emit_each
        (map (fun e => sequence_class (header_of e)
                         (join delimiter (residues_of (entry_body e))) None)
             entries)
  /\ (forall values,
        map (entry_call sequence_class delimiter) entries = map Ok values ->
        r = mkRun values None)
  /\ (forall good bad rest values e,
        entries = good ++ bad :: rest ->
        map (entry_call sequence_class delimiter) good = map Ok values ->
        entry_call sequence_class delimiter bad = Raise e ->
        r = mkRun values (Some e)).
Proof.
  intros Hp He r. subst r.
  rewrite (FastaReader_calls truncate_string sequence_class delimiter
             preamble entries Hp He).
  split; [reflexivity|]. split.
  - intros values E. rewrite E. apply emit_each_all.
  - intros good bad rest values e -> Eg Eb.
    rewrite map_app, Eg. simpl. rewrite Eb. apply emit_each_stops.
Qed.

(** With [keep_linebreaks], as the QUAL file is read, the lines of the
    sample record stay apart. *)
Lemma fasta_reader_per_record_applied :
  forallb ignored_line sample_preamble = true
  /\ forallb entry_ok sample_entries = true
  /\ FastaReader_iter (fun s => s) (Sequence_class (fun s => s)) nl
       (fasta_lines sample_preamble sample_entries) =
     mkRun [mkSequence "seq1 first" ("ACGT" ++ nl ++ "TTGA") None "";
            mkSequence "seq2" "GGCC" None ""] None.
Proof.
  split; [reflexivity|]. split; [reflexivity|].
  exact (proj1 (proj2 (fasta_reader_per_record (fun s => s)
                         (Sequence_class (fun s => s)) nl sample_preamble
                         sample_entries eq_refl eq_refl))
           [mkSequence "seq1 first" ("ACGT" ++ nl ++ "TTGA") None "";
            mkSequence "seq2" "GGCC" None ""] eq_refl).
Defined.

Lemma colorspace_entry_call (truncate_string : string -> string)
    (e : fasta_entry) :
  entry_call (ColorspaceSequence_class truncate_string) "" e =
  if is_ACGT (str_head (entry_sequence e)) then Ok (colorspace_entry e)
  else Raise (FormatError
                (PrimerNotACGT (str_head (entry_sequence e))
                   (truncate_string (header_of e)))).
Proof.
  unfold entry_call, ColorspaceSequence_class.
  rewrite join_empty, ColorspaceSequence_init_split,
    ColorspaceSequence_init_cases.
  reflexivity.
Qed.

Lemma colorspace_entry_calls (truncate_string : string -> string)
    (entries : list fasta_entry) :
  forallb (fun e => is_ACGT (str_head (entry_sequence e))) entries = true ->
  map (entry_call (ColorspaceSequence_class truncate_string) "") entries =
  map Ok (map colorspace_entry entries).
Proof.
  induction entries as [|e es IH]; [reflexivity|]. simpl.
  intros Hp. apply andb_prop in Hp as [Hp1 Hp].
  now rewrite colorspace_entry_call, Hp1, IH.
Qed.

Lemma colorspace_format_entry (textwrap_fill : nat -> string -> string)
    (e : fasta_entry) :
  ColorspaceFastaFormat_format textwrap_fill None (colorspace_entry e) =
  (">" ++ header_of e ++ nl ++ entry_sequence e ++ nl)%string.
Proof.
  unfold ColorspaceFastaFormat_format. rewrite FastaFormat_format_entry_plain.
  simpl. now rewrite <- str_head_tail.
Qed.

(** X12.  On a well-formed colorspace FASTA file the colorspace FASTA
    reader yields, for the records before the first whose sequence does not
    begin with one of ['A'], ['C'], ['G'], ['T'], the colorspace records
    with that first character as primer and the rest as sequence; at that
    record it raises the [FormatError] for the primer, which carries the
    offending character and the (truncated) header.  A record without any
    sequence line has the empty primer and is refused in the same way.
    When every record begins with a primer base the reader ends normally,
    and rendering what it yields with [ColorspaceFastaFormat] without a
    line length gives back, record by record, ['>'], the header, and the
    whole sequence: the primer that the reader splits off is put back by
    the formatter. *)
Theorem colorspace_fasta_reader_round_trip (truncate_string : string -> string)
    (textwrap_fill : nat -> string -> string)
    (preamble : list string) (entries : list fasta_entry) :
  forallb ignored_line preamble = true ->
  forallb entry_ok entries = true ->
  let r := FastaReader_iter truncate_string
             (ColorspaceSequence_class truncate_string) ""
             (fasta_lines preamble entries) in
  (forall good bad rest,
     entries = good ++ bad :: rest ->
     forallb (fun e => is_ACGT (str_head (entry_sequence e))) good = true ->
     is_ACGT (str_head (entry_sequence bad)) = false ->
     r = mkRun (map colorspace_entry good)
           (Some (FormatError
                    (PrimerNotACGT (str_head (entry_sequence bad))
                       (truncate_string (header_of bad))))))
  /\ (forallb (fun e => is_ACGT (str_head (entry_sequence e))) entries = true ->
      ending r = None
      /\ map primer (yielded r) =
         map (fun e => str_head (entry_sequence e)) entries
      /\ map (ColorspaceFastaFormat_format textwrap_fill (FastaFormat_init None))
           (yielded r) =
         map (fun e =>
                (">" ++ header_of e ++ nl ++ entry_sequence e ++ nl)%string)
             entries).
Proof.
  intros Hp He r. subst r.
  rewrite (FastaReader_calls truncate_string _ "" preamble _ Hp He).
  split.
  - intros good bad rest -> Hg Hb.
    rewrite map_app, (colorspace_entry_calls truncate_string good Hg). simpl.
    rewrite colorspace_entry_call, Hb. apply emit_each_stops.
  - intros Hg.
    rewrite (colorspace_entry_calls truncate_string entries Hg), emit_each_all.
    cbn [yielded ending FastaFormat_init]. rewrite !map_map.
    repeat split. apply map_ext. intros e. apply colorspace_format_entry.
Qed.

Lemma colorspace_fasta_reader_round_trip_applied :
  forallb ignored_line [("# Title: run 1" ++ nl)%string] = true
  /\ forallb entry_ok ([colorspace_r1] ++ colorspace_r2 :: []) = true
  /\ FastaReader_iter (fun s => s) (ColorspaceSequence_class (fun s => s)) ""
       (fasta_lines [("# Title: run 1" ++ nl)%string]
          ([colorspace_r1] ++ colorspace_r2 :: [])) =
     mkRun [mkColorspaceSequence (mkSequence "r1" "012031" None "") "T"]
       (Some (FormatError (PrimerNotACGT "" "r2"))).
Proof.
  split; [reflexivity|]. split; [reflexivity|].
  exact (proj1 (colorspace_fasta_reader_round_trip (fun s => s) (fun _ s => s)
                  [("# Title: run 1" ++ nl)%string]
                  ([colorspace_r1] ++ colorspace_r2 :: []) eq_refl eq_refl)
           [colorspace_r1] colorspace_r2 [] eq_refl eq_refl eq_refl).
Defined.

(* ================================================================== *)
(** * Subscripts of colorspace records *)

Lemma length_substring (s : string) (n m : nat) :
  String.length (substring n m s) = Nat.min m (String.length s - n).
Proof.
  revert n m. induction s as [|c s IH]; intros [|n] [|m]; simpl;
    try reflexivity; try (rewrite IH; lia).
  now rewrite IH.
Qed.

Lemma length_slice (s : string) (start stop : option Z) :
  String.length (slice s start stop) =
  Z.to_nat
    (Z.max 0
       (Z.min
          (match stop with
           | Some j => clamp_index (Z.of_nat (String.length s)) j
           | None => Z.of_nat (String.length s)
           end
           - match start with
             | Some i => clamp_index (Z.of_nat (String.length s)) i
             | None => 0
             end)
          (Z.of_nat (String.length s)
           - match start with
             | Some i => clamp_index (Z.of_nat (String.length s)) i
             | None => 0
             end)))%Z.
Proof.
  unfold slice. rewrite length_substring.
  assert (Hc : forall i, (0 <= clamp_index (Z.of_nat (String.length s)) i)%Z).
  { intros i. unfold clamp_index. destruct (i <? 0)%Z eqn:E; lia. }
  destruct start as [i|]; [specialize (Hc i)|]; lia.
Qed.

Lemma length_slice_same (s q : string) (start stop : option Z) :
  String.length s = String.length q ->
  String.length (slice s start stop) = String.length (slice q start stop).
Proof. intros E. now rewrite !length_slice, E. Qed.

(** X13.  A slice of a valid colorspace record is again one: the
    construction cannot fail, the name, the second name and the primer are
    those of the record, and the sequence and the qualities are cut by the
    same bounds, so they stay equally long.  The primer is kept even when
    the slice leaves out the start of the sequence.  An integer index gives
    a record of one colour when it lies from minus the length up to the
    length, excluded, and raises [IndexError] otherwise. *)
Theorem colorspace_getitem_keeps_record (truncate_string : string -> string)
    (cs : ColorspaceSequence) :
  valid_colorspace cs = true ->
  (forall start stop,
     exists cs',
       ColorspaceSequence_getitem truncate_string cs (Slice start stop) = Ok cs'
       /\ cs' = mkColorspaceSequence
                  (mkSequence (name (cs_read cs))
                     (slice (sequence (cs_read cs)) start stop)
                     (option_map (fun q => slice q start stop)
                        (qualities (cs_read cs)))
                     (name2 (cs_read cs)))
                  (primer cs)
       /\ valid_colorspace cs' = true)
  /\ (forall i,
        let n := Z.of_nat (String.length (sequence (cs_read cs))) in
        if ((- n <=? i) && (i <? n))%Z
        then exists cs',
               ColorspaceSequence_getitem truncate_string cs (Index i) = Ok cs'
               /\ primer cs' = primer cs
               /\ sequence (cs_read cs') =
                  substring (Z.to_nat (i mod n)) 1 (sequence (cs_read cs))
               /\ String.length (sequence (cs_read cs')) = 1
               /\ valid_colorspace cs' = true
        else ColorspaceSequence_getitem truncate_string cs (Index i) =
             Raise IndexError).
Proof.
  destruct cs as [[nm sq ql nm2] p]. unfold valid_colorspace. simpl.
  intros V. apply andb_prop in V as [Vp Vq]. split.
  - intros start stop. unfold ColorspaceSequence_getitem. simpl.
    destruct ql as [q|]; simpl.
    + apply Nat.eqb_eq in Vq.
      rewrite ColorspaceSequence_init_cases, Vp.
      rewrite (length_slice_same sq q start stop Vq), Nat.eqb_refl.
      eexists. split; [reflexivity|]. split; [reflexivity|].
      cbn [primer cs_read qualities sequence option_map].
      now rewrite Vp, (length_slice_same sq q start stop Vq), Nat.eqb_refl.
    + rewrite ColorspaceSequence_init_cases, Vp.
      eexists. split; [reflexivity|]. split; [reflexivity|]. simpl.
      now rewrite Vp.
  - intros i.
    set (n := Z.of_nat (String.length sq)).
    unfold ColorspaceSequence_getitem, str_getitem. simpl. fold n.
    assert (Hn : (0 <= n)%Z) by (unfold n; lia).
    destruct (i <? 0)%Z eqn:Ei;
      [apply Z.ltb_lt in Ei | apply Z.ltb_ge in Ei].
    + destruct (Z.leb_spec (- n) i) as [Hlo|Hlo].
      * replace (i <? n)%Z with true by (symmetry; apply Z.ltb_lt; lia).
        replace (0 <=? i + n)%Z with true by (symmetry; apply Z.leb_le; lia).
        replace (i + n <? n)%Z with true by (symmetry; apply Z.ltb_lt; lia).
        simpl.
        assert (Em : (i mod n = i + n)%Z).
        { symmetry. apply (Z.mod_unique i n (-1) (i + n)); lia. }
        rewrite Em.
        assert (L1 : String.length (substring (Z.to_nat (i + n)) 1 sq) = 1).
        { rewrite length_substring. unfold n in *. lia. }
        destruct ql as [q|]; simpl.
        -- apply Nat.eqb_eq in Vq.
           replace (Z.of_nat (String.length q)) with n by (unfold n; lia).
           replace (0 <=? i + n)%Z with true by (symmetry; apply Z.leb_le; lia).
           replace (i + n <? n)%Z with true by (symmetry; apply Z.ltb_lt; lia).
           simpl. rewrite ColorspaceSequence_init_cases, Vp.
           assert (L2 : String.length (substring (Z.to_nat (i + n)) 1 q) = 1).
           { rewrite length_substring. unfold n in *. lia. }
           rewrite L1, L2. simpl.
           eexists. split; [reflexivity|]. simpl.
           rewrite Vp, L1, L2. repeat split.
        -- rewrite ColorspaceSequence_init_cases, Vp.
           eexists. split; [reflexivity|]. simpl. rewrite Vp. repeat split.
           exact L1.
      * simpl.
        replace (0 <=? i + n)%Z with false by (symmetry; apply Z.leb_gt; lia).
        reflexivity.
    + replace (- n <=? i)%Z with true by (symmetry; apply Z.leb_le; lia).
      replace (0 <=? i)%Z with true by (symmetry; apply Z.leb_le; lia).
      simpl. destruct (Z.ltb_spec i n) as [Hhi|Hhi]; simpl; [|reflexivity].
      assert (Em : (i mod n = i)%Z) by (apply Z.mod_small; lia).
      rewrite Em.
      assert (L1 : String.length (substring (Z.to_nat i) 1 sq) = 1).
      { rewrite length_substring. unfold n in *. lia. }
      destruct ql as [q|]; simpl.
      * apply Nat.eqb_eq in Vq.
        replace (Z.of_nat (String.length q)) with n by (unfold n; lia).
        replace (i <? n)%Z with true by (symmetry; apply Z.ltb_lt; lia).
        simpl. rewrite ColorspaceSequence_init_cases, Vp.
        assert (L2 : String.length (substring (Z.to_nat i) 1 q) = 1).
        { rewrite length_substring. unfold n in *. lia. }
        rewrite L1, L2. simpl.
        eexists. split; [reflexivity|]. simpl.
        rewrite Vp, L1, L2. repeat split.
      * rewrite ColorspaceSequence_init_cases, Vp.
        eexists. split; [reflexivity|]. simpl. rewrite Vp. repeat split.
        exact L1.
Qed.

(** The record ["A0123"] with four qualities has no colour at index 4. *)
Lemma colorspace_getitem_keeps_record_applied :
  valid_colorspace
    (mkColorspaceSequence (mkSequence "read" "0123" (Some "IIII") "") "A") = true
  /\ ColorspaceSequence_getitem (fun s => s)
       (mkColorspaceSequence (mkSequence "read" "0123" (Some "IIII") "") "A")
       (Index 4) = Raise IndexError.
Proof.
  split; [reflexivity|].
  exact (proj2 (colorspace_getitem_keeps_record (fun s => s)
                  (mkColorspaceSequence
                     (mkSequence "read" "0123" (Some "IIII") "") "A")
                  eq_refl) 4%Z).
Defined.

(** X14.  [sra_colorspace_sequence] is the colorspace constructor on the
    qualities without their first character.  On a raw sequence that begins
    with a primer base and qualities as long as the raw sequence, one more
    than the colours, it gives the record whose qualities are the given
    ones without the first, where the constructor itself on the same
    arguments raises the [FormatError] for the lengths.  Without qualities
    it raises [TypeError], where the constructor accepts the record. *)
Theorem sra_colorspace_sequence_drops_first_quality
    (truncate_string : string -> string) (name0 raw q name2 : string) :
  is_ACGT (str_head raw) = true ->
  String.length q = String.length raw ->
  sra_colorspace_sequence truncate_string name0 raw (Some q) name2 =
    Ok (mkColorspaceSequence
          (mkSequence name0 (str_tail raw) (Some (str_tail q)) name2)
          (str_head raw))
  /\ ColorspaceSequence_init truncate_string name0 raw (Some q) None name2 =
     Raise (FormatError
              (ColorspaceLengthMismatch (truncate_string name0)
                 (String.length q) (String.length q - 1) (str_head raw)))
  /\ sra_colorspace_sequence truncate_string name0 raw None name2 =
     Raise TypeError
  /\ ColorspaceSequence_init truncate_string name0 raw None None name2 =
     Ok (mkColorspaceSequence (mkSequence name0 (str_tail raw) None name2)
           (str_head raw)).
Proof.
  intros Hp Hl. unfold sra_colorspace_sequence.
  rewrite slice_1, !ColorspaceSequence_init_split,
    !ColorspaceSequence_init_cases, Hp.
  destruct raw as [|c raw]; [discriminate Hp|].
  destruct q as [|d q]; [discriminate Hl|].
  simpl in Hl. injection Hl as Hl.
  cbn [str_tail str_head String.length].
  rewrite Nat.sub_succ, Nat.sub_0_r, <- Hl, Nat.eqb_refl.
  replace (String.length q =? S (String.length q))%nat with false
    by (symmetry; apply Nat.eqb_neq; lia).
  repeat split.
Qed.

Lemma sra_colorspace_sequence_drops_first_quality_applied :
  is_ACGT (str_head "T0120") = true
  /\ String.length "!IIII" = String.length "T0120"
  /\ sra_colorspace_sequence (fun s => s) "read" "T0120" (Some "!IIII") "" =
     Ok (mkColorspaceSequence (mkSequence "read" "0120" (Some "IIII") "") "T").
Proof.
  split; [reflexivity|]. split; [reflexivity|].
  exact (proj1 (sra_colorspace_sequence_drops_first_quality (fun s => s)
                  "read" "T0120" "!IIII" "" eq_refl eq_refl)).
Defined.

(* ================================================================== *)
(** * FASTA with QUAL *)

Lemma dict_lookup_In {V} (k : string) (d : list (string * V)) (v : V) :
  dict_lookup k d = Some v -> In (k, v) d.
Proof.
  induction d as [|[k' v'] d IH]; simpl; [discriminate|].
  destruct (String.eqb_spec k k') as [->|_].
  - intros [= ->]. now left.
  - intros H. right. now apply IH.
Qed.

Lemma conv_items :
  conv = map (fun v => (str_of_int v, chr (v + 33))) (rev quality_values).
Proof. vm_compute. reflexivity. Qed.

Lemma quality_values_range (v : Z) :
  In v quality_values <-> quality_value v = true.
Proof.
  unfold quality_values, quality_value. rewrite in_map_iff. split.
  - intros [k [<- Hk]]. apply in_seq in Hk.
    apply andb_true_intro. split; [apply Z.leb_le | apply Z.ltb_lt]; lia.
  - intros H. apply andb_prop in H as [H1 H2].
    apply Z.leb_le in H1. apply Z.ltb_lt in H2.
    exists (Z.to_nat (v + 5)). split; [lia|]. apply in_seq. lia.
Qed.

Lemma conv_complete :
  forallb
    (fun v =>
       match dict_lookup (str_of_int v) conv with
       | Some c => Ascii.eqb c (chr (v + 33))
       | None => false
       end && is_word (str_of_int v))
    quality_values = true.
Proof. vm_compute. reflexivity. Qed.

Lemma conv_lookup (v : Z) :
  quality_value v = true ->
  dict_lookup (str_of_int v) conv = Some (chr (v + 33))
  /\ is_word (str_of_int v) = true.
Proof.
  intros H. apply quality_values_range in H.
  pose proof (proj1 (forallb_forall _ _) conv_complete v H) as C.
  apply andb_prop in C as [C W]. split; [|exact W].
  destruct (dict_lookup (str_of_int v) conv) as [c|]; [|discriminate].
  apply Ascii.eqb_eq in C. now subst.
Qed.

(** X15.  The table [conv] of the QUAL reader holds exactly the integers
    from -5 up to 222 in the decimal notation of [str]: each of them is
    looked up to the character with code point [v + 33], and a token that
    is found is the [str] of such an integer.  So a token with a plus sign,
    with leading zeros, or out of this range is not in the table. *)
Theorem conv_holds_decimal_qualities :
  (forall v, quality_value v = true ->
     dict_lookup (str_of_int v) conv = Some (chr (v + 33)))
  /\ (forall token c, dict_lookup token conv = Some c ->
        exists v, quality_value v = true
                  /\ token = str_of_int v /\ c = chr (v + 33))
  /\ dict_lookup "+5" conv = None
  /\ dict_lookup "05" conv = None
  /\ dict_lookup "-6" conv = None
  /\ dict_lookup "223" conv = None
  /\ dict_lookup "-0" conv = None.
Proof.
  split; [intros v H; apply (conv_lookup v H)|].
  split; [|vm_compute; repeat split].
  intros token c H. apply dict_lookup_In in H.
  rewrite conv_items in H. apply in_map_iff in H as [v [E Hv]].
  injection E as <- <-. exists v. split; [|split; reflexivity].
  apply quality_values_range. now apply in_rev.
Qed.

Lemma words_from_word (w cur rest : string) :
  no_space w = true ->
  words_from cur (w ++ rest) = words_from (cur ++ w) rest.
Proof.
  revert cur. induction w as [|c w IH]; intros cur Hw; simpl.
  - now rewrite append_nil_r.
  - simpl in Hw. apply andb_prop in Hw as [Hc Hw].
    apply negb_true_iff in Hc. rewrite Hc, (IH _ Hw), append_assoc.
    reflexivity.
Qed.

Lemma words_from_space (sep rest : string) :
  all_space sep = true ->
  words_from "" (sep ++ rest) = words_from "" rest.
Proof.
  induction sep as [|c sep IH]; simpl; [reflexivity|].
  intros H. apply andb_prop in H as [Hc Hs]. now rewrite Hc, IH.
Qed.

Lemma words_from_end (cur sep rest : string) :
  cur <> "" -> all_space sep = true -> sep <> "" ->
  words_from cur (sep ++ rest) = cur :: words_from "" rest.
Proof.
  intros Hcur Hs Hne. destruct sep as [|c sep]; [congruence|].
  simpl in *. apply andb_prop in Hs as [Hc Hs]. rewrite Hc.
  destruct cur; [congruence|]. now rewrite words_from_space.
Qed.

Lemma words_from_last (cur sep : string) :
  cur <> "" -> all_space sep = true ->
  words_from cur sep = [cur].
Proof.
  intros Hcur Hs. destruct sep as [|c sep].
  - simpl. destruct cur; congruence.
  - rewrite <- (append_nil_r (String c sep)).
    rewrite words_from_end by (assumption || discriminate). reflexivity.
Qed.

Lemma split_none_qual_text (items : list (Z * string)) :
  forallb quality_value (map fst items) = true ->
  separated items = true ->
  split_none (qual_text items) = map str_of_int (map fst items).
Proof.
  unfold split_none. induction items as [|[v sep] items IH]; [reflexivity|].
  simpl. intros Hq Hs.
  apply andb_prop in Hq as [Hv Hq].
  apply andb_prop in Hs as [Hs Hrest]. apply andb_prop in Hs as [Hsp Hne].
  destruct (conv_lookup v Hv) as [_ W]. unfold is_word in W.
  apply andb_prop in W as [Wne Wns].
  assert (Hcur : str_of_int v <> "").
  { intros E. rewrite E in Wne. discriminate. }
  rewrite (words_from_word _ "" _ Wns). simpl append.
  destruct items as [|item items].
  - simpl qual_text. rewrite append_nil_r.
    now rewrite words_from_last.
  - rewrite orb_false_r in Hne. apply negb_true_iff in Hne.
    rewrite words_from_end; try assumption.
    + now rewrite (IH Hq Hrest).
    + intros E. rewrite E in Hne. discriminate.
Qed.

Lemma decode_values_phred33 (values : list Z) :
  forallb quality_value values = true ->
  decode_values (map str_of_int values) = inl (phred33 values).
Proof.
  induction values as [|v values IH]; [reflexivity|].
  cbn [map decode_values forallb phred33].
  intros H. apply andb_prop in H as [Hv H].
  destruct (conv_lookup v Hv) as [-> _]. now rewrite (IH H).
Qed.

(** X16.  The sequence of a QUAL record that holds quality values from -5
    to 222 in decimal, separated by white space of any kind and length
    (blanks within a line, the line breaks that the reader keeps) and with
    white space before or after, is decoded to the string with one
    character of code point [v + 33] for each value, in order; its length
    is the number of values. *)
Theorem qual_text_decodes_to_phred33 (lead : string) (items : list (Z * string)) :
  all_space lead = true ->
  forallb quality_value (map fst items) = true ->
  separated items = true ->
  decode_values (split_none (lead ++ qual_text items)) =
    inl (phred33 (map fst items))
  /\ String.length (phred33 (map fst items)) = List.length items.
Proof.
  intros Hl Hq Hs. split.
  - unfold split_none. rewrite (words_from_space lead _ Hl).
    fold (split_none (qual_text items)).
    rewrite (split_none_qual_text items Hq Hs).
    now apply decode_values_phred33.
  - clear. induction items as [|[v sep] items IH]; simpl; congruence.
Qed.

Lemma qual_text_decodes_to_phred33_applied :
  all_space "" = true
  /\ forallb quality_value (map fst [(40, " "); (40, nl); (2, " "); (0, "")]%Z)
     = true
  /\ separated [(40, " "); (40, nl); (2, " "); (0, "")]%Z = true
  /\ decode_values (split_none ("40 40" ++ nl ++ "2 0")) = inl "II#!"%string.
Proof.
  split; [reflexivity|]. split; [reflexivity|]. split; [reflexivity|].
  exact (proj1 (qual_text_decodes_to_phred33 ""
                  [(40, " "); (40, nl); (2, " "); (0, "")]%Z
                  eq_refl eq_refl eq_refl)).
Defined.

Lemma FastaReader_rejects_any (truncate_string : string -> string) {S}
    (sequence_class : string -> string -> option string -> result S)
    (delimiter : string) (ignored : list string) (raw : string)
    (rest : list string) :
  forallb ignored_line ignored = true ->
  sequence_line raw = true ->
  FastaReader_iter truncate_string sequence_class delimiter
    (ignored ++ raw :: rest) =
  raise (FormatError
           (ExpectedHeader (length ignored + 1) (truncate_string (strip raw)))).
Proof.
  intros Hi Hs. unfold FastaReader_iter.
  rewrite gloop_preamble by exact Hi.
  unfold sequence_line in Hs.
  apply andb_prop in Hs as [Hs H3]. apply andb_prop in Hs as [H1 H2].
  apply negb_true_iff in H1, H2, H3. simpl. now rewrite H1, H2, H3.
Qed.

Lemma iterator_of_yielded {A} (l : list A) :
  iterator_of_run (mkRun l None) = iter_of_list l.
Proof.
  unfold iterator_of_run. simpl. induction l as [|a l IH]; simpl; congruence.
Qed.

(** X17.  [FastaQualReader] walks the records of the two files in step and
    stops at the end of the shorter list without an error: surplus records
    of either file are never reported.  Each record it yields is the call
    of the sequence class on the name and sequence of the FASTA record and
    the decoded qualities of the QUAL record of the same position, whose
    name is the same.  It ends with an error exactly when it has yielded
    fewer records than the shorter list holds, and the error is that of
    the first pair that it could not deliver: the names differ; else a
    token is not a quality value; else the class refuses the record. *)
Theorem fastaqual_reader_in_step {S}
    (sequence_class : string -> string -> option string -> result S)
    (fs qs : list Sequence) :
  let out := FastaQualReader_loop sequence_class (iter_of_list fs)
               (iter_of_list qs) in
  length (fst out) <= Nat.min (length fs) (length qs)
  /\ (forall i f q r,
        nth_error fs i = Some f -> nth_error qs i = Some q ->
        nth_error (fst out) i = Some r ->
        name f = name q
        /\ exists quals,
             decode_values (split_none (sequence q)) = inl quals
             /\ sequence_class (name f) (sequence f) (Some quals) = Ok r)
  /\ (snd out = None <->
      length (fst out) = Nat.min (length fs) (length qs))
  /\ (forall e, snd out = Some e ->
        exists f q,
          nth_error fs (length (fst out)) = Some f
          /\ nth_error qs (length (fst out)) = Some q
          /\ ((name f <> name q /\ e = NamesDoNotMatch (name f) (name q))
              \/ (name f = name q
                  /\ exists token,
                       decode_values (split_none (sequence q)) = inr token
                       /\ e = InvalidQualityValue (name f) token)
              \/ (name f = name q
                  /\ exists quals ex,
                       decode_values (split_none (sequence q)) = inl quals
                       /\ sequence_class (name f) (sequence f) (Some quals)
                          = Raise ex
                       /\ e = ReaderRaised ex))).
Proof.
  cbv zeta. revert qs. induction fs as [|f fs IH]; intros qs.
  - cbn [iter_of_list FastaQualReader_loop fst snd length Nat.min].
    split; [lia|]. split; [intros [|i] f' q' r' Hf; discriminate Hf|].
    split; [split; reflexivity|]. intros e' H; discriminate H.
  - destruct qs as [|q qs].
    + cbn [iter_of_list FastaQualReader_loop fst snd length].
      split; [lia|]. split; [intros [|i] f' q' r' Hf Hq; discriminate Hq|].
      split; [split; intros; [lia|reflexivity]|]. intros e' H; discriminate H.
    + cbn [iter_of_list FastaQualReader_loop length].
      destruct (String.eqb_spec (name f) (name q)) as [En|En]; cbn [negb].
      2:{ cbn [fst snd length nth_error].
          split; [lia|].
          split; [intros [|i] f' q' r' Hf Hq Hr; discriminate Hr|].
          split; [split; intros H; [discriminate H|simpl in H; lia]|].
          intros e' [= <-]. exists f, q. repeat split. left. now split. }
      destruct (decode_values (split_none (sequence q))) as [quals|token] eqn:Ed.
      2:{ cbn [fst snd length nth_error].
          split; [lia|].
          split; [intros [|i] f' q' r' Hf Hq Hr; discriminate Hr|].
          split; [split; intros H; [discriminate H|simpl in H; lia]|].
          intros e' [= <-]. exists f, q. repeat split. right. left.
          split; [exact En|]. now exists token. }
      destruct (sequence_class (name f) (sequence f) (Some quals))
        as [r|ex] eqn:Ec.
      2:{ cbn [fst snd length nth_error].
          split; [lia|].
          split; [intros [|i] f' q' r' Hf Hq Hr; discriminate Hr|].
          split; [split; intros H; [discriminate H|simpl in H; lia]|].
          intros e' [= <-]. exists f, q. repeat split. right. right.
          split; [exact En|]. now exists quals, ex. }
      specialize (IH qs).
      destruct (FastaQualReader_loop sequence_class (iter_of_list fs)
                  (iter_of_list qs)) as [reads e].
      cbn [fst snd length nth_error] in *.
      destruct IH as (IH1 & IH2 & IH3 & IH4).
      split; [simpl Nat.min; lia|]. split; [|split].
      * intros [|i] f' q' r' Hf Hq Hr; cbn [nth_error] in *.
        -- injection Hf as <-. injection Hq as <-. injection Hr as <-.
           split; [exact En|]. now exists quals.
        -- now apply (IH2 i).
      * rewrite IH3. simpl Nat.min. lia.
      * intros e' He. apply (IH4 e' He).
Qed.

(** X18.  On two well-formed files [FastaQualReader] pairs the FASTA
    records, their sequence lines joined without a gap, with the QUAL
    records, their lines joined by line breaks.  A file that the FASTA
    reader refuses ends the iteration with that reader's [FormatError] and
    no record; the FASTA file is asked first, so its error hides anything
    wrong in the QUAL file.  When the FASTA file holds no record at all the
    QUAL file is never read, and even a QUAL file that is no FASTA file
    goes unnoticed. *)
Theorem fastaqual_reader_on_files (truncate_string : string -> string) {S}
    (sequence_class : string -> string -> option string -> result S) :
  (forall preamble entries qual_preamble qual_entries,
     forallb ignored_line preamble = true ->
     forallb entry_ok entries = true ->
     forallb ignored_line qual_preamble = true ->
     forallb entry_ok qual_entries = true ->
     FastaQualReader_iter truncate_string sequence_class
       (fasta_lines preamble entries)
       (fasta_lines qual_preamble qual_entries) =
     FastaQualReader_loop sequence_class
       (iter_of_list (map read_entry entries))
       (iter_of_list
          (map (fun e => mkSequence (header_of e)
                           (join nl (residues_of (entry_body e))) None "")
               qual_entries)))
  /\ (forall ignored raw rest qual_lines,
        forallb ignored_line ignored = true ->
        sequence_line raw = true ->
        FastaQualReader_iter truncate_string sequence_class
          (ignored ++ raw :: rest) qual_lines =
        ([], Some (ReaderRaised
                     (FormatError
                        (ExpectedHeader (length ignored + 1)
                           (truncate_string (strip raw)))))))
  /\ (forall preamble e entries ignored raw rest,
        forallb ignored_line preamble = true ->
        forallb entry_ok (e :: entries) = true ->
        forallb ignored_line ignored = true ->
        sequence_line raw = true ->
        FastaQualReader_iter truncate_string sequence_class
          (fasta_lines preamble (e :: entries)) (ignored ++ raw :: rest) =
        ([], Some (ReaderRaised
                     (FormatError
                        (ExpectedHeader (length ignored + 1)
                           (truncate_string (strip raw)))))))
  /\ (forall preamble qual_lines,
        forallb ignored_line preamble = true ->
        FastaQualReader_iter truncate_string sequence_class
          (fasta_lines preamble []) qual_lines = ([], None)).
Proof.
  unfold FastaQualReader_iter.
  change (fun n q x => Sequence_init truncate_string n q x "")
    with (Sequence_class truncate_string).
  repeat split.
  - intros preamble entries qpre qentries Hp He Hqp Hqe.
    rewrite (FastaReader_run truncate_string preamble entries Hp He).
    rewrite (FastaReader_calls truncate_string _ nl qpre qentries Hqp Hqe).
    change (map (entry_call (Sequence_class truncate_string) nl) qentries)
      with (map (fun e => Ok (mkSequence (header_of e)
                                (join nl (residues_of (entry_body e))) None ""))
              qentries).
    rewrite <- (map_map _ Ok), emit_each_all, !iterator_of_yielded.
    reflexivity.
  - intros ignored raw rest qual_lines Hi Hs.
    now rewrite (FastaReader_rejects truncate_string ignored raw rest Hi Hs).
  - intros preamble e entries ignored raw rest Hp He Hi Hs.
    rewrite (FastaReader_run truncate_string preamble _ Hp He).
    rewrite (FastaReader_rejects_any truncate_string _ nl ignored raw rest Hi Hs).
    reflexivity.
  - intros preamble qual_lines Hp.
    now rewrite (FastaReader_run truncate_string preamble [] Hp eq_refl).
Qed.

(* ================================================================== *)
(** * Further properties: the formats of names *)

Lemma lower_char_idem (c : ascii) : lower_char (lower_char c) = lower_char c.
Proof. destruct c as [[] [] [] [] [] [] [] []]; vm_compute; reflexivity. Qed.

Lemma lower_idem (s : string) : lower (lower s) = lower s.
Proof.
  induction s as [|c s IH]; simpl; [reflexivity|].
  now rewrite lower_char_idem, IH.
Qed.

Lemma guess_from_extension_formats (name0 fmt ext : string) :
  guess_from_extension name0 = (Some fmt, ext) ->
  In fmt ["fasta"; "fastq"; "sam"; "bam"].
Proof.
  unfold guess_from_extension.
  destruct (splitext_compressed name0) as [[stem ext1] comp].
  destruct (in_strs (lower ext1) [".fasta"; ".fa"; ".fna"; ".csfasta"; ".csfa"]).
  { intros [= <- _]. simpl. auto. }
  destruct (in_strs (lower ext1) [".fastq"; ".fq"]
            || (lower ext1 =? ".txt")%string && endswith stem "_sequence").
  { intros [= <- _]. simpl. auto. }
  destruct (in_strs (lower ext1) [".sam"; ".bam"]) eqn:E; [|discriminate].
  apply in_strs_In in E. intros [= <- _].
  destruct E as [<-|[<-|[]]]; simpl; auto.
Qed.

Lemma guess_format_from_name_found_or_not (path : pyfile) :
  (exists fmt,
     In fmt ["fasta"; "fastq"; "sam"; "bam"]
     /\ forall r, guess_format_from_name path r = Ok (Some fmt))
  \/ (guess_format_from_name path false = Ok None
      /\ exists e,
           guess_format_from_name path true = Raise e
           /\ ((exists ext, e = UnknownFileType (ExtensionNotRecognized ext))
               \/ (e = UnboundLocalError "ext"
                   /\ (path_name path = None \/ path_name path = Some "")))).
Proof.
  unfold guess_format_from_name.
  destruct (path_name path) as [[|c n]|].
  - right. split; [reflexivity|]. eexists. split; [reflexivity|]. right. auto.
  - destruct (guess_from_extension (String c n)) as [[fmt|] ext] eqn:E.
    + left. exists fmt. split; [|reflexivity].
      exact (guess_from_extension_formats _ _ _ E).
    + right. split; [reflexivity|]. eexists. split; [reflexivity|].
      left. now exists ext.
  - right. split; [reflexivity|]. eexists. split; [reflexivity|]. right. auto.
Qed.

(** X19.  [guess_format_from_name] returns no other format than ['fasta'],
    ['fastq'], ['sam'] and ['bam'], and the format does not depend on
    [raise_on_failure].  Without [raise_on_failure] it never raises; with
    it, it never returns without a value, and raises exactly when the other
    call returns [None]: the unknown-file-type error with the extension, or
    [UnboundLocalError] when the path has no name or an empty one.  A file
    object is judged by its [name] alone, as the path of that name is,
    whatever it holds; a [FileWithPrependedLine], which has no [name], has
    no format. *)
Theorem guess_format_from_name_outcomes (path : pyfile) :
  (exists res, guess_format_from_name path false = Ok res)
  /\ (forall fmt r,
        guess_format_from_name path r = Ok (Some fmt) ->
        In fmt ["fasta"; "fastq"; "sam"; "bam"]
        /\ forall r', guess_format_from_name path r' = Ok (Some fmt))
  /\ guess_format_from_name path true <> Ok None
  /\ (guess_format_from_name path false = Ok None <->
      exists e, guess_format_from_name path true = Raise e)
  /\ (forall e, guess_format_from_name path true = Raise e ->
        (exists ext, e = UnknownFileType (ExtensionNotRecognized ext))
        \/ (e = UnboundLocalError "ext"
            /\ (path_name path = None \/ path_name path = Some "")))
  /\ (forall n lines r,
        guess_format_from_name (FileObj (Some n) lines) r =
        guess_format_from_name (PathStr n) r)
  /\ (forall first_line file,
        guess_format_from_name (Prepended first_line file) false = Ok None).
Proof.
  destruct (guess_format_from_name_found_or_not path)
    as [(fmt & Hin & Hg) | (Hf & e & Ht & He)].
  - split; [now exists (Some fmt); rewrite Hg|].
    split; [intros fmt' r Hr; rewrite Hg in Hr; injection Hr as <-; auto|].
    split; [rewrite Hg; discriminate|].
    split; [rewrite !Hg; split; [discriminate | intros [e He]; discriminate]|].
    split; [intros e He; rewrite Hg in He; discriminate|].
    split; reflexivity.
  - split; [now exists None|].
    split; [intros fmt' [|] Hr; [rewrite Ht in Hr | rewrite Hf in Hr];
            discriminate|].
    split; [rewrite Ht; discriminate|].
    split; [split; [now exists e | intros _; exact Hf]|].
    split; [intros e' He'; rewrite Ht in He'; injection He' as <-; exact He|].
    split; reflexivity.
Qed.

(* ================================================================== *)
(** * Further properties: the output factory *)

(** X20.  With [qualities] one of [None], [True] and [False], [get_format]
    never raises the error that the type could not be determined: the
    statement that raises it cannot be reached.  What it returns is the
    FASTA or the FASTQ formatter, the colorspace one exactly when
    [colorspace] is set, the FASTA one with the line length given.  What it
    raises is the [ValueError] for FASTQ without qualities, the error for a
    format it does not write, or, only without a format and without
    [qualities], what [guess_format_from_name] raises. *)
Theorem get_format_outcomes (path : pyfile) (fileformat : option string)
    (colorspace : bool) (qualities : option bool) (line_length : option nat) :
  let got := get_format path fileformat colorspace qualities line_length in
  got <> Raise (UnknownFileType CouldNotDetermine)
  /\ (forall fmt, got = Ok fmt ->
        fmt = (if colorspace
               then ColorspaceFastaFormat (FastaFormat_init line_length)
               else FastaFormat (FastaFormat_init line_length))
        \/ fmt = (if colorspace then ColorspaceFastqFormat else FastqFormat))
  /\ (forall e, got = Raise e ->
        e = ValueError FastqWithoutQualities
        \/ (exists f, e = UnknownFileType (UnknownWriterFormat f))
        \/ (fileformat = None /\ qualities = None
            /\ guess_format_from_name path true = Raise e)).
Proof.
  cbv zeta.
  assert (Hexplicit : forall f q,
            let got := get_format path (Some f) colorspace q line_length in
            got <> Raise (UnknownFileType CouldNotDetermine)
            /\ (forall fmt, got = Ok fmt ->
                  fmt = (if colorspace
                         then ColorspaceFastaFormat (FastaFormat_init line_length)
                         else FastaFormat (FastaFormat_init line_length))
                  \/ fmt = (if colorspace then ColorspaceFastqFormat
                            else FastqFormat))
            /\ (forall e, got = Raise e ->
                  e = ValueError FastqWithoutQualities
                  \/ (exists f', e = UnknownFileType (UnknownWriterFormat f')))).
  { intros f q. cbv zeta. unfold get_format. cbn [bind].
    destruct ((f =? "fastq")%string
              && match q with Some false => true | _ => false end).
    { split; [discriminate|].
      split; [intros fmt H; discriminate H | intros e [= <-]; auto]. }
    destruct (lower f =? "fasta")%string.
    { split; [discriminate|].
      split; [intros fmt [= <-]; auto | intros e H; discriminate H]. }
    destruct (lower f =? "fastq")%string.
    { split; [discriminate|].
      split; [intros fmt [= <-]; auto | intros e H; discriminate H]. }
    split; [discriminate|].
    split; [intros fmt H; discriminate H | intros e [= <-]; eauto]. }
  destruct fileformat as [f|].
  { destruct (Hexplicit f qualities) as (H1 & H2 & H3).
    split; [exact H1|]. split; [exact H2|].
    intros e He. destruct (H3 e He) as [H|H]; auto. }
  destruct (guess_format_from_name_found_or_not path)
    as [(fmt & _ & Hg) | (Hf & e & Ht & He)].
  - assert (E : get_format path None colorspace qualities line_length =
                get_format path (Some fmt) colorspace qualities line_length).
    { unfold get_format. now rewrite Hg. }
    rewrite E. destruct (Hexplicit fmt qualities) as (H1 & H2 & H3).
    split; [exact H1|]. split; [exact H2|].
    intros e He. destruct (H3 e He) as [H|H]; auto.
  - destruct qualities as [[|]|].
    + assert (E : get_format path None colorspace (Some true) line_length =
                  get_format path (Some "fastq") colorspace (Some true)
                    line_length).
      { unfold get_format. simpl is_none. now rewrite Hf. }
      rewrite E. destruct (Hexplicit "fastq"%string (Some true)) as (H1 & H2 & H3).
      split; [exact H1|]. split; [exact H2|].
      intros e' He'. destruct (H3 e' He') as [H|H]; auto.
    + assert (E : get_format path None colorspace (Some false) line_length =
                  get_format path (Some "fasta") colorspace (Some false)
                    line_length).
      { unfold get_format. simpl is_none. now rewrite Hf. }
      rewrite E. destruct (Hexplicit "fasta"%string (Some false)) as (H1 & H2 & H3).
      split; [exact H1|]. split; [exact H2|].
      intros e' He'. destruct (H3 e' He') as [H|H]; auto.
    + assert (E : get_format path None colorspace None line_length = Raise e).
      { unfold get_format. simpl is_none. now rewrite Ht. }
      rewrite E.
      split.
      { intros [= ->]. destruct He as [[ext He]|[He _]]; discriminate He. }
      split; [intros fmt H; discriminate H|].
      intros e' [= <-]. right. right. auto.
Qed.

(** X21.  A format that [guess_format_from_name] finds in the name of the
    path acts as the same format given explicitly, whatever [qualities]
    says: a FASTA name with [qualities] true gives the FASTA formatter, a
    FASTQ name with [qualities] false is refused, and a name that is
    recognized as SAM or BAM is always refused as a format that cannot be
    written. *)
Theorem get_format_by_name (path : pyfile) (fmt : string) (colorspace : bool)
    (qualities : option bool) (line_length : option nat) :
  guess_format_from_name path false = Ok (Some fmt) ->
  let got := get_format path None colorspace qualities line_length in
  got = get_format path (Some fmt) colorspace qualities line_length
  /\ (fmt = "fasta"%string ->
      got = Ok (if colorspace
                then ColorspaceFastaFormat (FastaFormat_init line_length)
                else FastaFormat (FastaFormat_init line_length)))
  /\ (fmt = "fastq"%string ->
      got = match qualities with
            | Some false => Raise (ValueError FastqWithoutQualities)
            | _ => Ok (if colorspace then ColorspaceFastqFormat else FastqFormat)
            end)
  /\ (fmt = "sam"%string \/ fmt = "bam"%string ->
      got = Raise (UnknownFileType (UnknownWriterFormat fmt))).
Proof.
  intros Hg. cbv zeta.
  assert (Hr : forall r, guess_format_from_name path r = Ok (Some fmt)).
  { destruct (guess_format_from_name_found_or_not path)
      as [(fmt' & _ & H) | (Hf & _)]; [|rewrite Hf in Hg; discriminate].
    intros r. rewrite H in Hg. injection Hg as <-. apply H. }
  assert (E : get_format path None colorspace qualities line_length =
              get_format path (Some fmt) colorspace qualities line_length).
  { unfold get_format. now rewrite Hr. }
  rewrite E. split; [reflexivity|].
  split; [intros ->; reflexivity|].
  split; [intros ->; destruct qualities as [[|]|]; reflexivity|].
  intros [->| ->]; destruct qualities as [[|]|]; reflexivity.
Qed.

Lemma get_format_by_name_applied :
  guess_format_from_name (PathStr "out/reads.sam.gz") false = Ok (Some "sam")
  /\ get_format (PathStr "out/reads.sam.gz") None false (Some true) None =
     Raise (UnknownFileType (UnknownWriterFormat "sam")).
Proof.
  split; [reflexivity|].
  exact (proj2 (proj2 (proj2 (get_format_by_name (PathStr "out/reads.sam.gz")
                                "sam" false (Some true) None eq_refl)))
           (or_introl eq_refl)).
Defined.

(** X22.  An explicit format is taken without regard to its case, with one
    exception: the check that refuses FASTQ when there are no qualities
    compares the format as it was written.  So a format that is ['fastq']
    only after lower-casing gets the FASTQ formatter even with [qualities]
    false, where its lower-case form is refused.  In every other case the
    format and its lower-case form give the same result, on any path. *)
Theorem get_format_case_of_format (path : pyfile) (f : string)
    (colorspace : bool) (line_length : option nat) :
  lower f = "fastq"%string ->
  (f =? "fastq")%string = false ->
  get_format path (Some f) colorspace (Some false) line_length =
    Ok (if colorspace then ColorspaceFastqFormat else FastqFormat)
  /\ get_format path (Some (lower f)) colorspace (Some false) line_length =
     Raise (ValueError FastqWithoutQualities)
  /\ (forall path' (g : string) qualities,
        qualities <> Some false \/ lower g <> "fastq"%string ->
        get_format path (Some g) colorspace qualities line_length =
        get_format path' (Some (lower g)) colorspace qualities line_length).
Proof.
  intros Hl Hf. unfold get_format. cbn [bind].
  rewrite Hf, Hl. simpl. split; [reflexivity|]. split; [reflexivity|].
  intros path' g q Hq. rewrite lower_idem.
  destruct ((g =? "fastq")%string
            && match q with Some false => true | _ => false end) eqn:C1.
  { exfalso. apply andb_prop in C1 as [C1 C2].
    apply String.eqb_eq in C1. subst g. destruct q as [[|]|]; try discriminate.
    destruct Hq as [Hq|Hq]; [congruence | apply Hq; reflexivity]. }
  destruct ((lower g =? "fastq")%string
            && match q with Some false => true | _ => false end) eqn:C2.
  { exfalso. apply andb_prop in C2 as [C2 C3].
    apply String.eqb_eq in C2. destruct q as [[|]|]; try discriminate.
    destruct Hq as [Hq|Hq]; congruence. }
  reflexivity.
Qed.

Lemma get_format_case_of_format_applied :
  lower "FASTQ" = "fastq"%string
  /\ ("FASTQ" =? "fastq")%string = false
  /\ get_format (PathStr "out.txt") (Some "FASTQ") false (Some false) None =
     Ok FastqFormat.
Proof.
  split; [reflexivity|]. split; [reflexivity|].
  exact (proj1 (get_format_case_of_format (PathStr "out.txt") "FASTQ" false
                  None eq_refl eq_refl)).
Defined.

(* ================================================================== *)
(** * Further properties: the input factory *)

Section OpenReaderFacts.
Variable STDOUT : string.
Variable sys_stdin : pyfile.

Local Abbreviation single := (open_single STDOUT sys_stdin).
Local Abbreviation opener := (open_reader STDOUT sys_stdin).

(** The call with one file and an explicit format. *)
Lemma open_single_explicit (file1 : pyfile) (colorspace : bool) (f : string) :
  single file1 colorspace (Some f) =
  if in_strs (lower f) ["sam"; "bam"] then
    if colorspace then Raise (ValueError SamBamColorspace)
    else Ok (SingleEndSAMReader file1)
  else if (lower f =? "fasta")%string then
    Ok (if colorspace then ColorspaceFastaReader file1 else FastaReader file1)
  else if (lower f =? "fastq")%string then
    Ok (if colorspace then ColorspaceFastqReader file1 else FastqReader file1)
  else if (lower f =? "sra-fastq")%string && colorspace then
    Ok (SRAColorspaceFastqReader file1)
  else Raise (UnknownFileType (UnknownReaderFormat (Some (lower f)))).
Proof.
  unfold open_single, open_reader_body. simpl.
  destruct (in_strs (lower f) ["sam"; "bam"]); reflexivity.
Qed.

Lemma open_single_explicit_outcomes (file1 : pyfile) (colorspace : bool)
    (f : string) :
  (forall reader, single file1 colorspace (Some f) = Ok reader ->
     reader_files reader = [file1])
  /\ (forall e, single file1 colorspace (Some f) = Raise e ->
        e = ValueError SamBamColorspace
        \/ e = UnknownFileType (UnknownReaderFormat (Some (lower f)))).
Proof.
  rewrite open_single_explicit.
  destruct (in_strs (lower f) ["sam"; "bam"]);
    [|destruct (lower f =? "fasta")%string;
      [|destruct (lower f =? "fastq")%string;
        [|destruct ((lower f =? "sra-fastq")%string && colorspace)]]];
    destruct colorspace; split;
    try (intros reader [= <-]; reflexivity);
    try (intros e [= <-]; auto);
    try (intros ? H; discriminate H).
Qed.

(** The call with one file, [interleaved] or not, and an explicit format. *)
Lemma open_reader_explicit (file1 : pyfile) (colorspace : bool) (f : string)
    (interleaved : bool) (single_input_read : option nat) :
  let opened := opener file1 None None colorspace (Some f) interleaved
                  single_input_read in
  opened = opener file1 None None colorspace (Some (lower f)) interleaved
             single_input_read
  /\ (forall reader, opened = Ok reader -> reader_files reader = [file1])
  /\ (forall e, opened = Raise e ->
        e = ValueError SamBamColorspace
        \/ e = UnknownFileType (UnknownReaderFormat (Some (lower f)))).
Proof.
  cbv zeta. unfold open_reader, open_reader_body.
  cbn [is_none negb andb orb bind]. rewrite !andb_false_r. cbn [bind].
  rewrite lower_idem.
  split; [reflexivity|].
  destruct (in_strs (lower f) ["sam"; "bam"]) eqn:Es.
  { destruct colorspace;
      [split; [intros ? H; discriminate H | intros e [= <-]; auto]|].
    destruct interleaved;
      [split; [intros ? [= <-]; reflexivity | intros ? H; discriminate H]|].
    destruct single_input_read as [[|[|[|n]]]|];
      (split; [intros ? [= <-]; reflexivity | intros ? H; discriminate H]). }
  destruct interleaved.
  { destruct (open_single_explicit_outcomes file1 colorspace (lower f))
      as [Hok Herr].
    rewrite lower_idem in Herr.
    destruct (single file1 colorspace (Some (lower f))) as [inner|e0];
      cbn [bind].
    - specialize (Hok inner eq_refl).
      destruct single_input_read as [[|[|[|n]]]|];
        (split; [intros ? [= <-]; exact Hok | intros ? H; discriminate H]).
    - split; [intros ? H; discriminate H|].
      intros e [= <-]. now apply Herr. }
  destruct (lower f =? "fasta")%string;
    [|destruct (lower f =? "fastq")%string;
      [|destruct ((lower f =? "sra-fastq")%string && colorspace)]];
    destruct colorspace; split;
    try (intros reader [= <-]; reflexivity);
    try (intros e [= <-]; auto);
    try (intros ? H; discriminate H).
Qed.

End OpenReaderFacts.

(** X23.  With one file and an explicit format, [open_reader] takes the
    format without regard to its case.  The reader it returns is built on
    the file as it was given: no line is read, no wrapper is put around it,
    and the path that stands for the standard streams is handed on as it
    is.  On a file object, where the constructor of the reader has nothing
    to open, it raises only the [ValueError] for SAM or BAM with
    colorspace, or the unknown-format error with the format in lower
    case. *)
Theorem open_reader_explicit_format (STDOUT : string) (sys_stdin : pyfile)
    (file1 : pyfile) (colorspace : bool) (f : string) (interleaved : bool)
    (single_input_read : option nat) :
  let opened := open_reader STDOUT sys_stdin file1 None None colorspace
                  (Some f) interleaved single_input_read in
  opened = open_reader STDOUT sys_stdin file1 None None colorspace
             (Some (lower f)) interleaved single_input_read
  /\ (forall reader, opened = Ok reader -> reader_files reader = [file1])
  /\ (is_path file1 = false ->
      forall e, opened = Raise e ->
        e = ValueError SamBamColorspace
        \/ e = UnknownFileType (UnknownReaderFormat (Some (lower f)))).
Proof.
  destruct (open_reader_explicit STDOUT sys_stdin file1 colorspace f
              interleaved single_input_read) as (H1 & H2 & H3).
  split; [exact H1|]. split; [exact H2|]. intros _. exact H3.
Qed.

(** X24.  When [file1] is not the path of the standard streams and its name
    tells a format, [open_reader] without a format does what it does with
    that format given: the content is not looked at, so the reader is
    built on [file1] itself and a file whose content is of another format,
    or of none, is opened all the same. *)
Theorem open_reader_by_name (STDOUT : string) (sys_stdin : pyfile)
    (file1 : pyfile) (fmt : string) (colorspace interleaved : bool)
    (single_input_read : option nat) :
  is_STDOUT STDOUT file1 = false ->
  guess_format_from_name file1 false = Ok (Some fmt) ->
  let opened := open_reader STDOUT sys_stdin file1 None None colorspace None
                  interleaved single_input_read in
  opened = open_reader STDOUT sys_stdin file1 None None colorspace (Some fmt)
             interleaved single_input_read
  /\ (forall reader, opened = Ok reader -> reader_files reader = [file1]).
Proof.
  intros Hs Hg. cbv zeta.
  assert (E : open_reader STDOUT sys_stdin file1 None None colorspace None
                interleaved single_input_read =
              open_reader STDOUT sys_stdin file1 None None colorspace (Some fmt)
                interleaved single_input_read).
  { unfold open_reader, open_reader_body.
    cbn [is_none negb andb orb]. rewrite Hs. cbn [negb]. rewrite Hg.
    reflexivity. }
  rewrite E. split; [reflexivity|].
  apply (open_reader_explicit STDOUT sys_stdin file1 colorspace fmt interleaved
           single_input_read).
Qed.

Lemma open_reader_by_name_applied :
  is_STDOUT "-" (FileObj (Some "reads.fq.gz") [">r1" ++ nl; "ACGT" ++ nl]%string)
    = false
  /\ guess_format_from_name
       (FileObj (Some "reads.fq.gz") [">r1" ++ nl; "ACGT" ++ nl]%string) false
     = Ok (Some "fastq")
  /\ open_reader "-" (FileObj None [])
       (FileObj (Some "reads.fq.gz") [">r1" ++ nl; "ACGT" ++ nl]%string)
       None None false None false None =
     open_reader "-" (FileObj None [])
       (FileObj (Some "reads.fq.gz") [">r1" ++ nl; "ACGT" ++ nl]%string)
       None None false (Some "fastq") false None.
Proof.
  split; [reflexivity|]. split; [reflexivity|].
  exact (proj1 (open_reader_by_name "-" (FileObj None [])
                  (FileObj (Some "reads.fq.gz")
                     [">r1" ++ nl; "ACGT" ++ nl]%string)
                  "fastq" false false None eq_refl eq_refl)).
Defined.

Lemma skip_comments_all (lines : list string) :
  forallb (fun l => startswith l "#") lines = true ->
  skip_comments lines = None.
Proof.
  induction lines as [|l ls IH]; [reflexivity|]. simpl.
  intros H. apply andb_prop in H as [H1 H]. rewrite H1. now apply IH.
Qed.

(** X25.  An open stream whose name tells no format and whose content
    tells none either is refused with the unknown-format error that names
    no format: when the stream is empty or holds only lines that start
    with ['#'], and when its first other line starts neither with ['>'] nor
    with ['@'].  This holds with and without [colorspace], [interleaved]
    and [single_input_read]. *)
Theorem open_reader_undetected (STDOUT : string) (sys_stdin : pyfile)
    (fname : option string) (lines : list string)
    (colorspace interleaved : bool) (single_input_read : option nat) :
  guess_format_from_name (FileObj fname lines) false = Ok None ->
  let opened := open_reader STDOUT sys_stdin (FileObj fname lines) None None
                  colorspace None interleaved single_input_read in
  (forallb (fun l => startswith l "#") lines = true ->
   opened = Raise (UnknownFileType (UnknownReaderFormat None)))
  /\ (forall comments line rest,
        lines = comments ++ line :: rest ->
        forallb (fun l => startswith l "#") comments = true ->
        startswith line "#" = false ->
        startswith line ">" = false ->
        startswith line "@" = false ->
        opened = Raise (UnknownFileType (UnknownReaderFormat None))).
Proof.
  intros Hg. cbv zeta. unfold open_reader, open_reader_body.
  cbn [is_none negb andb orb is_STDOUT]. rewrite !andb_false_r.
  rewrite Hg. cbn [bind]. unfold detect_from_content.
  cbn [is_STDOUT first_data_line]. split.
  - intros Hc. now rewrite (skip_comments_all lines Hc).
  - intros comments line rest -> Hc H1 H2 H3.
    now rewrite (skip_comments_app comments line rest Hc H1), H2, H3.
Qed.

Lemma open_reader_undetected_applied :
  guess_format_from_name
    (FileObj (Some "<stdin>") ["# produced by a tool" ++ nl; "r1 ACGT" ++ nl]%string)
    false = Ok None
  /\ open_reader "-" (FileObj None [])
       (FileObj (Some "<stdin>") ["# produced by a tool" ++ nl; "r1 ACGT" ++ nl]%string)
       None None false None false None =
     Raise (UnknownFileType (UnknownReaderFormat None)).
Proof.
  split; [reflexivity|].
  exact (proj2 (open_reader_undetected "-" (FileObj None [])
                  (Some "<stdin>")
                  ["# produced by a tool" ++ nl; "r1 ACGT" ++ nl]%string
                  false false None eq_refl)
           [("# produced by a tool" ++ nl)%string] ("r1 ACGT" ++ nl)%string []
           eq_refl eq_refl eq_refl eq_refl eq_refl).
Defined.

(** X26.  For the path that stands for the standard streams the name is
    not consulted: without a format, [open_reader] on it does what it does
    on [sys.stdin] itself, a stream whose name tells no format, and so
    decides by the first line of the standard input that is no comment. *)
Theorem open_reader_standard_input (STDOUT : string) (sys_stdin : pyfile)
    (colorspace interleaved : bool) (single_input_read : option nat) :
  is_STDOUT STDOUT sys_stdin = false ->
  guess_format_from_name sys_stdin false = Ok None ->
  open_reader STDOUT sys_stdin (PathStr STDOUT) None None colorspace None
    interleaved single_input_read =
  open_reader STDOUT sys_stdin sys_stdin None None colorspace None
    interleaved single_input_read.
Proof.
  intros Hs Hg. unfold open_reader, open_reader_body.
  cbn [is_none negb andb orb]. rewrite Hs, Hg.
  cbn [is_STDOUT]. rewrite String.eqb_refl. cbn [negb bind].
  unfold detect_from_content. cbn [is_STDOUT].
  now rewrite String.eqb_refl, Hs.
Qed.

Lemma open_reader_standard_input_applied :
  is_STDOUT "-" (FileObj (Some "<stdin>") ["@r1" ++ nl; "ACGT" ++ nl]%string)
    = false
  /\ guess_format_from_name
       (FileObj (Some "<stdin>") ["@r1" ++ nl; "ACGT" ++ nl]%string) false
     = Ok None
  /\ open_reader "-" (FileObj (Some "<stdin>") ["@r1" ++ nl; "ACGT" ++ nl]%string)
       (PathStr "-") None None false None false None =
     Ok (FastqReader
           (Prepended ("@r1" ++ nl)
              (FileObj (Some "<stdin>") [("ACGT" ++ nl)%string]))).
Proof.
  split; [reflexivity|]. split; [reflexivity|].
  exact (open_reader_standard_input "-"
           (FileObj (Some "<stdin>") ["@r1" ++ nl; "ACGT" ++ nl]%string)
           false false None eq_refl eq_refl).
Defined.

Lemma open_reader_body_raises (STDOUT : string) (sys_stdin : pyfile)
    (self : pyfile -> bool -> option string -> result Reader)
    (file1 : pyfile) (file2 qualfile : option pyfile) (colorspace : bool)
    (fileformat : option string) (interleaved : bool)
    (single_input_read : option nat) (e : exn) :
  (is_none file2 = false \/ interleaved = true ->
   forall f c g e', self f c g = Raise e' -> open_reader_error e' = true) ->
  open_reader_body STDOUT sys_stdin self file1 file2 qualfile colorspace
    fileformat interleaved single_input_read = Raise e ->
  open_reader_error e = true.
Proof.
  intros Hself. unfold open_reader_body.
  destruct (interleaved && (negb (is_none file2) || negb (is_none qualfile))).
  { now intros [= <-]. }
  destruct (negb (is_none file2) && negb (is_none qualfile)).
  { now intros [= <-]. }
  destruct file2 as [file2|].
  { specialize (Hself (or_introl eq_refl)).
    destruct (self file1 colorspace fileformat) as [r1|e1] eqn:E1; cbn [bind].
    - destruct (self file2 colorspace fileformat) as [r2|e2] eqn:E2; cbn [bind].
      + discriminate.
      + intros [= <-]. exact (Hself _ _ _ _ E2).
    - intros [= <-]. exact (Hself _ _ _ _ E1). }
  destruct qualfile as [qualfile|]; [discriminate|].
  assert (Hff : exists x,
            (if is_none fileformat && negb (is_STDOUT STDOUT file1)
             then guess_format_from_name file1 false
             else Ok fileformat) = Ok x).
  { destruct (is_none fileformat && negb (is_STDOUT STDOUT file1));
      [|now exists fileformat].
    destruct (guess_format_from_name_found_or_not file1)
      as [(fmt & _ & H) | (H & _)]; rewrite H; eauto. }
  destruct Hff as [x ->]. cbn [bind].
  destruct (match x with
            | Some f => (Some f, file1)
            | None => detect_from_content STDOUT sys_stdin file1
            end) as [[f|] file1'].
  2:{ now intros [= <-]. }
  destruct (in_strs (lower f) ["sam"; "bam"]).
  { destruct colorspace; [now intros [= <-]|].
    destruct interleaved; [discriminate|].
    destruct single_input_read as [[|[|[|n]]]|]; discriminate. }
  destruct interleaved.
  { specialize (Hself (or_intror eq_refl)).
    destruct (self file1' colorspace (Some (lower f))) as [inner|e0] eqn:E0;
      cbn [bind].
    - destruct single_input_read as [[|[|[|n]]]|]; discriminate.
    - intros [= <-]. exact (Hself _ _ _ _ E0). }
  destruct (lower f =? "fasta")%string; [discriminate|].
  destruct (lower f =? "fastq")%string; [discriminate|].
  destruct ((lower f =? "sra-fastq")%string && colorspace); [discriminate|].
  now intros [= <-].
Qed.

(** X27.  Given file objects, so that no reader has a path to open, and,
    for the two files of a pair, an explicit format, so that nothing is
    read from either while it is opened, [open_reader] raises nothing but
    its own three [ValueError]s and the unknown-format error of a reader;
    the calls it makes for the two files of a pair and for an interleaved
    file raise nothing else either.  In particular it never raises what
    [guess_format_from_name] can raise, since it calls it without
    [raise_on_failure]: a file object without a name is no error here. *)
Theorem open_reader_raises_only (STDOUT : string) (sys_stdin : pyfile)
    (file1 : pyfile) (file2 qualfile : option pyfile) (colorspace : bool)
    (fileformat : option string) (interleaved : bool)
    (single_input_read : option nat) (e : exn) :
  is_path file1 = false ->
  no_path file2 = true ->
  no_path qualfile = true ->
  is_none file2 || negb (is_none fileformat) = true ->
  open_reader STDOUT sys_stdin file1 file2 qualfile colorspace fileformat
    interleaved single_input_read = Raise e ->
  open_reader_error e = true.
Proof.
  intros _ _ _ _. unfold open_reader. apply open_reader_body_raises.
  intros _ f c g e'. unfold open_single. apply open_reader_body_raises.
  intros [H|H]; discriminate H.
Qed.

Lemma open_reader_raises_only_applied :
  is_path (FileObj (Some "reads_1.dat") []) = false
  /\ no_path (Some (FileObj (Some "reads_2.dat") [])) = true
  /\ no_path None = true
  /\ is_none (Some (FileObj (Some "reads_2.dat") []))
     || negb (is_none (Some "fastx"%string)) = true
  /\ open_reader "-" (FileObj None []) (FileObj (Some "reads_1.dat") [])
       (Some (FileObj (Some "reads_2.dat") [])) None false (Some "fastx")
       false None =
     Raise (UnknownFileType (UnknownReaderFormat (Some "fastx")))
  /\ open_reader_error (UnknownFileType (UnknownReaderFormat (Some "fastx")))
     = true.
Proof.
  split; [reflexivity|]. split; [reflexivity|]. split; [reflexivity|].
  split; [reflexivity|]. split; [reflexivity|].
  exact (open_reader_raises_only "-" (FileObj None [])
           (FileObj (Some "reads_1.dat") [])
           (Some (FileObj (Some "reads_2.dat") [])) None false (Some "fastx")
           false None
           (UnknownFileType (UnknownReaderFormat (Some "fastx")))
           eq_refl eq_refl eq_refl eq_refl eq_refl).
Defined.

(* ================================================================== *)
(** * Further properties: the formatters *)

Lemma dict_lookup_extend_same (d : list (string * list string)) (k : string)
    (l items : list string) :
  dict_lookup k d = Some l ->
  dict_lookup k (dict_extend d k items) = Some (l ++ items).
Proof.
  induction d as [|[k' l'] d IH]; simpl; [discriminate|].
  destruct (k =? k')%string eqn:E; simpl; rewrite E.
  - now intros [= ->].
  - exact IH.
Qed.

Lemma dict_lookup_extend_other (d : list (string * list string))
    (k k' : string) (items : list string) :
  (k =? k')%string = false ->
  dict_lookup k (dict_extend d k' items) = dict_lookup k d.
Proof.
  intros N. induction d as [|[k0 l0] d IH]; simpl; [reflexivity|].
  destruct (k' =? k0)%string eqn:E; simpl.
  - apply String.eqb_eq in E. subst k0. now rewrite N.
  - destruct (k =? k0)%string; [reflexivity | exact IH].
Qed.

Lemma dict_extend_twice (d : list (string * list string)) (k : string)
    (a b : list string) :
  dict_extend (dict_extend d k a) k b = dict_extend d k (a ++ b).
Proof.
  induction d as [|[k0 l0] d IH]; simpl; [reflexivity|].
  destruct (k =? k0)%string eqn:E; simpl; rewrite E.
  - now rewrite <- app_assoc.
  - now rewrite IH.
Qed.

Lemma map_Ok_cons {A B} (f : A -> result B) (a : A) (l : list A)
    (outs : list B) :
  map f (a :: l) = map Ok outs ->
  exists b outs', outs = b :: outs' /\ f a = Ok b /\ map f l = map Ok outs'.
Proof.
  destruct outs as [|b outs']; simpl; [discriminate|].
  intros [= E1 E2]. now exists b, outs'.
Qed.

(** X28.  A [PairedEndFormatter] on two different files, both present in
    the dictionary, given pairs whose reads can all be formatted, appends
    to the list of the first file the formatted first reads and to the
    list of the second file the formatted second reads, each in the order
    of the pairs and after what the lists held; the lists of other files
    are left as they are.  It counts one for each pair and adds the
    lengths of the first reads to [read1_bp] and those of the second reads
    to [read2_bp]. *)
Theorem paired_formatter_batch {R} (format : R -> result string)
    (len : R -> nat) (file1 file2 : string) (self : counters)
    (result : list (string * list string)) (pairs : list (R * R))
    (l1 l2 outs1 outs2 : list string) :
  (file1 =? file2)%string = false ->
  dict_lookup file1 result = Some l1 ->
  dict_lookup file2 result = Some l2 ->
  map format (map fst pairs) = map Ok outs1 ->
  map format (map snd pairs) = map Ok outs2 ->
  let out := format_all (PairedEndFormatter_format format len file1 file2)
               self result pairs in
  snd out = None
  /\ dict_lookup file1 (fst (fst out)) = Some (l1 ++ outs1)
  /\ dict_lookup file2 (fst (fst out)) = Some (l2 ++ outs2)
  /\ (forall k, (k =? file1)%string = false -> (k =? file2)%string = false ->
        dict_lookup k (fst (fst out)) = dict_lookup k result)
  /\ written (snd (fst out)) = written self + length pairs
  /\ written_bp (snd (fst out)) =
     (read1_bp self + list_sum (map len (map fst pairs)),
      read2_bp self + list_sum (map len (map snd pairs))).
Proof.
  intros N. cbv zeta. unfold written_bp.
  revert self result l1 l2 outs1 outs2.
  induction pairs as [|[r1 r2] more IH];
    intros self result l1 l2 outs1 outs2 H1 H2 E1 E2.
  - destruct outs1; [|discriminate]. destruct outs2; [|discriminate].
    simpl. rewrite !app_nil_r, !Nat.add_0_r. repeat split; auto.
  - cbn [map fst snd] in E1, E2.
    apply map_Ok_cons in E1 as (s1 & outs1' & -> & F1 & E1).
    apply map_Ok_cons in E2 as (s2 & outs2' & -> & F2 & E2).
    assert (N' : (file2 =? file1)%string = false)
      by (rewrite String.eqb_sym; exact N).
    assert (Hstep :
              PairedEndFormatter_format format len file1 file2 self result r1 r2
              = (dict_extend (dict_extend result file1 [s1]) file2 [s2],
                 mkCounters (written self + 1) (read1_bp self + len r1)
                   (read2_bp self + len r2),
                 None)).
    { unfold PairedEndFormatter_format. rewrite H1, F1. cbv zeta.
      now rewrite (dict_lookup_extend_other result file2 file1 [s1] N'), H2, F2. }
    cbn [format_all]. rewrite Hstep.
    assert (P1 : dict_lookup file1
                   (dict_extend (dict_extend result file1 [s1]) file2 [s2])
                 = Some (l1 ++ [s1])).
    { rewrite (dict_lookup_extend_other _ file1 file2 [s2] N).
      now apply dict_lookup_extend_same. }
    assert (P2 : dict_lookup file2
                   (dict_extend (dict_extend result file1 [s1]) file2 [s2])
                 = Some (l2 ++ [s2])).
    { apply dict_lookup_extend_same.
      now rewrite (dict_lookup_extend_other result file2 file1 [s1] N'). }
    destruct (IH (mkCounters (written self + 1) (read1_bp self + len r1)
                    (read2_bp self + len r2))
                (dict_extend (dict_extend result file1 [s1]) file2 [s2])
                (l1 ++ [s1]) (l2 ++ [s2]) outs1' outs2' P1 P2 E1 E2)
      as (I1 & I2 & I3 & I4 & I5 & I6).
    split; [exact I1|].
    split; [rewrite I2, <- app_assoc; reflexivity|].
    split; [rewrite I3, <- app_assoc; reflexivity|].
    split.
    { intros k K1 K2. rewrite (I4 k K1 K2).
      now rewrite !dict_lookup_extend_other. }
    split; [rewrite I5; cbn [written length]; lia|].
    rewrite I6. simpl. f_equal; lia.
Qed.

Lemma paired_formatter_batch_applied :
  ("out.1.fa" =? "out.2.fa")%string = false
  /\ dict_lookup "out.1.fa" [("out.1.fa", [">a" ++ nl]); ("out.2.fa", [])]%string
     = Some [(">a" ++ nl)%string]
  /\ dict_lookup "out.2.fa" [("out.1.fa", [">a" ++ nl]); ("out.2.fa", [])]%string
     = Some []
  /\ map (fun s => Ok (">" ++ s ++ nl)%string) (map fst [("b", "c"); ("d", "e")])
     = map Ok [">b" ++ nl; ">d" ++ nl]%string
  /\ map (fun s => Ok (">" ++ s ++ nl)%string) (map snd [("b", "c"); ("d", "e")])
     = map Ok [">c" ++ nl; ">e" ++ nl]%string
  /\ dict_lookup "out.1.fa"
       (fst (fst (format_all
                    (PairedEndFormatter_format
                       (fun s => Ok (">" ++ s ++ nl)%string) String.length
                       "out.1.fa" "out.2.fa")
                    new_counters
                    [("out.1.fa", [">a" ++ nl]); ("out.2.fa", [])]%string
                    [("b", "c"); ("d", "e")])))
     = Some ([(">a" ++ nl)%string] ++ [">b" ++ nl; ">d" ++ nl]%string).
Proof.
  split; [reflexivity|]. split; [reflexivity|]. split; [reflexivity|].
  split; [reflexivity|]. split; [reflexivity|].
  exact (proj1 (proj2 (paired_formatter_batch
                         (fun s => Ok (">" ++ s ++ nl)%string) String.length
                         "out.1.fa" "out.2.fa" new_counters
                         [("out.1.fa", [">a" ++ nl]); ("out.2.fa", [])]%string
                         [("b", "c"); ("d", "e")]
                         [(">a" ++ nl)%string] []
                         [">b" ++ nl; ">d" ++ nl]%string
                         [">c" ++ nl; ">e" ++ nl]%string
                         eq_refl eq_refl eq_refl eq_refl eq_refl))).
Defined.

(** X29.  [create_seq_formatter] raises exactly what [get_format] raises on
    the first file and the keyword arguments; the second file has no part
    in the choice of the format.  It refuses no combination of its own
    arguments: when a second file is given, [interleaved] is ignored and
    the formatter is the paired one, where [open_reader] on the same
    combination raises a [ValueError].  A paired formatter whose two files
    are the same writes and counts as the interleaved formatter does
    whenever the second read can be formatted; when the second read cannot
    be formatted, the paired formatter has already written the first read
    where the interleaved one has written nothing, and neither has
    counted the pair.  Writing the two reads of a pair with two calls of
    the single-end formatter puts into the file what the interleaved
    formatter puts there, but counts two records and all bases as bases of
    first reads. *)
Theorem formatter_of_two_files_and_interleaved :
  (forall file1 file2 interleaved fileformat colorspace qualities line_length e,
     create_seq_formatter file1 file2 interleaved fileformat colorspace
       qualities line_length = Raise e <->
     get_format file1 fileformat colorspace qualities line_length = Raise e)
  /\ (forall file1 file2 interleaved fileformat colorspace qualities
        line_length seq_format,
        get_format file1 fileformat colorspace qualities line_length
          = Ok seq_format ->
        create_seq_formatter file1 (Some file2) interleaved fileformat
          colorspace qualities line_length =
        Ok (PairedEndFormatter seq_format file1 file2))
  /\ (forall STDOUT sys_stdin file1 file2 qualfile colorspace fileformat
        single_input_read,
        open_reader STDOUT sys_stdin file1 (Some file2) qualfile colorspace
          fileformat true single_input_read =
        Raise (ValueError InterleavedWithSecondInput))
  /\ (forall R (format : R -> result string) (len : R -> nat) file self result
        read1 read2 s2,
        format read2 = Ok s2 ->
        PairedEndFormatter_format format len file file self result read1 read2 =
        InterleavedFormatter_format format len file self result read1 read2)
  /\ (forall R (format : R -> result string) (len : R -> nat) file self result
        read1 read2 l s1 e,
        dict_lookup file result = Some l ->
        format read1 = Ok s1 ->
        format read2 = Raise e ->
        PairedEndFormatter_format format len file file self result read1 read2 =
          (dict_extend result file [s1], self, Some (FormatRaised e))
        /\ InterleavedFormatter_format format len file self result read1 read2 =
           (result, self, Some (FormatRaised e)))
  /\ (forall R (format : R -> result string) (len : R -> nat) file self result
        read1 read2 l s1 s2,
        dict_lookup file result = Some l ->
        format read1 = Ok s1 ->
        format read2 = Ok s2 ->
        let first :=
          SingleEndFormatter_format format len file self result read1 None in
        let second :=
          SingleEndFormatter_format format len file (snd (fst first))
            (fst (fst first)) read2 None in
        let pair :=
          InterleavedFormatter_format format len file self result read1 read2 in
        snd second = None /\ snd pair = None
        /\ fst (fst pair) = fst (fst second)
        /\ dict_lookup file (fst (fst pair)) = Some (l ++ [s1; s2])
        /\ written (snd (fst pair)) = written self + 1
        /\ written (snd (fst second)) = written self + 2
        /\ written_bp (snd (fst pair)) =
           (read1_bp self + len read1, read2_bp self + len read2)
        /\ written_bp (snd (fst second)) =
           (read1_bp self + len read1 + len read2, read2_bp self)).
Proof.
  split; [|split; [|split; [|split; [|split]]]].
  - intros file1 file2 il ff cs q ll e. unfold create_seq_formatter.
    destruct (get_format file1 ff cs q ll) as [fmt|e0]; cbn [bind].
    + destruct file2; [|destruct il]; split; intros H; discriminate H.
    + split; intros [= <-]; reflexivity.
  - intros file1 file2 il ff cs q ll fmt H. unfold create_seq_formatter.
    now rewrite H.
  - reflexivity.
  - intros R format len file self result read1 read2 s2 F2.
    unfold PairedEndFormatter_format, InterleavedFormatter_format.
    destruct (dict_lookup file result) as [l|] eqn:L; [|reflexivity].
    destruct (format read1) as [s1|e1]; [|reflexivity].
    rewrite (dict_lookup_extend_same result file l [s1] L), F2.
    now rewrite dict_extend_twice.
  - intros R format len file self result read1 read2 l s1 e L F1 F2.
    unfold PairedEndFormatter_format, InterleavedFormatter_format.
    rewrite L, F1, (dict_lookup_extend_same result file l [s1] L), F2.
    split; reflexivity.
  - intros R format len file self result read1 read2 l s1 s2 L F1 F2.
    cbv zeta.
    unfold SingleEndFormatter_format, InterleavedFormatter_format, written_bp.
    rewrite L, F1, F2. cbn [fst snd].
    rewrite (dict_lookup_extend_same result file l [s1] L), ?F2. cbn [fst snd].
    rewrite dict_extend_twice, (dict_lookup_extend_same result file l _ L).
    cbn [written read1_bp read2_bp app].
    repeat split; lia.
Qed.

(* ================================================================== *)
(** * Further properties: the life cycle of a reader *)

(** X30.  A [SequenceReader] closes only a file that it has opened itself.
    Made on a path, it opens the file; [close] closes that file once, a
    second [close] does nothing, and to enter the closed reader raises the
    [ValueError].  Made on a file object, it never closes it: [close]
    leaves the reader as it is, and the reader can be entered again after
    [close] and after [__exit__].  Whatever the state of a reader, [close]
    after [close] changes nothing and closes nothing. *)
Theorem sequence_reader_life_cycle (xopen : string -> pyfile) :
  (forall p,
     let self := SequenceReader_init xopen (PathStr p) in
     SequenceReader_enter self = inl self
     /\ snd (SequenceReader_close self) = Some (xopen p)
     /\ SequenceReader_enter (fst (SequenceReader_close self)) =
        inr ClosedSequenceReader
     /\ SequenceReader_enter (fst (SequenceReader_exit self)) =
        inr ClosedSequenceReader)
  /\ (forall file,
        (forall p, file <> PathStr p) ->
        let self := SequenceReader_init xopen file in
        _file self = Some file
        /\ SequenceReader_close self = (self, None)
        /\ SequenceReader_exit self = (self, None)
        /\ SequenceReader_enter (fst (SequenceReader_exit self)) = inl self)
  /\ (forall self,
        SequenceReader_close (fst (SequenceReader_close self)) =
        (fst (SequenceReader_close self), None)).
Proof.
  split; [|split].
  - intros p. repeat split.
  - intros file Hf. destruct file as [p| |]; [now contradiction (Hf p)| |];
      repeat split.
  - intros [[f|] [|]]; reflexivity.
Qed.
